(** * Job orchestration of the image service: intake, classifier, worker, engine adapter

    A shallow embedding of [backend/utils.py], [backend/model.py],
    [backend/app.py], [backend/comfy_client.py] and [backend/worker.py].

    Python [str] values are sequences of Unicode code points; they are
    embedded as [list N].  The state store (Redis), the classification
    service, the generation engine and the file system are outside the
    program: their answers are supplied by an environment, and every call
    to them may answer with an exception, as the client libraries do. *)

From Stdlib Require Import String Ascii NArith ZArith QArith Lia.
From stdpp Require Import base option list gmap pretty.

Set Default Proof Using "Type".
Local Open Scope N_scope.

(** ** Python strings *)

Abbreviation pystr := (list N).

(** An ASCII literal of the source, one code point per character. *)
Definition lit (s : string) : pystr :=
  List.map N_of_ascii (list_ascii_of_string s).

(** [str.isspace] for one code point: the characters [str.strip()] removes. *)
Definition is_space (c : N) : bool :=
  ((0x09 <=? c) && (c <=? 0x0D)) || ((0x1C <=? c) && (c <=? 0x20))
  || (c =? 0x85) || (c =? 0xA0) || (c =? 0x1680)
  || ((0x2000 <=? c) && (c <=? 0x200A))
  || (c =? 0x2028) || (c =? 0x2029) || (c =? 0x202F) || (c =? 0x205F)
  || (c =? 0x3000).

(** Removal of the leading, resp. trailing, characters that satisfy [f]. *)
Fixpoint lstrip_with (f : N -> bool) (s : pystr) : pystr :=
  match s with
  | c :: s' => if f c then lstrip_with f s' else s
  | [] => []
  end.

Definition rstrip_with (f : N -> bool) (s : pystr) : pystr :=
  rev (lstrip_with f (rev s)).

Definition lstrip : pystr -> pystr := lstrip_with is_space.
Definition rstrip : pystr -> pystr := rstrip_with is_space.

(** [s.strip()] *)
Definition strip (s : pystr) : pystr := rstrip (lstrip s).

(** Truth value of a string: [not s] is [is_empty s]. *)
Definition is_empty (s : pystr) : bool :=
  match s with [] => true | _ => false end.

(** Case mapping of one code point.  The table covers Basic Latin, the
    Latin-1 Supplement, the Vietnamese block of Latin Extended Additional,
    U+0130 and the Kelvin sign: these are all the code points whose
    lower-case form contains a character of an edit keyword.  Any other code
    point is kept, which cannot change what the keyword test sees. *)
Definition lower_cp (c : N) : pystr :=
  if (0x41 <=? c) && (c <=? 0x5A) then [c + 32]
  else if (0xC0 <=? c) && (c <=? 0xDE) && negb (c =? 0xD7) then [c + 32]
  else if c =? 0x130 then [0x69; 0x307]
  else if (0x1EA0 <=? c) && (c <=? 0x1EFE) && N.even c then [c + 1]
  else if c =? 0x212A then [0x6B]
  else [c].

(** [s.lower()] *)
Definition lower (s : pystr) : pystr := flat_map lower_cp s.

(** Upper-case mapping: Basic Latin, Latin-1 and the dotless i, the only
    single code points that map onto a letter of "NEW" or "EDIT". *)
Definition upper_cp (c : N) : pystr :=
  if (0x61 <=? c) && (c <=? 0x7A) then [c - 32]
  else if (0xE0 <=? c) && (c <=? 0xFE) && negb (c =? 0xF7) then [c - 32]
  else if c =? 0x131 then [0x49]
  else [c].

(** [s.upper()] *)
Definition upper (s : pystr) : pystr := flat_map upper_cp s.

Fixpoint startswith (kw s : pystr) : bool :=
  match kw, s with
  | [], _ => true
  | k :: kw', c :: s' => (k =? c) && startswith kw' s'
  | _ :: _, [] => false
  end.

(** [kw in s] on strings: [kw] occurs as a substring of [s]. *)
Fixpoint contains (kw s : pystr) : bool :=
  startswith kw s ||
  match s with
  | [] => false
  | _ :: s' => contains kw s'
  end.

Definition pystr_eqb (a b : pystr) : bool := bool_decide (a = b).

(** ** backend/utils.py: the keyword fallback *)

Definition NEW : pystr := lit "NEW".
Definition EDIT : pystr := lit "EDIT".

Definition edit_keywords : list pystr :=
  [ lit "edit"; lit "remove"; lit "erase"; lit "delete"; lit "change";
    lit "fix"; lit "replace"; lit "add "; lit "add something";
    lit "make her"; lit "make him"; lit "remove text";
    [0x78; 0xF3; 0x61];              (* x o-acute a *)
    [0x78; 0x6F; 0xE1];              (* x o a-acute *)
    [0x73; 0x1EED; 0x61];            (* s u-horn-hook a *)
    [0x63; 0x68; 0x1EC9; 0x6E; 0x68] (* c h i-hook n h *) ].

(** [OllamaModeClassifier._fallback_rule] *)
Definition _fallback_rule (prompt : pystr) : pystr :=
  let p := lower prompt in
  if existsb (fun kw => contains kw p) edit_keywords then EDIT else NEW.

(** ** Exceptions

    The subclasses of [Exception] the program raises or receives from its
    libraries.  [LibraryError] stands for whatever a client library raises
    (connection and protocol errors, time-outs, HTTP status errors, JSON
    decoding errors, attribute and type errors, file-system errors); its
    argument is the text [str(e)] gives.  That text is supplied by the
    environment wherever the program keeps it (the worker stores it in the
    error record of the job); where an exception is only caught, or leaves
    the program unread, the name of its class stands for the text. *)
Inductive exn :=
| HTTPException (status_code : Z) (detail : pystr)
| RequestValidationError
| RuntimeError (msg : pystr)
| KeyError (key : pystr)
| LibraryError (msg : pystr).

(** [str(e)]; the key of a [KeyError] is shown quoted. *)
Definition str_exn (e : exn) : pystr :=
  match e with
  | HTTPException c d => lit (pretty c) ++ lit ": " ++ d
  | RequestValidationError => lit "RequestValidationError"
  | RuntimeError m => m
  | KeyError k => lit "'" ++ k ++ lit "'"
  | LibraryError m => m
  end.

(** ** Decoded JSON values, as [json.loads] and [resp.json()] return them *)
Local Unset Elimination Schemes.
Inductive json :=
| JNull
| JBool (b : bool)
| JNum (z : Z)
| JStr (s : pystr)
| JArr (l : list json)
| JObj (kv : list (pystr * json)).
Local Set Elimination Schemes.

(** Truth value of a decoded JSON value ([x or y], [if x]). *)
Definition truthy (j : json) : bool :=
  match j with
  | JNull => false
  | JBool b => b
  | JNum z => negb (z =? 0)%Z
  | JStr s => negb (is_empty s)
  | JArr l => match l with [] => false | _ => true end
  | JObj kv => match kv with [] => false | _ => true end
  end.

(** Lookup in a dict kept in key order. *)
Fixpoint assoc {A} (k : pystr) (kv : list (pystr * A)) : option A :=
  match kv with
  | [] => None
  | (k', v) :: kv' => if pystr_eqb k k' then Some v else assoc k kv'
  end.

(** [j.get(key, default)]: only a dict has [get]. *)
Definition json_get (j : json) (key : pystr) (default : json) : option json :=
  match j with
  | JObj kv => Some (from_option id default (assoc key kv))
  | _ => None
  end.

(** ** backend/model.py *)

Inductive Status := waiting | processing | done | error.

Record GenerateRequest := {
  user_id : pystr;
  prompt : pystr;
  mode : option pystr
}.

Record GenerateResponse := {
  resp_job_id : pystr;
  resp_status : Status
}.

(** [Mode = Literal["NEW", "EDIT"]] *)
Definition Mode (m : pystr) : bool := pystr_eqb m NEW || pystr_eqb m EDIT.

(** Validation of the request body against [GenerateRequest]: a supplied
    [mode] has to be one of the two literals. *)
Definition validate_GenerateRequest (u p : pystr) (m : option pystr)
  : option GenerateRequest :=
  match m with
  | None => Some {| user_id := u; prompt := p; mode := None |}
  | Some m' =>
      if Mode m' then Some {| user_id := u; prompt := p; mode := Some m' |}
      else None
  end.

(** ** The state store and the rest of the world *)

(** The JSON object kept under [job:{job_id}]. *)
Record JobRecord := {
  status : Status;
  image_url : option pystr;
  error_message : option pystr
}.

(** A value of the store: the [json.dumps] of a job record, or a plain
    string. *)
Inductive value :=
| VJob (r : JobRecord)
| VStr (s : pystr).

(** An element of the list [image_jobs]: the [json.dumps] of a dict with
    string values, or a text [json.loads] rejects. *)
Inductive qitem :=
| QDict (d : gmap pystr pystr)
| QText (s : pystr).

Inductive event :=
| EvGet (key : pystr)
| EvSet (key : pystr) (v : value)
| EvLPush (key : pystr) (item : qitem)
| EvBRPop (key : pystr)
| EvUuid (u : pystr)
| EvClassify (p : pystr)
| EvOllamaPost (sys_prompt : pystr)
| EvBuildWorkflow
| EvStageImage (url : pystr)
| EvSaveDebug (filename : pystr)
| EvComfyPost (client_id : pystr)
| EvPoll (prompt_id : pystr)
| EvSleep (seconds : Q).

Record World := {
  store : gmap pystr value;
  queue : list qitem;            (* [image_jobs], left end first *)
  faults : list (option exn);    (* how the store answers the coming commands:
                                    [Some e] makes that command raise [e] *)
  uuids : nat;                   (* uuid4 values drawn so far *)
  polls : nat;                   (* history polls made so far *)
  trace : list event             (* completed interactions, latest first *)
}.

Definition with_store (f : gmap pystr value -> gmap pystr value) (w : World) :=
  {| store := f (store w); queue := queue w; faults := faults w;
     uuids := uuids w; polls := polls w; trace := trace w |}.
Definition with_queue (q : list qitem) (w : World) :=
  {| store := store w; queue := q; faults := faults w;
     uuids := uuids w; polls := polls w; trace := trace w |}.
Definition with_faults (fs : list (option exn)) (w : World) :=
  {| store := store w; queue := queue w; faults := fs;
     uuids := uuids w; polls := polls w; trace := trace w |}.
Definition with_uuids (n : nat) (w : World) :=
  {| store := store w; queue := queue w; faults := faults w;
     uuids := n; polls := polls w; trace := trace w |}.
Definition with_polls (n : nat) (w : World) :=
  {| store := store w; queue := queue w; faults := faults w;
     uuids := uuids w; polls := n; trace := trace w |}.
Definition log (e : event) (w : World) :=
  {| store := store w; queue := queue w; faults := faults w;
     uuids := uuids w; polls := polls w; trace := e :: trace w |}.

(** ** Computations: state, exceptions, and the two ways of not returning *)

Inductive outcome (A : Type) :=
| Ret (a : A)
| Raise (e : exn)
| Blocked        (* waiting in BRPOP on an empty list *)
| OutOfFuel.     (* still running when the step budget ended *)
Arguments Ret {A} a.
Arguments Raise {A} e.
Arguments Blocked {A}.
Arguments OutOfFuel {A}.

Definition M (A : Type) : Type := World -> outcome A * World.

Definition ret {A} (a : A) : M A := fun w => (Ret a, w).
Definition raise {A} (e : exn) : M A := fun w => (Raise e, w).

Definition bind {A B} (m : M A) (k : A -> M B) : M B :=
  fun w =>
    match m w with
    | (Ret a, w') => k a w'
    | (Raise e, w') => (Raise e, w')
    | (Blocked, w') => (Blocked, w')
    | (OutOfFuel, w') => (OutOfFuel, w')
    end.

(** [try: m  except Exception as e: h e] *)
Definition try_except {A} (m : M A) (h : exn -> M A) : M A :=
  fun w =>
    match m w with
    | (Raise e, w') => h e w'
    | r => r
    end.

Declare Scope py_scope.
Delimit Scope py_scope with py.
Notation "x <- m ;; k" := (bind m (fun x => k))
  (at level 100, m at next level, right associativity) : py_scope.
Notation "m ;; k" := (bind m (fun _ => k))
  (at level 100, right associativity) : py_scope.
Local Open Scope py_scope.

(** Lifting of a library result that is a value or an exception. *)
Definition lift {A} (r : exn + A) : M A :=
  match r with
  | inl e => raise e
  | inr a => ret a
  end.

Definition emit (e : event) : M unit := fun w => (Ret tt, log e w).

(** ** The environment: what the outside answers *)

(** Reply of the classification service to one POST. *)
Inductive ollama_reply :=
| OllamaRaises (e : exn)                        (* [session.post] raises *)
| OllamaResponse (status : Z) (body : exn + json). (* status, [resp.json()] *)

(** Acknowledgement of the engine to a submitted workflow: [r.json()]
    (absent when the body is not JSON), its [prompt_id] and its text. *)
Record submit_ack := {
  ack_prompt_id : option pystr;
  ack_text : pystr
}.

Inductive comfy_reply (A : Type) :=
| ComfyRaises (e : exn)                    (* the HTTP client raises *)
| ComfyResponse (status_code : Z) (body : option A).
Arguments ComfyRaises {A} e.
Arguments ComfyResponse {A} status_code body.

(** Engine history: node outputs and their image descriptors; an absent
    field is a missing key. *)
Record image := {
  filename : option pystr;
  subfolder : option pystr;
  img_type : option pystr
}.
Record node_out := { images : option (list image) }.
Record history_item := { outputs : option (list (pystr * node_out)) }.

Record Env := {
  uuid4 : nat -> pystr;
  (* POST {model, prompt, stream} to the classifier; the payload is the
     fixed instruction text followed by the quoted, stripped user prompt,
     so the reply is given per stripped prompt *)
  ollama_post : pystr -> ollama_reply;
  json_loads : pystr -> option json;
  (* stored text of a job record, [json.dumps] *)
  json_dumps : JobRecord -> pystr;
  (* workflow_builder: template files are read and filled in *)
  build_gen_workflow : pystr -> pystr -> exn + json;
  build_edit_workflow : pystr -> pystr -> pystr -> exn + json;
  save_debug_workflow : json -> pystr -> exn + unit;
  (* download of the image at a URL into the engine's input directory *)
  copy_image_for_edit : pystr -> exn + pystr;
  (* [str(e)] of what the HTTP client raises on the reply to a POST /prompt:
     the status error of [raise_for_status], or the decoding error of
     [r.json()] for a body that is not JSON *)
  comfy_post_error : json -> pystr -> pystr;
  (* [str(e)] of the decoding error of [r.json()] on a history reply whose
     body is not JSON *)
  comfy_get_error : pystr -> pystr;
  (* POST /prompt with the workflow and the client id *)
  comfy_post_prompt : json -> pystr -> comfy_reply submit_ack;
  (* GET /history/{prompt_id}, by number of polls made before *)
  comfy_get_history : pystr -> nat -> comfy_reply (list (pystr * history_item))
}.

Definition QUEUE_KEY : pystr := lit "image_jobs".
Definition JOB_KEY_PREFIX : pystr := lit "job:".
Definition LAST_IMAGE_PREFIX : pystr := lit "last_image:".

(** config/settings.py *)
Definition COMFYUI_URL : pystr := lit "http://127.0.0.1:8188".

(** ** Commands of the state store

    Each command first takes the store's next answer: a pending fault makes
    it raise without effect. *)

Definition next_fault (w : World) : option exn * World :=
  match faults w with
  | f :: fs => (f, with_faults fs w)
  | [] => (None, w)
  end.

Definition rds_command {A} (act : World -> A * World) : M A :=
  fun w =>
    match next_fault w with
    | (Some e, w') => (Raise e, w')
    | (None, w') => let '(a, w'') := act w' in (Ret a, w'')
    end.

Definition rds_get (key : pystr) : M (option value) :=
  rds_command (fun w => (store w !! key, log (EvGet key) w)).

Definition rds_set (key : pystr) (v : value) : M unit :=
  rds_command (fun w => (tt, log (EvSet key v) (with_store <[key := v]> w))).

(** [rds.lpush(QUEUE_KEY, item)] *)
Definition rds_lpush (item : qitem) : M unit :=
  rds_command (fun w =>
    (tt, log (EvLPush QUEUE_KEY item) (with_queue (item :: queue w) w))).

(** [rds.brpop(QUEUE_KEY)]: takes the right-most element, waits on an empty
    list. *)
Definition rds_brpop : M qitem :=
  fun w =>
    match next_fault w with
    | (Some e, w') => (Raise e, w')
    | (None, w') =>
        match rev (queue w') with
        | [] => (Blocked, w)
        | item :: rest =>
            (Ret item, log (EvBRPop QUEUE_KEY) (with_queue (rev rest) w'))
        end
    end.

(** Truth value of what [rds.get] returned. *)
Definition value_falsy (v : option value) : bool :=
  match v with
  | None => true
  | Some (VStr s) => is_empty s
  | Some (VJob _) => false
  end.

Section Service.
Context (env : Env).

Definition stored_text (v : value) : pystr :=
  match v with
  | VStr s => s
  | VJob r => json_dumps env r
  end.

(** ** backend/utils.py *)

(** [gen_job_id] *)
Definition gen_job_id : M pystr :=
  fun w =>
    let u := uuid4 env (uuids w) in
    (Ret u, log (EvUuid u) (with_uuids (S (uuids w)) w)).

(** The substring [re.search(r"\{[\s\S]*\}", text)] matches: from the first
    opening brace to the last closing brace after it. *)
Fixpoint after_open_brace (t : pystr) : option pystr :=
  match t with
  | [] => None
  | c :: t' => if c =? 0x7B then Some t' else after_open_brace t'
  end.

Fixpoint upto_last_close_brace (t : pystr) : option pystr :=
  match t with
  | [] => None
  | c :: t' =>
      match upto_last_close_brace t' with
      | Some r => Some (c :: r)
      | None => if c =? 0x7D then Some [c] else None
      end
  end.

Definition re_search_braces (text : pystr) : option pystr :=
  match after_open_brace text with
  | None => None
  | Some rest =>
      match upto_last_close_brace rest with
      | None => None
      | Some r => Some (0x7B :: r)
      end
  end.

(** First [try] block of [classify_mode] after the POST: the value bound to
    [text], or the exception raised on the way.  [raise_for_status] raises
    for a status of 400 and above. *)
Definition response_text (r : ollama_reply) : exn + json :=
  match r with
  | OllamaRaises e => inl e
  | OllamaResponse status body =>
      if negb (status =? 200)%Z && (400 <=? status)%Z
      then inl (LibraryError (lit "ClientResponseError"))
      else
        match body with
        | inl e => inl e
        | inr b =>
            match json_get (if truthy b then b else JObj [])
                           (lit "response") (JStr []) with
            | None => inl (LibraryError (lit "AttributeError"))
            | Some v => inr (if truthy v then v else JStr [])
            end
        end
  end.

(** Second [try] block of [classify_mode]: the value it returns, or the
    exception raised on the way. *)
Definition parse_reply (prompt : pystr) (text : json) : exn + pystr :=
  match text with
  | JStr t =>
      match re_search_braces t with
      | None => inr (_fallback_rule prompt)
      | Some fragment =>
          match json_loads env fragment with
          | None => inl (LibraryError (lit "JSONDecodeError"))
          | Some parsed =>
              match json_get parsed (lit "mode") (JStr []) with
              | Some (JStr m) =>
                  let mode_val := upper (strip m) in
                  if negb (Mode mode_val) then inr (_fallback_rule prompt)
                  else inr mode_val
              | _ => inl (LibraryError (lit "AttributeError"))
              end
          end
      end
  | _ => inl (LibraryError (lit "TypeError"))
  end.

(** [text[:200]], which the handler of the second [try] block evaluates
    for its message: a string or a list can be sliced; a number, a boolean
    or a dict cannot, and the slice raises (a [TypeError]; for a dict a
    [KeyError] from Python 3.12 on, which makes no difference to any
    caller). *)
Definition slice_200 (text : json) : exn + unit :=
  match text with
  | JStr _ | JArr _ => inr tt
  | _ => inl (LibraryError (lit "TypeError"))
  end.

(** [OllamaModeClassifier.classify_mode]; an exception raised by a handler
    itself leaves the function. *)
Definition classify_mode (prompt : pystr) : M pystr :=
  emit (EvClassify prompt) ;;
  if is_empty prompt || is_empty (strip prompt) then ret NEW
  else
    r <- try_except
           (emit (EvOllamaPost (strip prompt)) ;;
            text <- lift (response_text (ollama_post env (strip prompt))) ;;
            ret (inr text))
           (fun _ => ret (inl (_fallback_rule prompt))) ;;
    match r with
    | inl m => ret m
    | inr text =>
        try_except (lift (parse_reply prompt text))
                   (fun _ => lift (slice_200 text) ;;
                             ret (_fallback_rule prompt))
    end.

(** ** backend/app.py *)

Definition empty_prompt_detail : pystr :=
  lit "Prompt kh" ++ [0xF4] ++ lit "ng " ++ [0x111; 0x1B0; 0x1EE3] ++ lit "c "
  ++ [0x111; 0x1EC3] ++ lit " tr" ++ [0x1ED1] ++ lit "ng".

(** Lines 35-46 of [generate]: the mode of the job.  [classify_mode] returns
    a string on each of its paths, so the test [mode is None] after it never
    holds. *)
Definition generate_mode (req : GenerateRequest) : M pystr :=
  match mode req with
  | Some m => ret m
  | None =>
      last_img <- rds_get (LAST_IMAGE_PREFIX ++ user_id req) ;;
      if value_falsy last_img then ret NEW
      else classify_mode (prompt req)
  end.

Definition job_entry (job_id u p m : pystr) : gmap pystr pystr :=
  <[lit "job_id" := job_id]> (<[lit "user_id" := u]>
    (<[lit "prompt" := p]> (<[lit "mode" := m]> ∅))).

Definition initial_record : JobRecord :=
  {| status := waiting; image_url := None; error_message := None |}.

(** [generate], the handler of POST /generate *)
Definition generate (req : GenerateRequest) : M GenerateResponse :=
  if is_empty (strip (prompt req))
  then raise (HTTPException 400 empty_prompt_detail)
  else
    m <- generate_mode req ;;
    job_id <- gen_job_id ;;
    let job_data := job_entry job_id (user_id req) (prompt req) m in
    rds_set (JOB_KEY_PREFIX ++ job_id) (VJob initial_record) ;;
    rds_lpush (QDict job_data) ;;
    ret {| resp_job_id := job_id; resp_status := waiting |}.

(** POST /generate as the framework serves it: the body is validated
    against [GenerateRequest] before the handler runs. *)
Definition post_generate (u p : pystr) (m : option pystr) : M GenerateResponse :=
  match validate_GenerateRequest u p m with
  | None => raise RequestValidationError
  | Some req => generate req
  end.

(** ** backend/comfy_client.py *)

Definition no_prompt_id_msg : pystr :=
  lit "ComfyUI kh" ++ [0xF4] ++ lit "ng tr" ++ [0x1EA3] ++ lit " v" ++ [0x1EC1]
  ++ lit " prompt_id: ".

(** [r.raise_for_status()] of the HTTP client lets only 2xx pass. *)
Definition is_success (status_code : Z) : bool :=
  ((200 <=? status_code) && (status_code <? 300))%Z.

(** [send_workflow_to_comfy] *)
Definition send_workflow_to_comfy (workflow_json : json) (client_id : pystr)
  : M pystr :=
  emit (EvComfyPost client_id) ;;
  match comfy_post_prompt env workflow_json client_id with
  | ComfyRaises e => raise e
  | ComfyResponse status_code body =>
      if negb (is_success status_code)
      then raise (LibraryError (comfy_post_error env workflow_json client_id))
      else
        match body with
        | None =>
            raise (LibraryError (comfy_post_error env workflow_json client_id))
        | Some data =>
            match ack_prompt_id data with
            | Some prompt_id =>
                if is_empty prompt_id
                then raise (RuntimeError (no_prompt_id_msg ++ ack_text data))
                else ret prompt_id
            | None => raise (RuntimeError (no_prompt_id_msg ++ ack_text data))
            end
        end
  end.

(** One [client.get(url)] of the history of [prompt_id]. *)
Definition get_history (prompt_id : pystr)
  : M (Z * option (list (pystr * history_item))) :=
  fun w =>
    let w' := log (EvPoll prompt_id) (with_polls (S (polls w)) w) in
    match comfy_get_history env prompt_id (polls w) with
    | ComfyRaises e => (Raise e, w')
    | ComfyResponse status_code body => (Ret (status_code, body), w')
    end.

(** [asyncio.sleep(seconds)] *)
Definition sleep (seconds : Q) : M unit := emit (EvSleep seconds).

(** [wait_for_result]: the loop [while True], unrolled [fuel] times. *)
Fixpoint wait_for_result (fuel : nat) (prompt_id : pystr) (poll_interval : Q)
  : M history_item :=
  match fuel with
  | O => fun w => (OutOfFuel, w)
  | S fuel' =>
      r <- get_history prompt_id ;;
      let again := (sleep poll_interval ;;
                    wait_for_result fuel' prompt_id poll_interval) in
      if (fst r =? 200)%Z then
        match snd r with
        | None => raise (LibraryError (comfy_get_error env prompt_id))
        | Some data =>
            match assoc prompt_id data with
            | Some item => ret item
            | None => again
            end
        end
      else again
  end.

Fixpoint first_image (outs : list (pystr * node_out))
  : option (pystr * pystr * pystr) :=
  match outs with
  | [] => None
  | (_, node) :: rest =>
      match images node with
      | None | Some [] => first_image rest
      | Some (img :: _) =>
          match filename img with
          | Some f =>
              if is_empty f then first_image rest
              else Some (f, default [] (subfolder img),
                            default (lit "output") (img_type img))
          | None => first_image rest
          end
      end
  end.

(** [extract_first_image_from_history] *)
Definition extract_first_image_from_history (h : history_item)
  : option (pystr * pystr * pystr) :=
  first_image (default [] (outputs h)).

(** [build_image_url] *)
Definition build_image_url (fname sub ty : pystr) : pystr :=
  let base := rstrip_with (N.eqb 0x2F) COMFYUI_URL in
  base ++ lit "/view?filename=" ++ fname ++ lit "&subfolder=" ++ sub
       ++ lit "&type=" ++ ty.

(** ** backend/worker.py *)

Definition no_image_msg : pystr :=
  lit "Kh" ++ [0xF4] ++ lit "ng t" ++ [0xEC] ++ lit "m th" ++ [0x1EA5] ++ lit "y "
  ++ [0x1EA3] ++ lit "nh output trong history ComfyUI".

(** [job_data[key]] *)
Definition getitem (job_data : gmap pystr pystr) (key : pystr) : M pystr :=
  match job_data !! key with
  | Some v => ret v
  | None => raise (KeyError key)
  end.

Definition job_record (st : Status) (url err : option pystr) : value :=
  VJob {| status := st; image_url := url; error_message := err |}.

(** Lines 45-65 of [process_job]: the workflow for the job. *)
Definition make_workflow (job_id uid m p : pystr) : M json :=
  if pystr_eqb m NEW then
    emit EvBuildWorkflow ;; lift (build_gen_workflow env p job_id)
  else
    last_img <- rds_get (LAST_IMAGE_PREFIX ++ uid) ;;
    match last_img with
    | Some v =>
        if value_falsy last_img
        then emit EvBuildWorkflow ;; lift (build_gen_workflow env p job_id)
        else
          try_except
            (emit (EvStageImage (stored_text v)) ;;
             fname <- lift (copy_image_for_edit env (stored_text v)) ;;
             emit EvBuildWorkflow ;;
             lift (build_edit_workflow env p fname job_id))
            (fun e => raise (RuntimeError
                        (lit "Cannot prepare image for edit: " ++ str_exn e)))
    | None => emit EvBuildWorkflow ;; lift (build_gen_workflow env p job_id)
    end.

(** Lines 45-81 of [process_job]: the workflow is built, saved for
    debugging, submitted and waited for. *)
Definition run_workflow (fuel : nat) (job_id uid m p : pystr) : M history_item :=
  workflow <- make_workflow job_id uid m p ;;
  let client_id := job_id in
  let debug_name := lit "debug_" ++ m ++ lit "_" ++ take 8 job_id ++ lit ".json" in
  emit (EvSaveDebug debug_name) ;;
  lift (save_debug_workflow env workflow debug_name) ;;
  prompt_id <- send_workflow_to_comfy workflow client_id ;;
  wait_for_result fuel prompt_id 1.

(** The [try] block of [process_job]. *)
Definition process_job_body (fuel : nat) (job_id uid m p : pystr) : M unit :=
  h <- run_workflow fuel job_id uid m p ;;
  match extract_first_image_from_history h with
  | None => raise (RuntimeError no_image_msg)
  | Some (fname, sub, ty) =>
      let url := build_image_url fname sub ty in
      rds_set (LAST_IMAGE_PREFIX ++ uid) (VStr url) ;;
      rds_set (JOB_KEY_PREFIX ++ job_id) (job_record done (Some url) None)
  end.

(** [process_job]; [fuel] bounds the polls of [wait_for_result]. *)
Definition process_job (fuel : nat) (job_data : gmap pystr pystr) : M unit :=
  job_id <- getitem job_data (lit "job_id") ;;
  uid <- getitem job_data (lit "user_id") ;;
  m <- getitem job_data (lit "mode") ;;
  p <- getitem job_data (lit "prompt") ;;
  rds_set (JOB_KEY_PREFIX ++ job_id) (job_record processing None None) ;;
  try_except
    (process_job_body fuel job_id uid m p)
    (fun e => rds_set (JOB_KEY_PREFIX ++ job_id)
                      (job_record error None (Some (str_exn e)))).

(** [worker_loop]: the loop [while True], unrolled [n] times. *)
Fixpoint worker_loop (fuel n : nat) : M unit :=
  match n with
  | O => fun w => (OutOfFuel, w)
  | S n' =>
      item <- rds_brpop ;;
      match item with
      | QText _ => worker_loop fuel n'
      | QDict job_data => process_job fuel job_data ;; worker_loop fuel n'
      end
  end.

End Service.

(** ** backend/app.py: the result endpoint *)

(** [JobResult] of backend/model.py; [extra] is always [None]. *)
Record JobResult := {
  res_job_id : pystr;
  res_status : Status;
  res_image_url : option pystr;
  res_error_message : option pystr;
  res_extra : option json
}.

Definition not_found_detail : pystr :=
  lit "Job kh" ++ [0xF4] ++ lit "ng t" ++ [0x1ED3] ++ lit "n t" ++ [0x1EA1] ++ lit "i".

Section Result.
(** [json.loads] and the construction of [JobResult] for a stored text that
    is not the dump of a job record: the three fields, or the exception. *)
Context (decode_foreign : pystr -> exn + JobRecord).

(** [get_result], the handler of GET /result/{job_id} *)
Definition get_result (job_id : pystr) : M JobResult :=
  data <- rds_get (JOB_KEY_PREFIX ++ job_id) ;;
  if value_falsy data
  then raise (HTTPException 404 not_found_detail)
  else
    obj <- match data with
           | Some (VJob r) => ret r
           | Some (VStr s) => lift (decode_foreign s)
           | None => raise (HTTPException 404 not_found_detail)
           end ;;
    ret {| res_job_id := job_id;
           res_status := status obj;
           res_image_url := image_url obj;
           res_error_message := error_message obj;
           res_extra := None |}.

End Result.

(** ** backend/workflow_builder.py

    A workflow is the dict that [json.load] returns: node ids in file order,
    each with its node.  [load_workflow] reads a file; its result, or the
    exception it raises, is an argument of the two builders, and so is the
    value [random.randint] draws. *)
Module workflow_builder.

(** [d[key] = v]: the value of an existing key is replaced in place, a new
    key goes to the end. *)
Fixpoint dict_set (key : pystr) (v : json) (kv : list (pystr * json))
  : list (pystr * json) :=
  match kv with
  | [] => [(key, v)]
  | (k, x) :: kv' =>
      if pystr_eqb key k then (k, v) :: kv' else (k, x) :: dict_set key v kv'
  end.

(** [key in j]: keys of a dict, elements of a list, substrings of a string;
    other values are not iterable. *)
Definition json_contains (key : pystr) (j : json) : exn + bool :=
  match j with
  | JObj kv => inr (bool_decide (is_Some (assoc key kv)))
  | JArr l =>
      inr (existsb (fun x => match x with
                             | JStr s => pystr_eqb s key
                             | _ => false
                             end) l)
  | JStr s => inr (contains key s)
  | _ => inl (LibraryError (lit "TypeError"))
  end.

(** [j[key] = v]: only a dict takes a string key. *)
Definition json_setitem (key : pystr) (v : json) (j : json) : exn + json :=
  match j with
  | JObj kv => inr (JObj (dict_set key v kv))
  | _ => inl (LibraryError (lit "TypeError"))
  end.

(** [node.get("class_type")] equals one of [classes]. *)
Definition class_in (classes : list pystr) (fields : list (pystr * json)) : bool :=
  match assoc (lit "class_type") fields with
  | Some (JStr c) => existsb (pystr_eqb c) classes
  | _ => false
  end.

(** The loop the four setters share: the first node that is a dict, has one
    of the classes and has [key] in its inputs gets [inputs[key] = v]; the
    loop ends there. *)
Fixpoint set_first_input (classes : list pystr) (key : pystr) (v : json)
    (wf : list (pystr * json)) : exn + list (pystr * json) :=
  match wf with
  | [] => inr []
  | (node_id, node) :: rest =>
      let continue :=
        match set_first_input classes key v rest with
        | inl e => inl e
        | inr rest' => inr ((node_id, node) :: rest')
        end in
      match node with
      | JObj fields =>
          if class_in classes fields then
            let inputs := default (JObj []) (assoc (lit "inputs") fields) in
            match json_contains key inputs with
            | inl e => inl e
            | inr true =>
                match json_setitem key v inputs with
                | inl e => inl e
                | inr inputs' =>
                    inr ((node_id, JObj (dict_set (lit "inputs") inputs' fields))
                         :: rest)
                end
            | inr false => continue
            end
          else continue
      | _ => continue
      end
  end.

(** [_set_seed_random], with the drawn seed *)
Definition _set_seed_random (seed_val : Z) (workflow : list (pystr * json)) :=
  set_first_input [lit "KSampler"] (lit "seed") (JNum seed_val) workflow.

(** [_set_prompt_for_gen] *)
Definition _set_prompt_for_gen (workflow : list (pystr * json)) (prompt : pystr) :=
  set_first_input [lit "CLIPTextEncode"] (lit "text") (JStr prompt) workflow.

(** [_set_prompt_for_edit] *)
Definition _set_prompt_for_edit (workflow : list (pystr * json)) (prompt : pystr) :=
  set_first_input [lit "TextEncodeQwenImageEdit"] (lit "prompt") (JStr prompt)
    workflow.

(** Lines 130-138 of [build_edit_workflow]: the file name of the image to
    load. *)
Definition set_load_image (workflow : list (pystr * json)) (fname : pystr) :=
  set_first_input [lit "LoadImage"; lit "ImageLoader"] (lit "image") (JStr fname)
    workflow.

(** [workflow.items()] needs a dict. *)
Definition items (loaded : exn + json) : exn + list (pystr * json) :=
  match loaded with
  | inl e => inl e
  | inr (JObj nodes) => inr nodes
  | inr _ => inl (LibraryError (lit "AttributeError"))
  end.

Definition and_then {A B} (x : exn + A) (f : A -> exn + B) : exn + B :=
  match x with
  | inl e => inl e
  | inr a => f a
  end.

(** [build_gen_workflow]; [loaded] is [load_workflow("gen_image.json")]. *)
Definition build_gen_workflow (loaded : exn + json) (seed_val : Z)
    (prompt job_id : pystr) : exn + json :=
  and_then (items loaded) (fun wf =>
  and_then (_set_prompt_for_gen wf prompt) (fun wf1 =>
  and_then (_set_seed_random seed_val wf1) (fun wf2 =>
  inr (JObj wf2)))).

(** [build_edit_workflow]; [loaded] is [load_workflow("edit_image.json")]. *)
Definition build_edit_workflow (loaded : exn + json) (seed_val : Z)
    (prompt base_image_filename job_id : pystr) : exn + json :=
  and_then (items loaded) (fun wf =>
  and_then (_set_prompt_for_edit wf prompt) (fun wf1 =>
  and_then (set_load_image wf1 base_image_filename) (fun wf2 =>
  and_then (_set_seed_random seed_val wf2) (fun wf3 =>
  inr (JObj wf3))))).

End workflow_builder.

(** ** Sample environments and worlds, used by the concrete runs *)

Definition sample_image : image :=
  {| filename := Some (lit "out_00001_.png");
     subfolder := Some [];
     img_type := Some (lit "output") |}.

Definition sample_history : history_item :=
  {| outputs := Some [(lit "9", {| images := Some [sample_image] |})] |}.

(** The classifier is unreachable; the engine accepts every workflow as run
    "run-1" and has its result from the second poll on. *)
Definition sample_env : Env :=
  {| uuid4 := fun n => lit "job-" ++ lit (pretty n);
     ollama_post := fun _ => OllamaRaises (LibraryError (lit "TimeoutError"));
     json_loads := fun _ => None;
     json_dumps := fun _ => lit "{}";
     build_gen_workflow := fun _ _ => inr (JObj []);
     build_edit_workflow := fun _ _ _ => inr (JObj []);
     save_debug_workflow := fun _ _ => inr tt;
     copy_image_for_edit := fun _ => inr (lit "in.png");
     comfy_post_error := fun _ _ =>
       lit "Server error '500 Internal Server Error' for url 'http://127.0.0.1:8188/prompt'";
     comfy_get_error := fun _ => lit "Expecting value: line 1 column 1 (char 0)";
     comfy_post_prompt := fun _ _ =>
       ComfyResponse 200
         (Some {| ack_prompt_id := Some (lit "run-1"); ack_text := [] |});
     comfy_get_history := fun _ n =>
       ComfyResponse 200
         (Some match n with
               | O => []
               | S _ => [(lit "run-1", sample_history)]
               end) |}.

(** As [sample_env], but the engine never lists the run in its history. *)
Definition pending_env : Env :=
  {| uuid4 := uuid4 sample_env;
     ollama_post := ollama_post sample_env;
     json_loads := json_loads sample_env;
     json_dumps := json_dumps sample_env;
     build_gen_workflow := build_gen_workflow sample_env;
     build_edit_workflow := build_edit_workflow sample_env;
     save_debug_workflow := save_debug_workflow sample_env;
     copy_image_for_edit := copy_image_for_edit sample_env;
     comfy_post_error := comfy_post_error sample_env;
     comfy_get_error := comfy_get_error sample_env;
     comfy_post_prompt := comfy_post_prompt sample_env;
     comfy_get_history := fun _ _ => ComfyResponse 200 (Some []) |}.

(** As [sample_env], but the result of the run holds no image. *)
Definition no_image_env : Env :=
  {| uuid4 := uuid4 sample_env;
     ollama_post := ollama_post sample_env;
     json_loads := json_loads sample_env;
     json_dumps := json_dumps sample_env;
     build_gen_workflow := build_gen_workflow sample_env;
     build_edit_workflow := build_edit_workflow sample_env;
     save_debug_workflow := save_debug_workflow sample_env;
     copy_image_for_edit := copy_image_for_edit sample_env;
     comfy_post_error := comfy_post_error sample_env;
     comfy_get_error := comfy_get_error sample_env;
     comfy_post_prompt := comfy_post_prompt sample_env;
     comfy_get_history := fun _ _ =>
       ComfyResponse 200
         (Some [(lit "run-1", {| outputs := Some [(lit "9", {| images := Some [] |})] |})]) |}.

Definition world0 : World :=
  {| store := ∅; queue := []; faults := []; uuids := 0; polls := 0;
     trace := [] |}.

(** The queue entry intake writes for job "j1" of user "u1". *)
Definition sample_entry : gmap pystr pystr :=
  job_entry (lit "j1") (lit "u1") (lit "a cat on the moon") NEW.


(** As [sample_env], but the classifier answers: its text holds the JSON
    fragment of a mode, here in lower case and with blanks around it. *)
Definition answering_env : Env :=
  {| uuid4 := uuid4 sample_env;
     ollama_post := fun _ =>
       OllamaResponse 200
         (inr (JObj [(lit "response",
                      JStr (lit "Answer: " ++ [0x7B] ++ lit "mode: edit" ++ [0x7D]))]));
     json_loads := fun _ => Some (JObj [(lit "mode", JStr (lit " edit "))]);
     json_dumps := json_dumps sample_env;
     build_gen_workflow := build_gen_workflow sample_env;
     build_edit_workflow := build_edit_workflow sample_env;
     save_debug_workflow := save_debug_workflow sample_env;
     copy_image_for_edit := copy_image_for_edit sample_env;
     comfy_post_error := comfy_post_error sample_env;
     comfy_get_error := comfy_get_error sample_env;
     comfy_post_prompt := comfy_post_prompt sample_env;
     comfy_get_history := comfy_get_history sample_env |}.

(** As [sample_env], but the classifier answers with a body whose
    "response" is a number, not a text. *)
Definition number_env : Env :=
  {| uuid4 := uuid4 sample_env;
     ollama_post := fun _ =>
       OllamaResponse 200 (inr (JObj [(lit "response", JNum 5)]));
     json_loads := json_loads sample_env;
     json_dumps := json_dumps sample_env;
     build_gen_workflow := build_gen_workflow sample_env;
     build_edit_workflow := build_edit_workflow sample_env;
     save_debug_workflow := save_debug_workflow sample_env;
     copy_image_for_edit := copy_image_for_edit sample_env;
     comfy_post_error := comfy_post_error sample_env;
     comfy_get_error := comfy_get_error sample_env;
     comfy_post_prompt := comfy_post_prompt sample_env;
     comfy_get_history := comfy_get_history sample_env |}.

(** ** Vocabulary of the properties and sample data *)

(** The prompt is empty or all white space. *)
Definition blank (p : pystr) : Prop := forallb is_space p = true.

(** The answer to the poll numbered [n] does not hold the run: another
    status than 200, or a history without [prompt_id]. *)
Definition not_ready (env : Env) (prompt_id : pystr) (n : nat) : Prop :=
  match comfy_get_history env prompt_id n with
  | ComfyRaises _ => False
  | ComfyResponse st body =>
      st <> 200%Z \/ exists data, body = Some data /\ assoc prompt_id data = None
  end.

(** The answer to the poll numbered [n] is a 200 that holds [item]. *)
Definition ready (env : Env) (prompt_id : pystr) (n : nat) (item : history_item)
  : Prop :=
  exists data, comfy_get_history env prompt_id n = ComfyResponse 200 (Some data)
               /\ assoc prompt_id data = Some item.

(** Interactions of a wait that ends at its poll [k], latest first. *)
Fixpoint wait_trace (prompt_id : pystr) (q : Q) (k : nat) : list event :=
  match k with
  | O => [EvPoll prompt_id]
  | S k' => wait_trace prompt_id q k' ++ [EvSleep q; EvPoll prompt_id]
  end.

Definition after_poll (prompt_id : pystr) (w : World) : World :=
  log (EvPoll prompt_id) (with_polls (S (polls w)) w).

(** How [classify_mode] ends on a prompt that is not blank: with the mode
    of the answer, with the result of the fallback rule, or with the
    exception of the handler that could not slice the text. *)
Definition classify_outcome (env : Env) (p : pystr) : outcome pystr :=
  match response_text (ollama_post env (strip p)) with
  | inl _ => Ret (_fallback_rule p)
  | inr text =>
      match parse_reply env p text with
      | inr m => Ret m
      | inl _ =>
          match slice_200 text with
          | inl e => Raise e
          | inr _ => Ret (_fallback_rule p)
          end
      end
  end.

Definition is_classifier_event (e : event) : bool :=
  match e with
  | EvClassify _ | EvOllamaPost _ => true
  | _ => false
  end.

(** Number of entries into the classifier and calls to its service. *)
Definition classifier_calls (w : World) : nat :=
  length (List.filter is_classifier_event (trace w)).

(** Store and queue writes recorded in a trace. *)
Definition is_write (e : event) : bool :=
  match e with
  | EvSet _ _ | EvLPush _ _ => true
  | _ => false
  end.

Definition writes (w : World) : list event := List.filter is_write (trace w).

Definition last_image_key (req : GenerateRequest) : pystr :=
  LAST_IMAGE_PREFIX ++ user_id req.

(** The rest of [generate] once the mode [m] is known (lines 48-71). *)
Definition generate_tail (env : Env) (req : GenerateRequest) (m : pystr)
  : M GenerateResponse :=
  job_id <- gen_job_id env ;;
  rds_set (JOB_KEY_PREFIX ++ job_id) (VJob initial_record) ;;
  rds_lpush (QDict (job_entry job_id (user_id req) (prompt req) m)) ;;
  ret {| resp_job_id := job_id; resp_status := waiting |}.

Definition blank_request : GenerateRequest :=
  {| user_id := lit "u1"; prompt := [0x20; 0x09; 0x3000]; mode := Some EDIT |}.

Definition hat_request : GenerateRequest :=
  {| user_id := lit "u1"; prompt := lit "remove the hat"; mode := None |}.

(** [m] changes neither the store nor the queue. *)
Definition reads_only {A} (m : M A) : Prop :=
  forall w r w', m w = (r, w') ->
    store w' = store w /\ queue w' = queue w /\ uuids w' = uuids w
    /\ writes w' = writes w.

(** Every write of [m] satisfies [Q]. *)
Definition writes_only {A} (Q : event -> Prop) (m : M A) : Prop :=
  forall w r w', m w = (r, w') ->
    exists new, writes w' = new ++ writes w /\ Forall Q new.

(** The invariant of a job record: the URL and the message are never both
    present, both are absent while the job waits or is processed, the URL is
    present exactly in status done and the message exactly in status
    error. *)
Definition record_ok (r : JobRecord) : Prop :=
  ~ (is_Some (image_url r) /\ is_Some (error_message r))
  /\ (status r = waiting \/ status r = processing ->
      image_url r = None /\ error_message r = None)
  /\ (is_Some (image_url r) <-> status r = done)
  /\ (is_Some (error_message r) <-> status r = error).

(** A write of a job record writes one that satisfies the invariant. *)
Definition job_write_ok (e : event) : Prop :=
  forall k r, e = EvSet k (VJob r) -> record_ok r.

(** The writes [process_job] may make for the entry [jd]: a record under
    the key of its job, or a string under the pointer key of its user. *)
Definition worker_write (jd : gmap pystr pystr) (e : event) : Prop :=
  exists job_id uid,
    jd !! lit "job_id" = Some job_id /\ jd !! lit "user_id" = Some uid
    /\ ((exists r, e = EvSet (JOB_KEY_PREFIX ++ job_id) (VJob r) /\ record_ok r)
        \/ exists url, e = EvSet (LAST_IMAGE_PREFIX ++ uid) (VStr url)).

(** The entry [jd] carries the four fields [process_job] reads. *)
Definition entry_of (jd : gmap pystr pystr) (job_id uid m p : pystr) : Prop :=
  jd !! lit "job_id" = Some job_id /\ jd !! lit "user_id" = Some uid
  /\ jd !! lit "mode" = Some m /\ jd !! lit "prompt" = Some p.

(** The handler of [process_job]: the error record of the job. *)
Definition write_error (job_id : pystr) (e : exn) : M unit :=
  rds_set (JOB_KEY_PREFIX ++ job_id) (job_record error None (Some (str_exn e))).

(** The two writes that end a successful job. *)
Definition write_result (job_id uid url : pystr) : M unit :=
  rds_set (LAST_IMAGE_PREFIX ++ uid) (VStr url) ;;
  rds_set (JOB_KEY_PREFIX ++ job_id) (job_record done (Some url) None).

(** An optional write: its effect on the store and its record in the
    writes. *)
Definition set_opt (k : pystr) (o : option value) (s : gmap pystr value)
  : gmap pystr value :=
  match o with
  | Some v => <[k := v]> s
  | None => s
  end.

Definition ev_opt (k : pystr) (o : option value) : list event :=
  match o with
  | Some v => [EvSet k v]
  | None => []
  end.

Definition waiting_record : value := VJob initial_record.

(** User "u1" has an older image; the store will raise on the third command
    to come. *)
Definition flaky_store_world : World :=
  {| store := {[ LAST_IMAGE_PREFIX ++ lit "u1" := VStr (lit "http://old/image.png") ]};
     queue := [];
     faults := [None; None; Some (LibraryError (lit "ConnectionError"))];
     uuids := 0; polls := 0; trace := [] |}.

Definition second_entry : gmap pystr pystr :=
  job_entry (lit "j2") (lit "u2") (lit "a dog") NEW.

(** Two waiting jobs are queued, "j1" first; the store will raise on the
    second command to come. *)
Definition broken_store_world : World :=
  {| store := {[ JOB_KEY_PREFIX ++ lit "j1" := waiting_record;
                 JOB_KEY_PREFIX ++ lit "j2" := waiting_record ]};
     queue := [QDict second_entry; QDict sample_entry];
     faults := [None; Some (LibraryError (lit "ConnectionError"))];
     uuids := 2; polls := 0; trace := [] |}.

(** The same two jobs with a store that answers every command. *)
Definition two_jobs_world : World :=
  {| store := store broken_store_world; queue := queue broken_store_world;
     faults := []; uuids := 2; polls := 0; trace := [] |}.

(** The first image of a node output carries a file name. *)
Definition usable (n : node_out) : Prop :=
  exists img imgs f,
    images n = Some (img :: imgs) /\ filename img = Some f /\ f <> [].

(** The file name [process_job] passes to [save_debug_workflow]. *)
Definition debug_name (m job_id : pystr) : pystr :=
  lit "debug_" ++ m ++ lit "_" ++ take 8 job_id ++ lit ".json".

(** The engine acknowledges the workflow with the run id [pid]. *)
Definition engine_accepts (env : Env) (wf : json) (cid pid : pystr) : Prop :=
  exists st ack,
    comfy_post_prompt env wf cid = ComfyResponse st (Some ack)
    /\ is_success st = true /\ ack_prompt_id ack = Some pid /\ pid <> [].

(** The engine acknowledges the workflow without a run id. *)
Definition engine_rejects (env : Env) (wf : json) (cid : pystr) (ack : submit_ack)
  : Prop :=
  exists st,
    comfy_post_prompt env wf cid = ComfyResponse st (Some ack)
    /\ is_success st = true
    /\ (ack_prompt_id ack = None \/ ack_prompt_id ack = Some []).

(** What [make_workflow] answers once it stages the image at [url]. *)
Definition staged_workflow (env : Env) (job_id p url : pystr) : outcome json :=
  match copy_image_for_edit env url with
  | inl e =>
      Raise (RuntimeError (lit "Cannot prepare image for edit: " ++ str_exn e))
  | inr fname =>
      match build_edit_workflow env p fname job_id with
      | inl e =>
          Raise (RuntimeError (lit "Cannot prepare image for edit: " ++ str_exn e))
      | inr wf => Ret wf
      end
  end.

Definition is_text (x : qitem) : bool :=
  match x with
  | QText _ => true
  | QDict _ => false
  end.

(** As [sample_env], but the download of the image to edit fails. *)
Definition no_staging_env : Env :=
  {| uuid4 := uuid4 sample_env;
     ollama_post := ollama_post sample_env;
     json_loads := json_loads sample_env;
     json_dumps := json_dumps sample_env;
     build_gen_workflow := build_gen_workflow sample_env;
     build_edit_workflow := build_edit_workflow sample_env;
     save_debug_workflow := save_debug_workflow sample_env;
     copy_image_for_edit := fun _ => inl (LibraryError (lit "404 Not Found"));
     comfy_post_error := comfy_post_error sample_env;
     comfy_get_error := comfy_get_error sample_env;
     comfy_post_prompt := comfy_post_prompt sample_env;
     comfy_get_history := comfy_get_history sample_env |}.

(** As [sample_env], but the engine acknowledges without a run id. *)
Definition rejecting_env : Env :=
  {| uuid4 := uuid4 sample_env;
     ollama_post := ollama_post sample_env;
     json_loads := json_loads sample_env;
     json_dumps := json_dumps sample_env;
     build_gen_workflow := build_gen_workflow sample_env;
     build_edit_workflow := build_edit_workflow sample_env;
     save_debug_workflow := save_debug_workflow sample_env;
     copy_image_for_edit := copy_image_for_edit sample_env;
     comfy_post_error := comfy_post_error sample_env;
     comfy_get_error := comfy_get_error sample_env;
     comfy_post_prompt := fun _ _ =>
       ComfyResponse 200
         (Some {| ack_prompt_id := None; ack_text := lit "{'node_errors': {}}" |});
     comfy_get_history := comfy_get_history sample_env |}.

(** User "u1" has an image; the store answers. *)
Definition pointer_world : World :=
  {| store := {[ LAST_IMAGE_PREFIX ++ lit "u1" := VStr (lit "http://old/image.png") ]};
     queue := []; faults := []; uuids := 0; polls := 0; trace := [] |}.

Definition edit_entry : gmap pystr pystr :=
  job_entry (lit "j3") (lit "u1") (lit "remove the hat") EDIT.

(** Staging the image at [url] for the edit of [job_id] fails with [e]: the
    copy fails, or the edit workflow cannot be built on the copied file. *)
Definition staging_fails (env : Env) (job_id p url : pystr) (e : exn) : Prop :=
  copy_image_for_edit env url = inl e
  \/ exists fname,
       copy_image_for_edit env url = inr fname
       /\ build_edit_workflow env p fname job_id = inl e.

Definition cannot_prepare_msg (e : exn) : pystr :=
  lit "Cannot prepare image for edit: " ++ str_exn e.

(** The value a node has under [key] in its inputs. *)
Definition node_input (node : json) (key : pystr) : option json :=
  match node with
  | JObj fields =>
      match assoc (lit "inputs") fields with
      | Some (JObj kv) => assoc key kv
      | _ => None
      end
  | _ => None
  end.

(** The node is a dict of one of the classes with [key] among its
    inputs. *)
Definition takesb (classes : list pystr) (key : pystr) (node : json) : bool :=
  match node with
  | JObj fields =>
      workflow_builder.class_in classes fields
      && bool_decide (is_Some (node_input node key))
  | _ => false
  end.

(** The first node of the workflow that takes [key], with its position. *)
Definition find_node (classes : list pystr) (key : pystr)
    (wf : list (pystr * json)) : option (nat * (pystr * json)) :=
  list_find (fun x => takesb classes key x.2 = true) wf.

(** The node with [inputs[key] = v]. *)
Definition set_input (key : pystr) (v : json) (node : json) : json :=
  match node with
  | JObj fields =>
      match assoc (lit "inputs") fields with
      | Some (JObj kv) =>
          JObj (workflow_builder.dict_set (lit "inputs")
                  (JObj (workflow_builder.dict_set key v kv)) fields)
      | _ => node
      end
  | _ => node
  end.

(** The workflow with [v] under [key] in the first node that takes it. *)
Definition first_set (classes : list pystr) (key : pystr) (v : json)
    (wf : list (pystr * json)) : list (pystr * json) :=
  match find_node classes key wf with
  | Some (i, (node_id, node)) => <[i := (node_id, set_input key v node)]> wf
  | None => wf
  end.

(** The inputs of the node, where it has any, are a dict. *)
Definition plain_inputs (x : pystr * json) : Prop :=
  match x.2 with
  | JObj fields =>
      match assoc (lit "inputs") fields with
      | Some (JObj _) | None => True
      | Some _ => False
      end
  | _ => True
  end.

(** No class is in both lists. *)
Definition disjoint_classes (cs cs' : list pystr) : Prop :=
  forall c, existsb (pystr_eqb c) cs = true -> existsb (pystr_eqb c) cs' = false.

(** A workflow with two text encoders, a sampler and an image loader. *)
Definition sample_workflow : list (pystr * json) :=
  [ (lit "3", JObj [(lit "class_type", JStr (lit "KSampler"));
                    (lit "inputs", JObj [(lit "seed", JNum 7);
                                         (lit "steps", JNum 20)])]);
    (lit "6", JObj [(lit "class_type", JStr (lit "CLIPTextEncode"));
                    (lit "inputs", JObj [(lit "text", JStr (lit "positive"))])]);
    (lit "7", JObj [(lit "class_type", JStr (lit "CLIPTextEncode"));
                    (lit "inputs", JObj [(lit "text", JStr (lit "negative"))])]);
    (lit "9", JObj [(lit "class_type", JStr (lit "SaveImage"))]) ].

Definition sample_edit_workflow : list (pystr * json) :=
  [ (lit "1", JObj [(lit "class_type", JStr (lit "LoadImage"));
                    (lit "inputs", JObj [(lit "image", JStr (lit "example.png"))])]);
    (lit "2", JObj [(lit "class_type", JStr (lit "TextEncodeQwenImageEdit"));
                    (lit "inputs", JObj [(lit "prompt", JStr [])])]);
    (lit "3", JObj [(lit "class_type", JStr (lit "KSampler"));
                    (lit "inputs", JObj [(lit "seed", JNum 7)])]) ].

(** * Properties *)

(** ** Strings *)

Lemma startswith_spec kw s :
  startswith kw s = true <-> exists b, s = kw ++ b.
Proof.
  revert s. induction kw as [|k kw IH]; intros s; simpl.
  - split; [intros _; by exists s | done].
  - destruct s as [|c s].
    + split; [done | intros [b Hb]; discriminate].
    + rewrite andb_true_iff, N.eqb_eq, IH. split.
      * intros [-> [b ->]]. by exists b.
      * intros [b Hb]. injection Hb as -> ->. eauto.
Qed.

Lemma contains_spec kw s :
  contains kw s = true <-> exists a b, s = a ++ kw ++ b.
Proof.
  induction s as [|c s IH]; simpl.
  - rewrite orb_false_r, startswith_spec. split.
    + intros [b Hb]. by exists [], b.
    + intros (a & b & Hab). destruct a; [by exists b | discriminate].
  - rewrite orb_true_iff, startswith_spec, IH. split.
    + intros [[b Hb] | (a & b & ->)].
      * by exists [], b.
      * by exists (c :: a), b.
    + intros (a & b & Hab). destruct a as [|c' a]; simpl in Hab.
      * left. by exists b.
      * right. injection Hab as -> ->. by exists a, b.
Qed.

Lemma lstrip_with_nil f s :
  lstrip_with f s = [] <-> forallb f s = true.
Proof.
  induction s as [|c s IH]; simpl; [done |].
  destruct (f c); simpl; [done | split; discriminate].
Qed.

Lemma lstrip_with_all f s : forallb f s = true -> lstrip_with f s = [].
Proof. apply lstrip_with_nil. Qed.

Lemma forallb_rev_iff (f : N -> bool) (s : pystr) :
  forallb f (rev s) = forallb f s.
Proof.
  induction s as [|c s IH]; simpl; [done |].
  rewrite forallb_app, IH. simpl. rewrite andb_true_r. apply andb_comm.
Qed.

Lemma lstrip_with_suffix f s : exists a, s = a ++ lstrip_with f s /\ forallb f a = true.
Proof.
  induction s as [|c s (a & Ha & Hf)]; simpl.
  - by exists [].
  - destruct (f c) eqn:Hc.
    + exists (c :: a). simpl. rewrite Hc, Hf. split; [by f_equal | done].
    + by exists [].
Qed.

(** [s.strip()] is empty exactly when [s] is empty or all white space. *)
Lemma strip_nil_iff s : strip s = [] <-> forallb is_space s = true.
Proof.
  unfold strip, rstrip, rstrip_with, lstrip. split.
  - intros H. apply (f_equal (@rev N)) in H. rewrite rev_involutive in H.
    simpl in H. apply lstrip_with_nil in H. rewrite forallb_rev_iff in H.
    destruct (lstrip_with_suffix is_space s) as (a & Ha & Hf).
    rewrite Ha, forallb_app, Hf. exact H.
  - intros H. rewrite (lstrip_with_all _ _ H). done.
Qed.

Lemma is_empty_true (s : pystr) : is_empty s = true <-> s = [].
Proof. by destruct s. Qed.

Lemma is_empty_strip s :
  is_empty (strip s) = true <-> forallb is_space s = true.
Proof. by rewrite is_empty_true, strip_nil_iff. Qed.

Lemma pystr_eqb_eq a b : pystr_eqb a b = true <-> a = b.
Proof. unfold pystr_eqb. by rewrite bool_decide_eq_true. Qed.

Lemma Mode_spec m : Mode m = true <-> m = NEW \/ m = EDIT.
Proof. unfold Mode. by rewrite orb_true_iff, !pystr_eqb_eq. Qed.

Lemma fallback_rule_Mode p : _fallback_rule p = NEW \/ _fallback_rule p = EDIT.
Proof. unfold _fallback_rule. destruct (existsb _ _); auto. Qed.

Lemma NEW_neq_EDIT : NEW <> EDIT.
Proof. discriminate. Qed.

(** C8: the fallback rule depends on the prompt alone: it answers EDIT
    exactly when one of the sixteen fixed keywords is a substring of the
    lower-cased prompt and NEW otherwise; "remove the hat" gives EDIT,
    "a cat on the moon" gives NEW and the empty prompt gives NEW. *)
Theorem fallback_rule_keywords :
  (forall p,
     (_fallback_rule p = EDIT <->
        exists kw a b, In kw edit_keywords /\ lower p = a ++ kw ++ b)
     /\ (_fallback_rule p = NEW <->
        ~ exists kw a b, In kw edit_keywords /\ lower p = a ++ kw ++ b))
  /\ length edit_keywords = 16%nat
  /\ _fallback_rule (lit "remove the hat") = EDIT
  /\ _fallback_rule (lit "a cat on the moon") = NEW
  /\ _fallback_rule [] = NEW.
Proof.
  split; [| repeat split; reflexivity].
  intros p.
  assert (Hex : existsb (fun kw => contains kw (lower p)) edit_keywords = true
                <-> exists kw a b, In kw edit_keywords /\ lower p = a ++ kw ++ b).
  { rewrite existsb_exists. split.
    - intros (kw & Hin & Hc). apply contains_spec in Hc as (a & b & Hab). eauto.
    - intros (kw & a & b & Hin & Hab). exists kw. split; [done |].
      apply contains_spec. eauto. }
  unfold _fallback_rule. cbv zeta.
  destruct (existsb _ edit_keywords) eqn:E.
  - assert (Hk := proj1 Hex eq_refl). split; split.
    + by intros _.
    + done.
    + intros H. symmetry in H. by apply NEW_neq_EDIT in H.
    + intros H. by destruct H.
  - assert (Hk : ~ exists kw a b, In kw edit_keywords /\ lower p = a ++ kw ++ b).
    { intros H. apply Hex in H. discriminate. }
    split; split.
    + intros H. by apply NEW_neq_EDIT in H.
    + intros H. by destruct Hk.
    + by intros _.
    + done.
Qed.

(** ** The classifier *)

Lemma blank_test p :
  is_empty p || is_empty (strip p) = true <-> blank p.
Proof.
  unfold blank. rewrite orb_true_iff, is_empty_strip, is_empty_true. split.
  - intros [-> | H]; done.
  - auto.
Qed.

Lemma blank_test_false p :
  is_empty p || is_empty (strip p) = false <-> ~ blank p.
Proof. rewrite <- blank_test. by destruct (_ || _). Qed.

Lemma parse_reply_Mode env p text m :
  parse_reply env p text = inr m -> m = NEW \/ m = EDIT.
Proof.
  unfold parse_reply. intros H.
  repeat match type of H with
  | match ?x with _ => _ end = _ => destruct x eqn:?; try discriminate
  | (if ?x then _ else _) = _ => destruct x eqn:?; try discriminate
  end; injection H as <-; try apply fallback_rule_Mode.
  apply Mode_spec. by apply negb_false_iff.
Qed.

(** What [classify_mode] does on a prompt that is not blank: one POST, then
    the parsed answer, the fallback, or the exception of the handler. *)
Lemma classify_mode_run env p w :
  ~ blank p ->
  classify_mode env p w =
    (classify_outcome env p,
     log (EvOllamaPost (strip p)) (log (EvClassify p) w)).
Proof.
  intros Hb%blank_test_false.
  unfold classify_mode, classify_outcome, bind, try_except, emit, lift, ret,
    raise. simpl.
  rewrite Hb.
  destruct (response_text _) as [e | text]; simpl; [done |].
  destruct (parse_reply env p text); [| done].
  by destruct (slice_200 text).
Qed.

Lemma classify_mode_blank env p w :
  blank p -> classify_mode env p w = (Ret NEW, log (EvClassify p) w).
Proof.
  intros Hb%blank_test.
  unfold classify_mode, bind, emit, ret. simpl. by rewrite Hb.
Qed.

(** The ways [classify_outcome] ends: a mode, or the exception of the
    handler on a text that is neither a string nor a list. *)
Lemma classify_outcome_cases env p :
  (exists m, classify_outcome env p = Ret m /\ (m = NEW \/ m = EDIT))
  \/ (exists e text,
        classify_outcome env p = Raise e
        /\ response_text (ollama_post env (strip p)) = inr text
        /\ slice_200 text = inl e).
Proof.
  unfold classify_outcome.
  destruct (response_text _) as [e | text] eqn:Ht.
  { left. eexists. split; [done | apply fallback_rule_Mode]. }
  destruct (parse_reply env p text) as [e | m] eqn:Hp.
  - destruct (slice_200 text) as [e' | u] eqn:Hs.
    + right. by exists e', text.
    + left. eexists. split; [done | apply fallback_rule_Mode].
  - left. exists m. split; [done |]. by eapply parse_reply_Mode.
Qed.

(** Every run of [classify_mode]: a mode, NEW or EDIT, or the exception of
    the handler; a blank prompt gives NEW without a call. *)
Lemma classify_mode_cases env p w :
  exists r,
    classify_mode env p w =
      (r, if bool_decide (blank p) then log (EvClassify p) w
          else log (EvOllamaPost (strip p)) (log (EvClassify p) w))
    /\ ((exists m, r = Ret m /\ (m = NEW \/ m = EDIT))
        \/ (exists e, r = Raise e /\ ~ blank p
              /\ classify_outcome env p = r)).
Proof.
  case_bool_decide as Hb.
  - exists (Ret NEW). split; [by apply classify_mode_blank | left; eauto].
  - exists (classify_outcome env p). split; [by apply classify_mode_run |].
    destruct (classify_outcome_cases env p)
      as [(m & -> & Hm) | (e & t & -> & _)].
    + left. eauto.
    + right. by exists e.
Qed.

Lemma classify_mode_Ret env p w md w1 :
  classify_mode env p w = (Ret md, w1) -> md = NEW \/ md = EDIT.
Proof.
  intros H. destruct (classify_mode_cases env p w)
    as (r & Hrun & [(m & -> & Hm) | (e & -> & _)]);
    rewrite Hrun in H; [by injection H as <- _ | discriminate].
Qed.

(** The failures of the call that do end in the fallback rule: the call
    raises, the status is an error status, the body is not JSON, the text
    is a list, or it is a string in which no fragment carries a mode. *)
Lemma classify_mode_falls_back env p w :
  ~ blank p ->
  let fails :=
    classify_mode env p w
    = (Ret (_fallback_rule p),
       log (EvOllamaPost (strip p)) (log (EvClassify p) w)) in
  (forall e, ollama_post env (strip p) = OllamaRaises e -> fails)
  /\ (forall st body, ollama_post env (strip p) = OllamaResponse st body ->
        (400 <= st)%Z -> fails)
  /\ (forall st e, ollama_post env (strip p) = OllamaResponse st (inl e) ->
        fails)
  /\ (forall l, response_text (ollama_post env (strip p)) = inr (JArr l) ->
        fails)
  /\ (forall t, response_text (ollama_post env (strip p)) = inr (JStr t) ->
        re_search_braces t = None -> fails)
  /\ (forall t fragment,
        response_text (ollama_post env (strip p)) = inr (JStr t) ->
        re_search_braces t = Some fragment ->
        json_loads env fragment = None -> fails)
  /\ (forall t fragment parsed mv,
        response_text (ollama_post env (strip p)) = inr (JStr t) ->
        re_search_braces t = Some fragment ->
        json_loads env fragment = Some parsed ->
        json_get parsed (lit "mode") (JStr []) = Some (JStr mv) ->
        upper (strip mv) <> NEW -> upper (strip mv) <> EDIT -> fails).
Proof.
  intros Hb fails. unfold fails. rewrite (classify_mode_run env p w Hb).
  assert (Herr : forall e, response_text (ollama_post env (strip p)) = inl e ->
            (classify_outcome env p, log (EvOllamaPost (strip p)) (log (EvClassify p) w))
            = (Ret (_fallback_rule p),
               log (EvOllamaPost (strip p)) (log (EvClassify p) w))).
  { intros e He. unfold classify_outcome. by rewrite He. }
  split_and!.
  - intros e He. apply (Herr e). by rewrite He.
  - intros st body He Hst.
    apply (Herr (LibraryError (lit "ClientResponseError"))). rewrite He. simpl.
    assert ((st =? 200)%Z = false) as -> by lia.
    assert ((400 <=? st)%Z = true) as -> by lia. done.
  - intros st e He. destruct (400 <=? st)%Z eqn:Hst.
    + apply (Herr (LibraryError (lit "ClientResponseError"))). rewrite He. simpl.
      assert ((st =? 200)%Z = false) as -> by lia. by rewrite Hst.
    + apply (Herr e). rewrite He. simpl. rewrite Hst.
      by rewrite andb_false_r.
  - intros l Ht. unfold classify_outcome. by rewrite Ht.
  - intros t Ht Hre. unfold classify_outcome. rewrite Ht. simpl.
    by rewrite Hre.
  - intros t fragment Ht Hre Hj. unfold classify_outcome. rewrite Ht. simpl.
    by rewrite Hre, Hj.
  - intros t fragment parsed mv Ht Hre Hj Hg Hn He.
    unfold classify_outcome. rewrite Ht. simpl. rewrite Hre, Hj, Hg.
    destruct (Mode (upper (strip mv))) eqn:HM; [| done].
    apply Mode_spec in HM as [? | ?]; done.
Qed.

(** C7 fails on the code: the service answers with a body whose "response"
    is the number 5.  [re.search] raises on it inside the second [try]
    block, and the handler of that block, which slices the text for its
    message, raises in turn: the exception leaves [classify_mode]. *)
Theorem classify_mode_raises_on_number_response :
  let p := lit "remove the hat" in
  response_text (ollama_post number_env (strip p)) = inr (JNum 5)
  /\ parse_reply number_env p (JNum 5) = inl (LibraryError (lit "TypeError"))
  /\ slice_200 (JNum 5) = inl (LibraryError (lit "TypeError"))
  /\ classify_mode number_env p world0
     = (Raise (LibraryError (lit "TypeError")),
        log (EvOllamaPost (strip p)) (log (EvClassify p) world0)).
Proof. by vm_compute. Qed.

(** An answer that carries a mode is taken, whatever the fallback rule
    would say: here EDIT for a prompt without any keyword. *)
Lemma classify_mode_takes_the_answer :
  (classify_mode answering_env (lit "a cat on the moon") world0).1 = Ret EDIT
  /\ _fallback_rule (lit "a cat on the moon") = NEW.
Proof. by vm_compute. Qed.

(** ** The engine adapter: polling *)

Lemma wait_for_result_step env fuel pid q w :
  not_ready env pid (polls w) ->
  wait_for_result env (S fuel) pid q w =
  wait_for_result env fuel pid q (log (EvSleep q) (after_poll pid w)).
Proof.
  unfold not_ready. intros H. simpl.
  unfold bind at 1. unfold get_history.
  destruct (comfy_get_history env pid (polls w)) as [e | st body]; [done |].
  simpl. destruct H as [Hst | (data & -> & Hd)].
  - assert ((st =? 200)%Z = false) as -> by lia. done.
  - destruct (st =? 200)%Z; [| done]. by rewrite Hd.
Qed.

Lemma wait_for_result_found env fuel pid q w item :
  ready env pid (polls w) item ->
  wait_for_result env (S fuel) pid q w = (Ret item, after_poll pid w).
Proof.
  intros (data & Hd & Ha). simpl. unfold bind at 1. unfold get_history.
  rewrite Hd. simpl. by rewrite Ha.
Qed.

Lemma wait_for_result_raises env fuel pid q w e :
  comfy_get_history env pid (polls w) = ComfyRaises e ->
  wait_for_result env (S fuel) pid q w = (Raise e, after_poll pid w).
Proof.
  intros He. simpl. unfold bind at 1. unfold get_history. by rewrite He.
Qed.

Lemma wait_for_result_forever env pid q :
  (forall n, not_ready env pid n) ->
  forall fuel w, (wait_for_result env fuel pid q w).1 = OutOfFuel.
Proof.
  intros H fuel. induction fuel as [|fuel IH]; intros w; [done |].
  rewrite wait_for_result_step by apply H. apply IH.
Qed.

Lemma wait_for_result_returns env pid q item k :
  forall w fuel,
    (forall i, (i < k)%nat -> not_ready env pid (polls w + i)) ->
    ready env pid (polls w + k) item ->
    (k < fuel)%nat ->
    exists w', wait_for_result env fuel pid q w = (Ret item, w')
               /\ polls w' = (polls w + k + 1)%nat
               /\ trace w' = wait_trace pid q k ++ trace w
               /\ store w' = store w /\ queue w' = queue w
               /\ faults w' = faults w /\ uuids w' = uuids w.
Proof.
  induction k as [|k IH]; intros w fuel Hnot Hready Hfuel.
  - destruct fuel as [|fuel]; [lia |].
    rewrite Nat.add_0_r in Hready.
    rewrite (wait_for_result_found _ _ _ _ _ _ Hready).
    eexists. split; [done |]. simpl. repeat split; lia.
  - destruct fuel as [|fuel]; [lia |].
    rewrite wait_for_result_step.
    2:{ specialize (Hnot 0%nat). rewrite Nat.add_0_r in Hnot. apply Hnot. lia. }
    destruct (IH (log (EvSleep q) (after_poll pid w)) fuel)
      as (w' & Hrun & Hp & Ht & Hs & Hq & Hf & Hu).
    + intros i Hi.
      change (polls (log (EvSleep q) (after_poll pid w))) with (S (polls w)).
      replace (S (polls w) + i)%nat with (polls w + S i)%nat by lia.
      apply Hnot. lia.
    + change (polls (log (EvSleep q) (after_poll pid w))) with (S (polls w)).
      by replace (S (polls w) + k)%nat with (polls w + S k)%nat by lia.
    + lia.
    + exists w'. split; [done |]. simpl in *.
      rewrite Hp, Ht, Hs, Hq, Hf, Hu. repeat split; try done; [lia |].
      by rewrite <- app_assoc.
Qed.

Lemma wait_for_result_poll_raises env pid q e k :
  forall w fuel,
    (forall i, (i < k)%nat -> not_ready env pid (polls w + i)) ->
    comfy_get_history env pid (polls w + k) = ComfyRaises e ->
    (k < fuel)%nat ->
    (wait_for_result env fuel pid q w).1 = Raise e.
Proof.
  induction k as [|k IH]; intros w fuel Hnot He Hfuel;
    (destruct fuel as [|fuel]; [lia |]).
  - rewrite Nat.add_0_r in He. by rewrite (wait_for_result_raises _ _ _ _ _ _ He).
  - rewrite wait_for_result_step.
    2:{ specialize (Hnot 0%nat). rewrite Nat.add_0_r in Hnot. apply Hnot. lia. }
    apply IH; [| | lia];
      change (polls (log (EvSleep q) (after_poll pid w))) with (S (polls w)).
    + intros i Hi.
      replace (S (polls w) + i)%nat with (polls w + S i)%nat by lia.
      apply Hnot. lia.
    + by replace (S (polls w) + k)%nat with (polls w + S k)%nat by lia.
Qed.

Lemma pending_env_not_ready pid n : not_ready pending_env pid n.
Proof. right. by exists []. Qed.

(** C2, as the code has it: [wait_for_result] polls the history of the run
    with the same pause [poll_interval] between two polls and returns the
    history item as soon as a 200 answer lists the run; an exception of a
    single request is passed on.  It has no time-out of its own: when no
    answer ever lists the run, it neither returns nor raises, however many
    polls it is given. *)
Theorem wait_for_result_polls_until_listed env pid q w k :
  (forall i, (i < k)%nat -> not_ready env pid (polls w + i)) ->
  (forall item, ready env pid (polls w + k) item ->
     forall fuel, (k < fuel)%nat ->
       exists w', wait_for_result env fuel pid q w = (Ret item, w')
                  /\ trace w' = wait_trace pid q k ++ trace w)
  /\ (forall e, comfy_get_history env pid (polls w + k) = ComfyRaises e ->
        forall fuel, (k < fuel)%nat ->
          (wait_for_result env fuel pid q w).1 = Raise e)
  /\ ((forall n, not_ready env pid n) ->
        forall fuel, (wait_for_result env fuel pid q w).1 = OutOfFuel).
Proof.
  intros Hnot. split; [| split].
  - intros item Hready fuel Hfuel.
    destruct (wait_for_result_returns env pid q item k w fuel Hnot Hready Hfuel)
      as (w' & Hrun & _ & Ht & _). eauto.
  - intros e He fuel Hfuel. by eapply wait_for_result_poll_raises.
  - intros Hall fuel. by apply wait_for_result_forever.
Qed.

Lemma wait_for_result_polls_until_listed_witness :
  (forall i, (i < 1)%nat ->
     not_ready sample_env (lit "run-1") (polls world0 + i))
  /\ exists w', wait_for_result sample_env 2 (lit "run-1") 1 world0
                = (Ret sample_history, w')
                /\ trace w' = wait_trace (lit "run-1") 1 1 ++ trace world0.
Proof.
  assert (H : forall i, (i < 1)%nat ->
                not_ready sample_env (lit "run-1") (polls world0 + i)).
  { intros i Hi. destruct i; [| lia]. right. by exists []. }
  split; [exact H |].
  refine (proj1 (wait_for_result_polls_until_listed
                   sample_env (lit "run-1") 1 world0 1 H) sample_history _ 2%nat _).
  - eexists. split; reflexivity.
  - lia.
Defined.

(** C2 fails as stated: against an engine that answers every poll with a
    history that does not list the run, no number of polls makes
    [wait_for_result] return or raise. *)
Lemma wait_for_result_without_timeout :
  ~ exists fuel r w',
      wait_for_result pending_env fuel (lit "run-1") 1 world0 = (r, w')
      /\ r <> OutOfFuel.
Proof.
  intros (fuel & r & w' & Hrun & Hr). apply Hr.
  pose proof (wait_for_result_forever pending_env (lit "run-1") 1
                (pending_env_not_ready (lit "run-1")) fuel world0) as H.
  by rewrite Hrun in H.
Qed.

(** ** The state store *)

Lemma next_fault_frame w f w1 :
  next_fault w = (f, w1) ->
  store w1 = store w /\ queue w1 = queue w /\ uuids w1 = uuids w
  /\ polls w1 = polls w /\ trace w1 = trace w.
Proof.
  unfold next_fault. destruct (faults w); intros [= <- <-]; done.
Qed.

Lemma next_fault_none w : faults w = [] -> next_fault w = (None, w).
Proof. unfold next_fault. by intros ->. Qed.

Lemma next_fault_quiet w f w1 :
  next_fault w = (f, w1) -> faults w = [] -> f = None /\ faults w1 = [].
Proof. intros H Hf. rewrite (next_fault_none w Hf) in H. by injection H as <- <-. Qed.

(** Outcomes of the three commands, whatever the store answers. *)
Lemma rds_set_cases k v w :
  (exists e w1, next_fault w = (Some e, w1) /\ rds_set k v w = (Raise e, w1))
  \/ (exists w1, next_fault w = (None, w1)
        /\ rds_set k v w = (Ret tt, log (EvSet k v) (with_store <[k := v]> w1))).
Proof.
  unfold rds_set, rds_command. destruct (next_fault w) as [[e|] w1]; eauto.
Qed.

Lemma rds_get_cases k w :
  (exists e w1, next_fault w = (Some e, w1) /\ rds_get k w = (Raise e, w1))
  \/ (exists w1, next_fault w = (None, w1)
        /\ rds_get k w = (Ret (store w !! k), log (EvGet k) w1)).
Proof.
  unfold rds_get, rds_command.
  destruct (next_fault w) as [[e|] w1] eqn:E; [eauto |].
  right. exists w1. split; [done |].
  by destruct (next_fault_frame _ _ _ E) as (-> & _).
Qed.

Lemma rds_lpush_cases item w :
  (exists e w1, next_fault w = (Some e, w1) /\ rds_lpush item w = (Raise e, w1))
  \/ (exists w1, next_fault w = (None, w1)
        /\ rds_lpush item w =
             (Ret tt, log (EvLPush QUEUE_KEY item)
                          (with_queue (item :: queue w) w1))).
Proof.
  unfold rds_lpush, rds_command.
  destruct (next_fault w) as [[e|] w1] eqn:E; [eauto |].
  right. exists w1. split; [done |].
  by destruct (next_fault_frame _ _ _ E) as (_ & -> & _).
Qed.

Lemma bind_Ret {A B} (m : M A) (k : A -> M B) w a w1 :
  m w = (Ret a, w1) -> bind m k w = k a w1.
Proof. intros H. unfold bind. by rewrite H. Qed.

Lemma bind_Raise {A B} (m : M A) (k : A -> M B) w e w1 :
  m w = (Raise e, w1) -> bind m k w = (Raise e, w1).
Proof. intros H. unfold bind. by rewrite H. Qed.

Lemma rds_get_run k w :
  faults w = [] -> rds_get k w = (Ret (store w !! k), log (EvGet k) w).
Proof. intros H. unfold rds_get, rds_command. by rewrite next_fault_none. Qed.

Lemma rds_set_run k v w :
  faults w = [] ->
  rds_set k v w = (Ret tt, log (EvSet k v) (with_store <[k := v]> w)).
Proof. intros H. unfold rds_set, rds_command. by rewrite next_fault_none. Qed.

Lemma write_result_run job_id uid url w1 :
  faults w1 = [] ->
  try_except (write_result job_id uid url) (write_error job_id) w1
  = (Ret tt,
     log (EvSet (JOB_KEY_PREFIX ++ job_id) (job_record done (Some url) None))
       (with_store <[JOB_KEY_PREFIX ++ job_id := job_record done (Some url) None]>
          (log (EvSet (LAST_IMAGE_PREFIX ++ uid) (VStr url))
             (with_store <[LAST_IMAGE_PREFIX ++ uid := VStr url]> w1)))).
Proof.
  intros Hf. unfold try_except, write_result.
  rewrite (bind_Ret _ _ _ _ _ (rds_set_run _ _ w1 Hf)).
  by rewrite rds_set_run.
Qed.

(** ** Intake *)

(** The four outcomes of lines 35-46. *)
Lemma generate_mode_cases env req w :
  (exists m, mode req = Some m /\ generate_mode env req w = (Ret m, w))
  \/ (mode req = None /\ exists e w1,
        next_fault w = (Some e, w1) /\ generate_mode env req w = (Raise e, w1))
  \/ (mode req = None /\ exists w1,
        next_fault w = (None, w1)
        /\ value_falsy (store w !! last_image_key req) = true
        /\ generate_mode env req w = (Ret NEW, log (EvGet (last_image_key req)) w1))
  \/ (mode req = None /\ exists w1,
        next_fault w = (None, w1)
        /\ value_falsy (store w !! last_image_key req) = false
        /\ generate_mode env req w =
             classify_mode env (prompt req) (log (EvGet (last_image_key req)) w1)).
Proof.
  unfold generate_mode, last_image_key. destruct (mode req) as [m|]; [eauto |].
  right. unfold bind.
  destruct (rds_get_cases (LAST_IMAGE_PREFIX ++ user_id req) w)
    as [(e & w1 & Hf & ->) | (w1 & Hf & ->)].
  - left. eauto.
  - right. destruct (value_falsy _) eqn:Hv.
    + left. eauto.
    + right. eauto.
Qed.

Lemma generate_unfold env req w :
  ~ blank (prompt req) ->
  generate env req w = bind (generate_mode env req) (generate_tail env req) w.
Proof.
  intros Hb. unfold generate.
  destruct (is_empty (strip (prompt req))) eqn:E; [| done].
  destruct Hb. by apply is_empty_strip.
Qed.

Lemma generate_blank env req w :
  blank (prompt req) ->
  generate env req w = (Raise (HTTPException 400 empty_prompt_detail), w).
Proof.
  intros Hb. unfold generate.
  by rewrite (proj2 (is_empty_strip (prompt req)) Hb).
Qed.

(** What the mode resolution leaves behind. *)
Lemma generate_mode_frame env req w r w1 :
  generate_mode env req w = (r, w1) ->
  store w1 = store w /\ queue w1 = queue w /\ uuids w1 = uuids w
  /\ writes w1 = writes w
  /\ (faults w = [] -> faults w1 = [])
  /\ ((exists e, r = Raise e /\ mode req = None
         /\ (classifier_calls w1 <> classifier_calls w ->
             is_Some (store w !! last_image_key req))
         /\ (faults w = [] ->
             is_Some (store w !! last_image_key req)
             /\ (~ blank (prompt req) ->
                 classify_outcome env (prompt req) = Raise e)))
      \/ exists m, r = Ret m
           /\ (forall m', mode req = Some m' -> m = m')
           /\ (mode req = None -> m = NEW \/ m = EDIT)
           /\ (mode req = None -> store w !! last_image_key req = None -> m = NEW)
           /\ (classifier_calls w1 <> classifier_calls w ->
               mode req = None /\ is_Some (store w !! last_image_key req))).
Proof.
  intros Hrun.
  destruct (generate_mode_cases env req w)
    as [(m & Hm & H) | [(Hm & e & w0 & Hf & H) | [(Hm & w0 & Hf & Hv & H)
                                                 | (Hm & w0 & Hf & Hv & H)]]];
    rewrite H in Hrun.
  - injection Hrun as <- <-. repeat split; try done.
    right. exists m. repeat split; try congruence; done.
  - injection Hrun as <- <-.
    destruct (next_fault_frame _ _ _ Hf) as (Hs & Hq & Hu & Hp & Ht).
    split_and!; try done.
    + unfold writes. by rewrite Ht.
    + intros Hq'. by destruct (next_fault_quiet _ _ _ Hf Hq').
    + left. exists e. split_and!; [done | done | |].
      * unfold classifier_calls. by rewrite Ht.
      * intros Hq'. by destruct (next_fault_quiet _ _ _ Hf Hq').
  - injection Hrun as <- <-.
    destruct (next_fault_frame _ _ _ Hf) as (Hs & Hq & Hu & Hp & Ht).
    repeat split; try done.
    + unfold writes. simpl. by rewrite Ht.
    + intros Hq'. by destruct (next_fault_quiet _ _ _ Hf Hq').
    + right. exists NEW. unfold classifier_calls. simpl. rewrite Ht.
      repeat split; try done; try congruence. auto.
  - destruct (classify_mode_cases env (prompt req)
                (log (EvGet (last_image_key req)) w0)) as (r0 & Hc & Hr0).
    rewrite Hc in Hrun. injection Hrun as <- <-.
    destruct (next_fault_frame _ _ _ Hf) as (Hs & Hq & Hu & Hp & Ht).
    assert (Hsome : is_Some (store w !! last_image_key req)).
    { destruct (store w !! last_image_key req); [eauto | discriminate]. }
    assert (Hfq : faults w = [] ->
              faults (if bool_decide (blank (prompt req))
                      then log (EvClassify (prompt req))
                             (log (EvGet (last_image_key req)) w0)
                      else log (EvOllamaPost (strip (prompt req)))
                             (log (EvClassify (prompt req))
                                (log (EvGet (last_image_key req)) w0))) = []).
    { intros Hq'. destruct (next_fault_quiet _ _ _ Hf Hq') as [_ Hq0].
      by case_bool_decide. }
    split_and!; try (by case_bool_decide).
    + unfold writes. case_bool_decide; simpl; by rewrite Ht.
    + destruct Hr0 as [(m & -> & HM) | (e & -> & Hb & Ho)].
      * right. exists m. repeat split; try done; try congruence.
        intros _ Hnone. rewrite Hnone in Hsome. by destruct Hsome.
      * left. eexists. split_and!; [done | done | done |].
        intros _. split; [done |]. by intros _.
Qed.

(** What the rest of [generate] does: at most one record and one queue
    entry, in this order, and no call of the classifier. *)
Lemma generate_tail_cases env req m w1 :
  let job_id := uuid4 env (uuids w1) in
  let rec_write := EvSet (JOB_KEY_PREFIX ++ job_id) (VJob initial_record) in
  let entry := QDict (job_entry job_id (user_id req) (prompt req) m) in
  exists r w',
    generate_tail env req m w1 = (r, w')
    /\ classifier_calls w' = classifier_calls w1
    /\ uuids w' = S (uuids w1)
    /\ ((exists e, r = Raise e /\ faults w1 <> []
                   /\ queue w' = queue w1 /\ store w' = store w1
                   /\ writes w' = writes w1)
        \/ (exists e, r = Raise e /\ faults w1 <> []
                   /\ queue w' = queue w1
                   /\ store w' = <[JOB_KEY_PREFIX ++ job_id := VJob initial_record]> (store w1)
                   /\ writes w' = rec_write :: writes w1)
        \/ (r = Ret {| resp_job_id := job_id; resp_status := waiting |}
            /\ queue w' = entry :: queue w1
            /\ store w' = <[JOB_KEY_PREFIX ++ job_id := VJob initial_record]> (store w1)
            /\ writes w' = EvLPush QUEUE_KEY entry :: rec_write :: writes w1)).
Proof.
  intros job_id rec_write entry.
  unfold generate_tail, bind at 1, gen_job_id. fold job_id.
  set (wa := log (EvUuid job_id) (with_uuids (S (uuids w1)) w1)).
  unfold bind at 1.
  destruct (rds_set_cases (JOB_KEY_PREFIX ++ job_id) (VJob initial_record) wa)
    as [(e & w2 & Hf & ->) | (w2 & Hf & ->)];
    destruct (next_fault_frame _ _ _ Hf) as (Hs & Hq & Hu & Hp & Ht).
  - do 2 eexists. split; [done |]. unfold classifier_calls, writes.
    rewrite Ht, Hu. repeat split; try done. left. exists e.
    repeat split; try done.
    intros Hn. by destruct (next_fault_quiet _ _ _ Hf Hn).
  - set (wb := log _ (with_store _ w2)). unfold bind at 1. fold entry.
    destruct (rds_lpush_cases entry wb)
      as [(e & w3 & Hf' & ->) | (w3 & Hf' & ->)];
      destruct (next_fault_frame _ _ _ Hf') as (Hs' & Hq' & Hu' & Hp' & Ht').
    + do 2 eexists. split; [done |]. unfold classifier_calls, writes.
      rewrite Ht', Hu', Hs', Hq'. simpl. rewrite Ht, Hu, Hs, Hq.
      repeat split; try done. right. left. exists e.
      repeat split; try done.
      intros Hn. destruct (next_fault_quiet _ _ _ Hf Hn) as [_ Hn2].
      by destruct (next_fault_quiet _ _ _ Hf' Hn2).
    + do 2 eexists. split; [done |]. unfold classifier_calls, writes. simpl.
      rewrite Ht', Hu', Hs'. simpl. rewrite Ht, Hu, Hs, Hq.
      repeat split; try done. right. right. done.
Qed.

Lemma job_entry_lookup job_id u p m :
  job_entry job_id u p m !! lit "job_id" = Some job_id
  /\ job_entry job_id u p m !! lit "user_id" = Some u
  /\ job_entry job_id u p m !! lit "prompt" = Some p
  /\ job_entry job_id u p m !! lit "mode" = Some m.
Proof.
  unfold job_entry. split_and!.
  - by rewrite lookup_insert_eq.
  - rewrite lookup_insert_ne by (by compute). by rewrite lookup_insert_eq.
  - do 2 rewrite lookup_insert_ne by (by compute). by rewrite lookup_insert_eq.
  - do 3 rewrite lookup_insert_ne by (by compute). by rewrite lookup_insert_eq.
Qed.

(** A run of [generate] on a prompt that is not blank: the mode is
    resolved; unless that raised, the rest runs with the resolved mode. *)
Lemma generate_split env req w r w' :
  ~ blank (prompt req) ->
  generate env req w = (r, w') ->
  exists r1 w1,
    generate_mode env req w = (r1, w1)
    /\ ((exists e, r1 = Raise e /\ r = Raise e /\ w' = w1)
        \/ exists m, r1 = Ret m /\ generate_tail env req m w1 = (r, w')).
Proof.
  intros Hb Hrun. rewrite generate_unfold in Hrun by done.
  unfold bind in Hrun.
  destruct (generate_mode env req w) as [r1 w1] eqn:Hm.
  exists r1, w1. split; [done |].
  destruct (generate_mode_frame _ _ _ _ _ Hm)
    as (_ & _ & _ & _ & _ & [(e & -> & _) | (m & -> & _)]).
  - injection Hrun as <- <-. left. eauto.
  - right. eauto.
Qed.

(** Every run of [generate]: what it may have added to the queue and how
    the classifier was used. *)
Lemma generate_effects env req w r w' :
  generate env req w = (r, w') ->
  (queue w' = queue w /\ (exists e, r = Raise e)
   \/ exists m,
        r = Ret {| resp_job_id := uuid4 env (uuids w); resp_status := waiting |}
        /\ queue w' = QDict (job_entry (uuid4 env (uuids w)) (user_id req)
                                       (prompt req) m) :: queue w
        /\ store w' = <[JOB_KEY_PREFIX ++ uuid4 env (uuids w)
                        := VJob initial_record]> (store w)
        /\ (forall m', mode req = Some m' -> m = m')
        /\ (mode req = None -> m = NEW \/ m = EDIT)
        /\ (mode req = None -> store w !! last_image_key req = None -> m = NEW))
  /\ (classifier_calls w' <> classifier_calls w ->
      mode req = None /\ is_Some (store w !! last_image_key req))
  /\ (forall m', mode req = Some m' -> classifier_calls w' = classifier_calls w)
  /\ (mode req = None -> store w !! last_image_key req = None ->
      classifier_calls w' = classifier_calls w)
  /\ (r = Blocked \/ r = OutOfFuel -> False)
  /\ (faults w = [] -> ~ blank (prompt req) ->
      (exists a, r = Ret a)
      \/ exists e, r = Raise e /\ mode req = None
           /\ is_Some (store w !! last_image_key req)
           /\ classify_outcome env (prompt req) = Raise e).
Proof.
  intros Hrun.
  destruct (decide (blank (prompt req))) as [Hb | Hb].
  { rewrite generate_blank in Hrun by done. injection Hrun as <- <-.
    split_and!; try done; [left; eauto | by intros [? | ?]]. }
  assert (Hcalls : forall w1, (classifier_calls w1 <> classifier_calls w -> False) ->
                   classifier_calls w1 = classifier_calls w).
  { intros w1 H. destruct (decide (classifier_calls w1 = classifier_calls w)); done. }
  destruct (generate_split _ _ _ _ _ Hb Hrun)
    as (r1 & w1 & Hm & [(e & -> & -> & ->) | (m & -> & Ht)]);
    destruct (generate_mode_frame _ _ _ _ _ Hm)
      as (Hs & Hq & Hu & Hw & Hfq & [(e' & He' & Hnone & Hc & Hesc) | (m' & Hm' & Hsome & Hmode & Habs & Hcl)]);
    try discriminate.
  - split_and!.
    + left. eauto.
    + intros H. split; [done | by apply Hc].
    + intros m' Hm'. congruence.
    + intros _ Habsent. apply Hcalls. intros H.
      apply Hc in H as [v Hv]. congruence.
    + by intros [? | ?].
    + intros Hf _. right. injection He' as <-.
      destruct (Hesc Hf) as [? ?]. exists e. split_and!; auto.
  - injection Hm' as <-.
    destruct (generate_tail_cases env req m w1)
      as (r' & w'' & Hrun' & Hcc & _ & Hcases).
    rewrite Ht in Hrun'. injection Hrun' as <- <-.
    rewrite Hcc.
    split_and!.
    + destruct Hcases as [(e & -> & _ & Hq' & _) | [(e & -> & _ & Hq' & _)
                                                   | (-> & Hq' & Hs' & _)]].
      * left. split; [congruence | eauto].
      * left. split; [congruence | eauto].
      * right. exists m. split_and!; try done;
          [by rewrite Hu | by rewrite Hq', Hu, Hq | by rewrite Hs', Hu, Hs].
    + apply Hcl.
    + intros m' Hm'. apply Hcalls. intros H.
      apply Hcl in H as [H _]. congruence.
    + intros Hnone Habsent. apply Hcalls. intros H.
      apply Hcl in H as [_ [v Hv]]. congruence.
    + destruct Hcases as [(e & -> & _) | [(e & -> & _) | (-> & _)]];
        by intros [? | ?].
    + intros Hf _. specialize (Hfq Hf). left.
      destruct Hcases as [(e & -> & Hn & _) | [(e & -> & Hn & _) | (-> & _)]];
        try done. eauto.
Qed.

(** What [generate] answers.  A request whose prompt is empty or all white
    space is answered with the HTTP error 400 and leaves the world as it
    was: no record, no job id, no queue entry.  A request with any other
    prompt, when the store answers its commands, is answered with
    [{job_id, status = waiting}], its record and its queue entry being
    written, unless the classifier was asked and raised; the only other
    outcome is the exception of a store command. *)
Lemma generate_outcomes env req w :
  (blank (prompt req) ->
   generate env req w = (Raise (HTTPException 400 empty_prompt_detail), w))
  /\ (~ blank (prompt req) -> faults w = [] ->
      let job_id := uuid4 env (uuids w) in
      (exists m w',
         generate env req w =
           (Ret {| resp_job_id := job_id; resp_status := waiting |}, w')
         /\ store w' !! (JOB_KEY_PREFIX ++ job_id) = Some (VJob initial_record)
         /\ queue w' = QDict (job_entry job_id (user_id req) (prompt req) m)
                       :: queue w)
      \/ (exists e w',
            generate env req w = (Raise e, w')
            /\ mode req = None /\ is_Some (store w !! last_image_key req)
            /\ classify_outcome env (prompt req) = Raise e
            /\ queue w' = queue w))
  /\ (~ blank (prompt req) -> forall r w',
      generate env req w = (r, w') ->
      r = Ret {| resp_job_id := uuid4 env (uuids w); resp_status := waiting |}
      \/ exists e, r = Raise e
           /\ (faults w <> [] \/ classify_outcome env (prompt req) = Raise e)).
Proof.
  split_and!.
  - apply generate_blank.
  - intros Hb Hf job_id.
    destruct (generate env req w) as [r w'] eqn:Hrun.
    destruct (generate_effects _ _ _ _ _ Hrun)
      as ([(Hq & e & ->) | (m & -> & Hq & Hs & _)] & _ & _ & _ & _ & Hret).
    + right. destruct (Hret Hf Hb) as [[a Ha] | (e' & [= <-] & Hm & Hp & Ho)];
        [discriminate |].
      exists e, w'. done.
    + left. exists m, w'. split_and!; [done | | done].
      rewrite Hs. apply lookup_insert_eq.
  - intros Hb r w' Hrun.
    destruct (generate_effects _ _ _ _ _ Hrun)
      as ([(_ & e & ->) | (m & -> & _)] & _ & _ & _ & _ & Hret).
    + right. exists e. split; [done |].
      destruct (faults w) as [| f fs] eqn:Hf; [| by left].
      right. destruct (Hret eq_refl Hb) as [[a Ha] | (e' & [= <-] & _ & _ & Ho)];
        [discriminate | done].
    + by left.
Qed.

(** C6 fails on the code: user "u1" has an image, the request names no
    mode, and the classifier answers with a body whose "response" is the
    number 5.  The exception of [classify_mode] leaves [generate], which
    calls it outside any [try]: the request, whose prompt is not blank, is
    not answered with a job, although the store answered every command. *)
Theorem generate_raises_on_number_response :
  let out := generate number_env hat_request pointer_world in
  forallb is_space (prompt hat_request) = false
  /\ mode hat_request = None
  /\ faults pointer_world = []
  /\ store pointer_world !! last_image_key hat_request
     = Some (VStr (lit "http://old/image.png"))
  /\ out.1 = Raise (LibraryError (lit "TypeError"))
  /\ uuids out.2 = uuids pointer_world
  /\ writes out.2 = []
  /\ queue out.2 = [].
Proof. intros out. split_and!; by vm_compute. Qed.

(** C5: in every run of [generate], a mode supplied by the caller is the
    mode of the queue entry and the classifier is not entered; without a
    supplied mode and without a last-image pointer of the user the mode is
    NEW, whatever the prompt, and the classifier is not entered either; the
    classifier is entered only when no mode was supplied and the pointer is
    present. *)
Theorem generate_mode_resolution env req w r w' :
  generate env req w = (r, w') ->
  let pushed m :=
    queue w' = QDict (job_entry (uuid4 env (uuids w)) (user_id req)
                                (prompt req) m) :: queue w in
  (forall m, mode req = Some m ->
     classifier_calls w' = classifier_calls w
     /\ (queue w' = queue w \/ pushed m)
     /\ (~ blank (prompt req) -> faults w = [] -> pushed m))
  /\ (mode req = None -> store w !! last_image_key req = None ->
      classifier_calls w' = classifier_calls w
      /\ (queue w' = queue w \/ pushed NEW)
      /\ (~ blank (prompt req) -> faults w = [] -> pushed NEW))
  /\ (classifier_calls w' <> classifier_calls w ->
      mode req = None /\ is_Some (store w !! last_image_key req)).
Proof.
  intros Hrun pushed.
  destruct (generate_effects _ _ _ _ _ Hrun)
    as (Hq & Hcl & Hsome & Hnone & _ & Hret).
  assert (Hpush : forall m,
            (forall m0, pushed m0 -> (forall m', mode req = Some m' -> m0 = m') ->
               (mode req = None -> store w !! last_image_key req = None -> m0 = NEW) ->
               m0 = m) ->
            (mode req = None -> is_Some (store w !! last_image_key req) -> False) ->
            (queue w' = queue w \/ pushed m)
            /\ (~ blank (prompt req) -> faults w = [] -> pushed m)).
  { intros m Hm Hno.
    destruct Hq as [(Hq & e & ->) | (m0 & -> & Hq & _ & H1 & _ & H2)].
    - split; [by left |]. intros Hb Hf.
      destruct (Hret Hf Hb) as [[a Ha] | (e' & _ & Hmd & Hp & _)];
        [discriminate | by destruct (Hno Hmd Hp)].
    - assert (m0 = m) as -> by by apply Hm. split; [by right | done]. }
  split_and!.
  - intros m Hm. split; [by eapply Hsome |]. apply Hpush.
    + intros m0 _ H _. by apply H.
    + congruence.
  - intros Hm Habs. split; [by apply Hnone |]. apply Hpush.
    + intros m0 _ _ H. by apply H.
    + intros _ [v Hv]. congruence.
  - exact Hcl.
Qed.

Lemma generate_mode_resolution_witness :
  generate sample_env hat_request world0
  = ((generate sample_env hat_request world0).1,
     (generate sample_env hat_request world0).2)
  /\ mode hat_request = None
  /\ store world0 !! last_image_key hat_request = None
  /\ classifier_calls (generate sample_env hat_request world0).2
     = classifier_calls world0
  /\ queue (generate sample_env hat_request world0).2
     = [QDict (job_entry (lit "job-0") (lit "u1") (lit "remove the hat") NEW)].
Proof.
  assert (Hrun : generate sample_env hat_request world0
                 = ((generate sample_env hat_request world0).1,
                    (generate sample_env hat_request world0).2))
    by apply surjective_pairing.
  assert (Hn : ~ blank (prompt hat_request)) by (by compute).
  split_and!; [exact Hrun | reflexivity | reflexivity | |].
  - exact (proj1 (proj1 (proj2 (generate_mode_resolution _ _ _ _ _ Hrun))
                    eq_refl eq_refl)).
  - exact (proj2 (proj2 (proj1 (proj2 (generate_mode_resolution _ _ _ _ _ Hrun))
                           eq_refl eq_refl)) Hn eq_refl).
Defined.

(** C10: every entry [post_generate] adds to the queue carries the mode
    "NEW" or "EDIT" under its key "mode": a supplied mode outside the two
    literals is rejected by the validation of the request before the
    handler runs, and whatever the classifier or the fallback rule returns
    is one of the two. *)
Theorem queue_entry_mode_is_NEW_or_EDIT env u p m w r w' :
  post_generate env u p m w = (r, w') ->
  (queue w' = queue w
   \/ exists md,
        (md = NEW \/ md = EDIT)
        /\ queue w' = QDict (job_entry (uuid4 env (uuids w)) u p md) :: queue w
        /\ job_entry (uuid4 env (uuids w)) u p md !! lit "mode" = Some md)
  /\ (forall m', m = Some m' -> m' <> NEW -> m' <> EDIT ->
        r = Raise RequestValidationError /\ w' = w)
  /\ (forall q w0 md w1,
        classify_mode env q w0 = (Ret md, w1) -> md = NEW \/ md = EDIT)
  /\ (forall q, _fallback_rule q = NEW \/ _fallback_rule q = EDIT).
Proof.
  intros Hrun. split_and!.
  - unfold post_generate, validate_GenerateRequest in Hrun.
    destruct m as [m'|].
    + destruct (Mode m') eqn:HM.
      * apply Mode_spec in HM.
        destruct (generate_effects _ _ _ _ _ Hrun)
          as ([(Hq & _) | (m0 & _ & Hq & _ & Hsome & _)] & _); [by left |].
        simpl in *. rewrite <- (Hsome m' eq_refl) in HM.
        right. exists m0. split_and!; [done | done |]. apply job_entry_lookup.
      * injection Hrun as <- <-. by left.
    + destruct (generate_effects _ _ _ _ _ Hrun)
        as ([(Hq & _) | (m0 & _ & Hq & _ & _ & Hmode & _)] & _); [by left |].
      simpl in *. right. exists m0.
      split_and!; [by apply Hmode | done |]. apply job_entry_lookup.
  - intros m' -> Hn He. unfold post_generate, validate_GenerateRequest in Hrun.
    destruct (Mode m') eqn:HM.
    + apply Mode_spec in HM as [? | ?]; done.
    + by injection Hrun as <- <-.
  - intros q w0 md w1. apply classify_mode_Ret.
  - apply fallback_rule_Mode.
Qed.

Lemma queue_entry_mode_is_NEW_or_EDIT_witness :
  post_generate sample_env (lit "u1") (lit "remove the hat") (Some EDIT) world0
  = ((post_generate sample_env (lit "u1") (lit "remove the hat") (Some EDIT)
        world0).1,
     (post_generate sample_env (lit "u1") (lit "remove the hat") (Some EDIT)
        world0).2)
  /\ queue (post_generate sample_env (lit "u1") (lit "remove the hat")
              (Some EDIT) world0).2
     = [QDict (job_entry (lit "job-0") (lit "u1") (lit "remove the hat") EDIT)]
  /\ (forall q, _fallback_rule q = NEW \/ _fallback_rule q = EDIT).
Proof.
  assert (Hrun : post_generate sample_env (lit "u1") (lit "remove the hat")
                   (Some EDIT) world0
                 = ((post_generate sample_env (lit "u1") (lit "remove the hat")
                       (Some EDIT) world0).1,
                    (post_generate sample_env (lit "u1") (lit "remove the hat")
                       (Some EDIT) world0).2))
    by apply surjective_pairing.
  split_and!; [exact Hrun | reflexivity |].
  exact (proj2 (proj2 (proj2 (queue_entry_mode_is_NEW_or_EDIT _ _ _ _ _ _ _ Hrun)))).
Defined.

(** ** Computations and what they write *)

Lemma reads_only_writes_only {A} Q (m : M A) : reads_only m -> writes_only Q m.
Proof.
  intros H w r w' Hrun. destruct (H _ _ _ Hrun) as (_ & _ & _ & Hw).
  exists []. by split.
Qed.

Lemma reads_only_ret {A} (a : A) : reads_only (ret a).
Proof. intros w r w' [= <- <-]. done. Qed.

Lemma reads_only_raise {A} e : reads_only (@raise A e).
Proof. intros w r w' [= <- <-]. done. Qed.

Lemma reads_only_lift {A} (x : exn + A) : reads_only (lift x).
Proof. destruct x; [apply reads_only_raise | apply reads_only_ret]. Qed.

Lemma reads_only_emit e : is_write e = false -> reads_only (emit e).
Proof.
  intros He w r w' [= <- <-]. unfold writes. simpl. by rewrite He.
Qed.

Lemma reads_only_bind {A B} (m : M A) (k : A -> M B) :
  reads_only m -> (forall a, reads_only (k a)) -> reads_only (bind m k).
Proof.
  intros Hm Hk w r w' Hrun. unfold bind in Hrun.
  destruct (m w) as [r1 w1] eqn:E.
  destruct (Hm _ _ _ E) as (Hs & Hq & Hu & Hw).
  destruct r1; try (injection Hrun as <- <-; done).
  destruct (Hk _ _ _ _ Hrun) as (Hs' & Hq' & Hu' & Hw').
  split_and!; congruence.
Qed.

Lemma reads_only_try_except {A} (m : M A) (h : exn -> M A) :
  reads_only m -> (forall e, reads_only (h e)) -> reads_only (try_except m h).
Proof.
  intros Hm Hh w r w' Hrun. unfold try_except in Hrun.
  destruct (m w) as [r1 w1] eqn:E.
  destruct (Hm _ _ _ E) as (Hs & Hq & Hu & Hw).
  destruct r1; try (injection Hrun as <- <-; done).
  destruct (Hh _ _ _ _ Hrun) as (Hs' & Hq' & Hu' & Hw').
  split_and!; congruence.
Qed.

Lemma reads_only_rds_get k : reads_only (rds_get k).
Proof.
  intros w r w' Hrun.
  destruct (rds_get_cases k w) as [(e & w1 & Hf & H) | (w1 & Hf & H)];
    rewrite H in Hrun; injection Hrun as <- <-;
    destruct (next_fault_frame _ _ _ Hf) as (Hs & Hq & Hu & _ & Ht);
    unfold writes; simpl; rewrite Ht; done.
Qed.

Lemma reads_only_get_history env pid : reads_only (get_history env pid).
Proof.
  intros w r w' Hrun. unfold get_history in Hrun.
  destruct (comfy_get_history env pid (polls w)); injection Hrun as <- <-; done.
Qed.

Lemma reads_only_wait_for_result env fuel pid q :
  reads_only (wait_for_result env fuel pid q).
Proof.
  induction fuel as [|fuel IH]; simpl.
  - intros w r w' [= <- <-]. done.
  - apply reads_only_bind; [apply reads_only_get_history |].
    intros [st body]. simpl.
    assert (Hagain : reads_only (sleep q ;; wait_for_result env fuel pid q)).
    { apply reads_only_bind; [by apply reads_only_emit | done]. }
    destruct (st =? 200)%Z; [| done].
    destruct body as [data|]; [| apply reads_only_raise].
    destruct (assoc pid data); [apply reads_only_ret | done].
Qed.

Lemma reads_only_send_workflow env wf cid :
  reads_only (send_workflow_to_comfy env wf cid).
Proof.
  unfold send_workflow_to_comfy.
  apply reads_only_bind; [by apply reads_only_emit |]. intros _.
  destruct (comfy_post_prompt env wf cid) as [e | st body];
    [apply reads_only_raise |].
  destruct (negb (is_success st)); [apply reads_only_raise |].
  destruct body as [data|]; [| apply reads_only_raise].
  destruct (ack_prompt_id data) as [pid|]; [| apply reads_only_raise].
  destruct (is_empty pid); [apply reads_only_raise | apply reads_only_ret].
Qed.

Lemma reads_only_build_gen env p job_id :
  reads_only (emit EvBuildWorkflow ;; lift (build_gen_workflow env p job_id)).
Proof.
  apply reads_only_bind; [by apply reads_only_emit | intros _; apply reads_only_lift].
Qed.

Lemma reads_only_make_workflow env job_id uid m p :
  reads_only (make_workflow env job_id uid m p).
Proof.
  unfold make_workflow.
  destruct (pystr_eqb m NEW); [apply reads_only_build_gen |].
  apply reads_only_bind; [apply reads_only_rds_get |].
  intros [v|]; [| apply reads_only_build_gen].
  destruct (value_falsy (Some v)); [apply reads_only_build_gen |].
  apply reads_only_try_except; [| intros e; apply reads_only_raise].
  apply reads_only_bind; [by apply reads_only_emit |]. intros _.
  apply reads_only_bind; [apply reads_only_lift |]. intros fname.
  apply reads_only_bind; [by apply reads_only_emit |]. intros _.
  apply reads_only_lift.
Qed.

Lemma reads_only_run_workflow env fuel job_id uid m p :
  reads_only (run_workflow env fuel job_id uid m p).
Proof.
  unfold run_workflow.
  apply reads_only_bind; [apply reads_only_make_workflow |]. intros wf.
  apply reads_only_bind; [by apply reads_only_emit |]. intros _.
  apply reads_only_bind; [apply reads_only_lift |]. intros _.
  apply reads_only_bind; [apply reads_only_send_workflow |]. intros pid.
  apply reads_only_wait_for_result.
Qed.

Lemma writes_only_bind {A B} Q (m : M A) (k : A -> M B) :
  writes_only Q m -> (forall a, writes_only Q (k a)) -> writes_only Q (bind m k).
Proof.
  intros Hm Hk w r w' Hrun. unfold bind in Hrun.
  destruct (m w) as [r1 w1] eqn:E.
  destruct (Hm _ _ _ E) as (new1 & Hw1 & HQ1).
  destruct r1; try (injection Hrun as <- <-; eauto).
  destruct (Hk _ _ _ _ Hrun) as (new2 & Hw2 & HQ2).
  exists (new2 ++ new1). rewrite Hw2, Hw1, app_assoc. split; [done |].
  by apply Forall_app.
Qed.

Lemma writes_only_try_except {A} Q (m : M A) (h : exn -> M A) :
  writes_only Q m -> (forall e, writes_only Q (h e)) ->
  writes_only Q (try_except m h).
Proof.
  intros Hm Hh w r w' Hrun. unfold try_except in Hrun.
  destruct (m w) as [r1 w1] eqn:E.
  destruct (Hm _ _ _ E) as (new1 & Hw1 & HQ1).
  destruct r1; try (injection Hrun as <- <-; eauto).
  destruct (Hh _ _ _ _ Hrun) as (new2 & Hw2 & HQ2).
  exists (new2 ++ new1). rewrite Hw2, Hw1, app_assoc. split; [done |].
  by apply Forall_app.
Qed.

Lemma writes_only_rds_set (Q : event -> Prop) k v :
  Q (EvSet k v) -> writes_only Q (rds_set k v).
Proof.
  intros HQ w r w' Hrun.
  destruct (rds_set_cases k v w) as [(e & w1 & Hf & H) | (w1 & Hf & H)];
    rewrite H in Hrun; injection Hrun as <- <-;
    destruct (next_fault_frame _ _ _ Hf) as (_ & _ & _ & _ & Ht);
    unfold writes; simpl; rewrite Ht.
  - exists []. by split.
  - exists [EvSet k v]. split; [done |]. by constructor.
Qed.

Lemma writes_only_rds_lpush (Q : event -> Prop) item :
  Q (EvLPush QUEUE_KEY item) -> writes_only Q (rds_lpush item).
Proof.
  intros HQ w r w' Hrun.
  destruct (rds_lpush_cases item w) as [(e & w1 & Hf & H) | (w1 & Hf & H)];
    rewrite H in Hrun; injection Hrun as <- <-;
    destruct (next_fault_frame _ _ _ Hf) as (_ & _ & _ & _ & Ht);
    unfold writes; simpl; rewrite Ht.
  - exists []. by split.
  - exists [EvLPush QUEUE_KEY item]. split; [done |]. by constructor.
Qed.

Lemma writes_only_weaken {A} (Q Q' : event -> Prop) (m : M A) :
  (forall e, Q e -> Q' e) -> writes_only Q m -> writes_only Q' m.
Proof.
  intros HQ Hm w r w' Hrun. destruct (Hm _ _ _ Hrun) as (new & Hw & Hn).
  exists new. split; [done |]. eapply Forall_impl; eauto.
Qed.

(** ** Job records *)

Lemma record_ok_pending st :
  st = waiting \/ st = processing ->
  record_ok {| status := st; image_url := None; error_message := None |}.
Proof.
  intros Hst. unfold record_ok. simpl. split_and!.
  - intros [[? ?] _]. discriminate.
  - done.
  - split; [intros [? ?]; discriminate | intros ->; by destruct Hst].
  - split; [intros [? ?]; discriminate | intros ->; by destruct Hst].
Qed.

Lemma record_ok_done url :
  record_ok {| status := done; image_url := Some url; error_message := None |}.
Proof.
  unfold record_ok. simpl. split_and!.
  - intros [_ [? ?]]. discriminate.
  - intros [? | ?]; discriminate.
  - split; eauto.
  - split; [intros [? ?]; discriminate | discriminate].
Qed.

Lemma record_ok_error msg :
  record_ok {| status := error; image_url := None; error_message := Some msg |}.
Proof.
  unfold record_ok. simpl. split_and!.
  - intros [[? ?] _]. discriminate.
  - intros [? | ?]; discriminate.
  - split; [intros [? ?]; discriminate | discriminate].
  - split; eauto.
Qed.

Lemma worker_write_job_write_ok jd e : worker_write jd e -> job_write_ok e.
Proof.
  intros (job_id & uid & _ & _ & [(r & -> & Hr) | (url & ->)]) k r' He.
  - by injection He as _ <-.
  - discriminate.
Qed.

Lemma reads_only_getitem jd k : reads_only (getitem jd k).
Proof.
  unfold getitem. destruct (jd !! k); [apply reads_only_ret | apply reads_only_raise].
Qed.

Lemma getitem_Ret jd k v w w' :
  getitem jd k w = (Ret v, w') -> jd !! k = Some v /\ w' = w.
Proof.
  unfold getitem. destruct (jd !! k); intros [= <- <-]; done.
Qed.

Lemma writes_only_process_job env fuel jd :
  writes_only (worker_write jd) (process_job env fuel jd).
Proof.
  intros w r w' Hrun. unfold process_job in Hrun.
  unfold bind at 1 in Hrun.
  destruct (getitem jd (lit "job_id") w) as [[job_id | | |] w1] eqn:E1;
    try (apply reads_only_getitem in E1 as (_ & _ & _ & Hw);
         injection Hrun as <- <-; exists []; by split).
  apply getitem_Ret in E1 as [Hj ->].
  unfold bind at 1 in Hrun.
  destruct (getitem jd (lit "user_id") w) as [[uid | | |] w1] eqn:E2;
    try (apply reads_only_getitem in E2 as (_ & _ & _ & Hw);
         injection Hrun as <- <-; exists []; by split).
  apply getitem_Ret in E2 as [Hu ->].
  revert w r w' Hrun.
  assert (Hjob : forall r, record_ok r ->
            worker_write jd (EvSet (JOB_KEY_PREFIX ++ job_id) (VJob r))).
  { intros r Hr. exists job_id, uid. split_and!; [done | done |]. left. eauto. }
  change (writes_only (worker_write jd)
    (m <- getitem jd (lit "mode") ;;
     p <- getitem jd (lit "prompt") ;;
     rds_set (JOB_KEY_PREFIX ++ job_id) (job_record processing None None) ;;
     try_except (process_job_body env fuel job_id uid m p)
       (fun e => rds_set (JOB_KEY_PREFIX ++ job_id)
                   (job_record error None (Some (str_exn e)))))).
  apply writes_only_bind;
    [apply reads_only_writes_only, reads_only_getitem |]. intros m.
  apply writes_only_bind;
    [apply reads_only_writes_only, reads_only_getitem |]. intros p.
  apply writes_only_bind.
  { apply writes_only_rds_set, Hjob, record_ok_pending. auto. }
  intros _. apply writes_only_try_except.
  - unfold process_job_body. apply writes_only_bind;
      [apply reads_only_writes_only, reads_only_run_workflow |]. intros h.
    destruct (extract_first_image_from_history h) as [[[f s] t]|];
      [| apply reads_only_writes_only, reads_only_raise].
    apply writes_only_bind.
    + apply writes_only_rds_set. exists job_id, uid.
      split_and!; [done | done |]. right. eauto.
    + intros _. apply writes_only_rds_set, Hjob, record_ok_done.
  - intros e. apply writes_only_rds_set, Hjob, record_ok_error.
Qed.

Lemma writes_only_rds_brpop Q : writes_only Q rds_brpop.
Proof.
  intros w r w' Hrun. unfold rds_brpop in Hrun.
  destruct (next_fault w) as [[e|] w1] eqn:Hf;
    destruct (next_fault_frame _ _ _ Hf) as (_ & _ & _ & _ & Ht).
  - injection Hrun as <- <-. exists []. unfold writes. by rewrite Ht.
  - destruct (rev (queue w1)); injection Hrun as <- <-; exists [];
      unfold writes; simpl; by rewrite ?Ht.
Qed.

Lemma writes_only_worker_loop env fuel n :
  writes_only job_write_ok (worker_loop env fuel n).
Proof.
  induction n as [|n IH]; simpl.
  - intros w r w' [= <- <-]. exists []. by split.
  - apply writes_only_bind; [apply writes_only_rds_brpop |].
    intros [jd | s]; [| done].
    apply writes_only_bind; [| done].
    eapply writes_only_weaken; [| apply writes_only_process_job].
    apply worker_write_job_write_ok.
Qed.

Lemma writes_only_generate env req :
  writes_only job_write_ok (generate env req).
Proof.
  intros w r w' Hrun.
  destruct (decide (blank (prompt req))) as [Hb | Hb].
  { rewrite generate_blank in Hrun by done. injection Hrun as <- <-.
    exists []. by split. }
  destruct (generate_split _ _ _ _ _ Hb Hrun)
    as (r1 & w1 & Hm & [(e & -> & -> & ->) | (m & -> & Ht)]);
    destruct (generate_mode_frame _ _ _ _ _ Hm) as (_ & _ & _ & Hw & _).
  - exists []. by split.
  - destruct (generate_tail_cases env req m w1)
      as (r' & w'' & Hrun' & _ & _ & Hcases).
    rewrite Ht in Hrun'. injection Hrun' as <- <-.
    assert (Hok : job_write_ok (EvSet (JOB_KEY_PREFIX ++ uuid4 env (uuids w1))
                                      (VJob initial_record))).
    { intros k r' [= _ <-]. apply record_ok_pending. auto. }
    destruct Hcases as [(e & _ & _ & _ & _ & Hw') | [(e & _ & _ & _ & _ & Hw')
                                                    | (_ & _ & _ & Hw')]];
      rewrite Hw', Hw.
    + exists []. by split.
    + eexists [_]. split; [done |]. by constructor.
    + eexists [_; _]. split; [done |].
      apply Forall_cons; split; [intros k r' He; discriminate |].
      by apply Forall_cons.
Qed.

(** C1: every job record written by [generate], by [process_job] or in the
    course of [worker_loop] satisfies the invariant: the URL and the message
    are never both present, both are absent in the waiting and the
    processing record, and a terminal record has exactly one of them, the
    URL if done and the message if error. *)
Theorem job_records_written_are_consistent env :
  (forall req, writes_only job_write_ok (generate env req))
  /\ (forall fuel jd, writes_only job_write_ok (process_job env fuel jd))
  /\ (forall fuel n, writes_only job_write_ok (worker_loop env fuel n))
  /\ (forall r, record_ok r ->
        (status r = done -> is_Some (image_url r) /\ error_message r = None)
        /\ (status r = error -> image_url r = None /\ is_Some (error_message r))).
Proof.
  split_and!.
  - apply writes_only_generate.
  - intros fuel jd. eapply writes_only_weaken; [| apply writes_only_process_job].
    apply worker_write_job_write_ok.
  - apply writes_only_worker_loop.
  - intros r (Hboth & _ & Hd & He). split.
    + intros Hs. assert (Hu := proj2 Hd Hs). split; [done |].
      destruct (error_message r) eqn:E; [| done].
      destruct Hboth. eauto.
    + intros Hs. assert (Hm := proj2 He Hs). split; [| done].
      destruct (image_url r) eqn:E; [| done].
      destruct Hboth. eauto.
Qed.

(** ** The worker *)

Lemma entry_of_job_entry job_id u p m :
  entry_of (job_entry job_id u p m) job_id u m p.
Proof.
  destruct (job_entry_lookup job_id u p m) as (? & ? & ? & ?).
  by split_and!.
Qed.

Lemma getitem_Some jd k v w : jd !! k = Some v -> getitem jd k w = (Ret v, w).
Proof. unfold getitem. by intros ->. Qed.

Lemma process_job_entry env fuel jd job_id uid m p w :
  entry_of jd job_id uid m p ->
  process_job env fuel jd w =
  (rds_set (JOB_KEY_PREFIX ++ job_id) (job_record processing None None) ;;
   try_except (process_job_body env fuel job_id uid m p) (write_error job_id)) w.
Proof.
  intros (Hj & Hu & Hm & Hp). unfold process_job.
  unfold bind at 1. rewrite (getitem_Some _ _ _ _ Hj).
  unfold bind at 1. rewrite (getitem_Some _ _ _ _ Hu).
  unfold bind at 1. rewrite (getitem_Some _ _ _ _ Hm).
  unfold bind at 1. rewrite (getitem_Some _ _ _ _ Hp).
  done.
Qed.

(** [process_job] once the processing record is written and the workflow
    has run: what is left to do. *)
Lemma process_job_steps env fuel jd job_id uid m p w wp rw w1 :
  entry_of jd job_id uid m p ->
  rds_set (JOB_KEY_PREFIX ++ job_id) (job_record processing None None) w
  = (Ret tt, wp) ->
  run_workflow env fuel job_id uid m p wp = (rw, w1) ->
  process_job env fuel jd w =
  match rw with
  | Raise e => write_error job_id e w1
  | Ret h =>
      match extract_first_image_from_history h with
      | None => write_error job_id (RuntimeError no_image_msg) w1
      | Some (f, s, t) =>
          try_except (write_result job_id uid (build_image_url f s t))
                     (write_error job_id) w1
      end
  | Blocked => (Blocked, w1)
  | OutOfFuel => (OutOfFuel, w1)
  end.
Proof.
  intros He Hset Hrw. rewrite (process_job_entry _ _ _ _ _ _ _ _ He).
  unfold bind at 1. rewrite Hset.
  unfold try_except at 1, process_job_body, bind at 1. rewrite Hrw.
  destruct rw as [h | e | |]; try done.
  destruct (extract_first_image_from_history h) as [[[f s] t]|]; done.
Qed.

Lemma key_prefixes_differ a b : JOB_KEY_PREFIX ++ a <> LAST_IMAGE_PREFIX ++ b.
Proof. discriminate. Qed.

Lemma rds_set_Ret k v w w' :
  rds_set k v w = (Ret tt, w') ->
  store w' = <[k := v]> (store w) /\ queue w' = queue w
  /\ writes w' = EvSet k v :: writes w
  /\ (faults w = [] -> faults w' = []).
Proof.
  intros Hrun.
  destruct (rds_set_cases k v w) as [(e & w1 & Hf & H) | (w1 & Hf & H)];
    rewrite H in Hrun; [discriminate |].
  injection Hrun as <-.
  destruct (next_fault_frame _ _ _ Hf) as (Hs & Hq & _ & _ & Ht).
  unfold writes. simpl. rewrite Hs, Hq, Ht. split_and!; try done.
  intros Hn. by destruct (next_fault_quiet _ _ _ Hf Hn).
Qed.

Lemma rds_set_Raise k v w e w' :
  rds_set k v w = (Raise e, w') ->
  store w' = store w /\ queue w' = queue w /\ writes w' = writes w
  /\ faults w <> [].
Proof.
  intros Hrun.
  destruct (rds_set_cases k v w) as [(e' & w1 & Hf & H) | (w1 & Hf & H)];
    rewrite H in Hrun; [| discriminate].
  injection Hrun as <- <-.
  destruct (next_fault_frame _ _ _ Hf) as (Hs & Hq & _ & _ & Ht).
  unfold writes. rewrite Ht. split_and!; try done.
  intros Hn. by destruct (next_fault_quiet _ _ _ Hf Hn).
Qed.

Lemma rds_set_outcome k v w r w' :
  rds_set k v w = (r, w') -> r = Ret tt \/ exists e, r = Raise e.
Proof.
  intros Hrun.
  destruct (rds_set_cases k v w) as [(e' & w1 & Hf & H) | (w1 & Hf & H)];
    rewrite H in Hrun; injection Hrun as <- <-; eauto.
Qed.

(** The error record is written, or the store raised on that write. *)
Lemma write_error_cases job_id e w r w' :
  write_error job_id e w = (r, w') ->
  (r = Ret tt
   /\ store w' = <[JOB_KEY_PREFIX ++ job_id
                   := job_record error None (Some (str_exn e))]> (store w)
   /\ writes w' = EvSet (JOB_KEY_PREFIX ++ job_id)
                        (job_record error None (Some (str_exn e))) :: writes w)
  \/ (exists e', r = Raise e' /\ store w' = store w /\ writes w' = writes w
                 /\ faults w <> []).
Proof.
  unfold write_error. intros Hrun.
  destruct (rds_set_outcome _ _ _ _ _ Hrun) as [-> | (e' & ->)].
  - left. apply rds_set_Ret in Hrun as (Hs & _ & Hw & _). done.
  - right. exists e'. apply rds_set_Raise in Hrun as (Hs & _ & Hw & Hf). done.
Qed.

(** The end of a job whose result holds an image: the pointer write, the
    done record, and the error record if one of the two raised. *)
Lemma write_result_cases job_id uid url w1 r w' :
  try_except (write_result job_id uid url) (write_error job_id) w1 = (r, w') ->
  exists (ptr : bool) (final : option value),
    store w' = set_opt (JOB_KEY_PREFIX ++ job_id) final
                 (set_opt (LAST_IMAGE_PREFIX ++ uid)
                          (if ptr then Some (VStr url) else None) (store w1))
    /\ writes w' = ev_opt (JOB_KEY_PREFIX ++ job_id) final
                   ++ ev_opt (LAST_IMAGE_PREFIX ++ uid)
                             (if ptr then Some (VStr url) else None)
                   ++ writes w1
    /\ ((final = None /\ exists e, r = Raise e /\ faults w1 <> [])
        \/ (exists msg, final = Some (job_record error None (Some msg))
                        /\ r = Ret tt /\ faults w1 <> [])
        \/ (final = Some (job_record done (Some url) None)
            /\ ptr = true /\ r = Ret tt)).
Proof.
  unfold try_except, write_result, bind. intros Hrun.
  destruct (rds_set (LAST_IMAGE_PREFIX ++ uid) (VStr url) w1) as [r1 w2] eqn:E1.
  destruct (rds_set_outcome _ _ _ _ _ E1) as [-> | (e1 & ->)].
  - apply rds_set_Ret in E1 as (Hs1 & _ & Hw1 & Hq1).
    destruct (rds_set (JOB_KEY_PREFIX ++ job_id)
                (job_record done (Some url) None) w2) as [r2 w3] eqn:E2.
    destruct (rds_set_outcome _ _ _ _ _ E2) as [-> | (e2 & ->)].
    + injection Hrun as <- <-.
      apply rds_set_Ret in E2 as (Hs2 & _ & Hw2 & _).
      exists true, (Some (job_record done (Some url) None)). simpl.
      rewrite Hs2, Hw2, Hs1, Hw1. split_and!; try done. right. right. done.
    + apply rds_set_Raise in E2 as (Hs2 & _ & Hw2 & Hf2).
      assert (Hf1 : faults w1 <> []) by (intros Hn; by apply Hf2, Hq1).
      destruct (write_error_cases _ _ _ _ _ Hrun)
        as [(-> & Hs3 & Hw3) | (e3 & -> & Hs3 & Hw3 & _)].
      * exists true, (Some (job_record error None (Some (str_exn e2)))). simpl.
        rewrite Hs3, Hw3, Hs2, Hw2, Hs1, Hw1. split_and!; try done.
        right. left. eauto.
      * exists true, None. simpl.
        rewrite Hs3, Hw3, Hs2, Hw2, Hs1, Hw1. split_and!; try done.
        left. eauto.
  - apply rds_set_Raise in E1 as (Hs1 & _ & Hw1 & Hf1).
    destruct (write_error_cases _ _ _ _ _ Hrun)
      as [(-> & Hs3 & Hw3) | (e3 & -> & Hs3 & Hw3 & _)].
    + exists false, (Some (job_record error None (Some (str_exn e1)))). simpl.
      rewrite Hs3, Hw3, Hs1, Hw1. split_and!; try done. right. left. eauto.
    + exists false, None. simpl.
      rewrite Hs3, Hw3, Hs1, Hw1. split_and!; try done. left. eauto.
Qed.

Lemma lookup_set_opt_ne (k k' : pystr) (o : option value) (s : gmap pystr value) :
  k <> k' -> set_opt k o s !! k' = s !! k'.
Proof. intros Hk. destruct o; simpl; [by apply lookup_insert_ne | done]. Qed.

Lemma lookup_set_opt_eq (k : pystr) (o : option value) (s : gmap pystr value) :
  set_opt k o s !! k = match o with Some v => Some v | None => s !! k end.
Proof. destruct o; simpl; [by apply lookup_insert_eq | done]. Qed.

(** Store and writes of a job after its processing record and its
    workflow: the pointer is written only for a result with an image, with
    the URL built from it, and the done record only after the pointer. *)
Lemma process_job_outcomes env fuel jd job_id uid m p w wp rw w1 r w' :
  entry_of jd job_id uid m p ->
  rds_set (JOB_KEY_PREFIX ++ job_id) (job_record processing None None) w
  = (Ret tt, wp) ->
  run_workflow env fuel job_id uid m p wp = (rw, w1) ->
  process_job env fuel jd w = (r, w') ->
  exists (ptr : option pystr) (final : option value),
    store w' = set_opt (JOB_KEY_PREFIX ++ job_id) final
                 (set_opt (LAST_IMAGE_PREFIX ++ uid) (VStr <$> ptr)
                    (<[JOB_KEY_PREFIX ++ job_id
                       := job_record processing None None]> (store w)))
    /\ (forall url, ptr = Some url ->
          exists h f s t, rw = Ret h
            /\ extract_first_image_from_history h = Some (f, s, t)
            /\ url = build_image_url f s t)
    /\ ((final = None /\ r <> Ret tt)
        \/ (exists msg, final = Some (job_record error None (Some msg))
              /\ r = Ret tt
              /\ (forall e, rw = Raise e -> msg = str_exn e)
              /\ (forall h, rw = Ret h ->
                    extract_first_image_from_history h = None ->
                    msg = no_image_msg))
        \/ (exists url, final = Some (job_record done (Some url) None)
              /\ ptr = Some url /\ r = Ret tt))
    /\ (faults w1 = [] -> rw <> OutOfFuel -> rw <> Blocked -> r = Ret tt).
Proof.
  intros He Hset Hrw Hrun.
  rewrite (process_job_steps _ _ _ _ _ _ _ _ _ _ _ He Hset Hrw) in Hrun.
  apply rds_set_Ret in Hset as (Hsp & _ & Hwp & _).
  destruct (reads_only_run_workflow _ _ _ _ _ _ _ _ _ Hrw) as (Hs1 & _ & _ & Hw1).
  rewrite Hsp in Hs1.
  assert (Herr : forall e,
            write_error job_id e w1 = (r, w') ->
            exists final,
              store w' = set_opt (JOB_KEY_PREFIX ++ job_id) final (store w1)
              /\ ((final = None /\ r <> Ret tt)
                  \/ (final = Some (job_record error None (Some (str_exn e)))
                      /\ r = Ret tt))
              /\ (faults w1 = [] -> r = Ret tt)).
  { intros e H. destruct (write_error_cases _ _ _ _ _ H)
      as [(-> & Hs & _) | (e' & -> & Hs & _ & Hf)].
    - eexists (Some _). split_and!; [done | by right | done].
    - exists None. split_and!; [done | by left | done]. }
  destruct rw as [h | e | |].
  - destruct (extract_first_image_from_history h) as [[[f s] t]|] eqn:Hex.
    + destruct (write_result_cases _ _ _ _ _ _ Hrun)
        as (ptr & final & Hs & _ & Hcases).
      exists (if ptr then Some (build_image_url f s t) else None), final.
      split_and!.
      * rewrite Hs, Hs1. by destruct ptr.
      * intros url Hu. destruct ptr; [| done]. injection Hu as <-.
        exists h, f, s, t. done.
      * destruct Hcases as [(-> & e & -> & _) | [(msg & -> & -> & _) | (-> & -> & ->)]].
        -- left. done.
        -- right. left. exists msg. split_and!; try done.
           intros h' [= <-]. congruence.
        -- right. right. eauto.
      * intros Hf _ _.
        destruct Hcases as [(_ & e & _ & Hn) | [(msg & _ & _ & Hn) | (_ & _ & ->)]];
          done.
    + destruct (Herr _ Hrun) as (final & Hs & Hcases & Hq).
      exists None, final. simpl. split_and!; [by rewrite Hs, Hs1 | done | | auto].
      destruct Hcases as [? | (-> & ->)]; [by left |].
      right. left. eexists. split_and!; try done.
  - destruct (Herr _ Hrun) as (final & Hs & Hcases & Hq).
    exists None, final. simpl. split_and!; [by rewrite Hs, Hs1 | done | | auto].
    destruct Hcases as [? | (-> & ->)]; [by left |].
    right. left. eexists. split_and!; try done. by intros e' [= <-].
  - injection Hrun as <- <-. exists None, None. simpl.
    split_and!; [by rewrite Hs1 | done | by left | done].
  - injection Hrun as <- <-. exists None, None. simpl.
    split_and!; [by rewrite Hs1 | done | by left | done].
Qed.

(** C4, as the code has it: the worker writes only the record of the job
    and the pointer of its user.  The pointer is written only when the
    result of the run holds an image, with the URL built from it; a job
    whose workflow raises or whose result holds no image leaves the pointer
    as it was and ends, when the store takes its error record, in status
    error with the message of the failure; a done record is written only
    after the pointer, which then equals its URL, and a result with an
    image ends so when the store takes both writes. *)
Theorem pointer_written_after_image env fuel jd w r w' :
  process_job env fuel jd w = (r, w') ->
  (exists new, writes w' = new ++ writes w /\ Forall (worker_write jd) new)
  /\ forall job_id uid m p wp rw w1,
       entry_of jd job_id uid m p ->
       rds_set (JOB_KEY_PREFIX ++ job_id) (job_record processing None None) w
       = (Ret tt, wp) ->
       run_workflow env fuel job_id uid m p wp = (rw, w1) ->
       let jk := JOB_KEY_PREFIX ++ job_id in
       let lk := LAST_IMAGE_PREFIX ++ uid in
       (forall k, k <> jk -> k <> lk -> store w' !! k = store w !! k)
       /\ ((forall h, rw = Ret h -> extract_first_image_from_history h = None) ->
           store w' !! lk = store w !! lk
           /\ (r = Ret tt ->
               exists msg,
                 store w' !! jk = Some (job_record error None (Some msg)))
           /\ (faults w1 = [] -> rw <> OutOfFuel -> rw <> Blocked ->
               r = Ret tt
               /\ (forall e, rw = Raise e ->
                     store w' !! jk
                     = Some (job_record error None (Some (str_exn e))))
               /\ (forall h, rw = Ret h ->
                     store w' !! jk
                     = Some (job_record error None (Some no_image_msg)))))
       /\ (forall h f s t,
             rw = Ret h -> extract_first_image_from_history h = Some (f, s, t) ->
             let url := build_image_url f s t in
             (store w' !! lk = store w !! lk \/ store w' !! lk = Some (VStr url))
             /\ (forall u,
                   store w' !! jk = Some (job_record done (Some u) None) ->
                   u = url /\ store w' !! lk = Some (VStr url))
             /\ (faults w1 = [] ->
                 r = Ret tt
                 /\ store w' !! jk = Some (job_record done (Some url) None)
                 /\ store w' !! lk = Some (VStr url))).
Proof.
  intros Hrun. split; [by apply writes_only_process_job in Hrun |].
  intros job_id uid m p wp rw w1 He Hset Hrw jk lk.
  pose proof (key_prefixes_differ job_id uid) as Hk. fold jk lk in Hk.
  destruct (process_job_outcomes _ _ _ _ _ _ _ _ _ _ _ _ _ He Hset Hrw Hrun)
    as (ptr & final & Hs & Hptr & Hfinal & Hquiet).
  fold jk lk in Hs. split_and!.
  - intros k Hj Hl. rewrite Hs, !lookup_set_opt_ne by done.
    by rewrite lookup_insert_ne.
  - intros Hnone.
    assert (ptr = None) as ->.
    { destruct ptr as [url|]; [| done].
      destruct (Hptr url eq_refl) as (h & f & s & t & Hh & Hex & _).
      rewrite (Hnone h Hh) in Hex. discriminate. }
    split_and!.
    + rewrite Hs, lookup_set_opt_ne by done. simpl. by rewrite lookup_insert_ne.
    + intros ->. rewrite Hs, lookup_set_opt_eq.
      destruct Hfinal as [(_ & ?) | [(msg & -> & _) | (url & _ & ? & _)]];
        [done | eauto | done].
    + intros Hf Hfuel Hblocked.
      pose proof (Hquiet Hf Hfuel Hblocked) as ->. split; [done |].
      rewrite Hs, lookup_set_opt_eq.
      destruct Hfinal as [(_ & ?) | [(msg & -> & _ & Hraise & Hmsg)
                                    | (url & _ & ? & _)]]; [done | | done].
      split.
      * intros e He'. by rewrite (Hraise e He').
      * intros h Hh. by rewrite (Hmsg h Hh (Hnone h Hh)).
  - intros h f s t Hh Hex url.
    assert (Hurl : forall u, ptr = Some u -> u = url).
    { intros u Hu. destruct (Hptr u Hu) as (h' & f' & s' & t' & Hh' & Hex' & ->).
      rewrite Hh in Hh'. injection Hh' as <-. rewrite Hex in Hex'.
      by injection Hex' as <- <- <-. }
    assert (Hlk : store w' !! lk = match ptr with
                                   | Some u => Some (VStr u)
                                   | None => store w !! lk
                                   end).
    { rewrite Hs, lookup_set_opt_ne by done. destruct ptr; simpl.
      - by rewrite lookup_insert_eq.
      - by rewrite lookup_insert_ne. }
    split_and!.
    + rewrite Hlk. destruct ptr as [u|]; [| by left].
      right. by rewrite (Hurl u eq_refl).
    + intros u Hu. rewrite Hs, lookup_set_opt_eq in Hu.
      destruct Hfinal as [(-> & _) | [(msg & -> & _) | (u' & -> & -> & _)]].
      * rewrite lookup_set_opt_ne in Hu by done.
        rewrite lookup_insert_eq in Hu. discriminate.
      * discriminate.
      * injection Hu as <-. rewrite Hlk, (Hurl u' eq_refl). done.
    + intros Hf. subst rw.
      rewrite (process_job_steps _ _ _ _ _ _ _ _ _ _ _ He Hset Hrw), Hex in Hrun.
      rewrite (write_result_run _ _ _ _ Hf) in Hrun.
      injection Hrun as <- <-. fold url jk lk. cbn [store log with_store].
      split_and!; [done | apply lookup_insert_eq |].
      rewrite lookup_insert_ne by done. apply lookup_insert_eq.
Qed.

Lemma pointer_written_after_image_witness :
  let jk := JOB_KEY_PREFIX ++ lit "j1" in
  let wp := (rds_set jk (job_record processing None None) world0).2 in
  let run := run_workflow sample_env 5 (lit "j1") (lit "u1") NEW
               (lit "a cat on the moon") wp in
  let out := process_job sample_env 5 sample_entry world0 in
  out = (out.1, out.2)
  /\ store out.2 !! jk
     = Some (job_record done
               (Some (build_image_url (lit "out_00001_.png") [] (lit "output")))
               None)
  /\ store out.2 !! (LAST_IMAGE_PREFIX ++ lit "u1")
     = Some (VStr (build_image_url (lit "out_00001_.png") [] (lit "output"))).
Proof.
  intros jk wp run out.
  assert (He : entry_of sample_entry (lit "j1") (lit "u1") NEW
                 (lit "a cat on the moon")) by apply entry_of_job_entry.
  assert (Hset : rds_set jk (job_record processing None None) world0
                 = (Ret tt, wp)) by reflexivity.
  assert (Hrw : run = (Ret sample_history, run.2)) by reflexivity.
  assert (Hrun : out = (out.1, out.2)) by apply surjective_pairing.
  assert (Hdone : store out.2 !! jk
                  = Some (job_record done
                            (Some (build_image_url (lit "out_00001_.png") []
                                     (lit "output"))) None)) by reflexivity.
  split_and!; [exact Hrun | exact Hdone |].
  destruct (proj2 (pointer_written_after_image _ _ _ _ _ _ Hrun)
              _ _ _ _ _ _ _ He Hset Hrw) as (_ & _ & Hok).
  destruct (Hok sample_history (lit "out_00001_.png") [] (lit "output")
              eq_refl eq_refl) as (_ & Hptr & _).
  exact (proj2 (Hptr _ Hdone)).
Defined.

(** C4 fails as stated: the store raises on the write of the done record,
    after the pointer was written; the job ends in status error and the
    pointer of its user is no longer the one it was. *)
Lemma failed_job_with_new_pointer :
  let out := process_job sample_env 5 sample_entry flaky_store_world in
  let lk := LAST_IMAGE_PREFIX ++ lit "u1" in
  out.1 = Ret tt
  /\ store out.2 !! (JOB_KEY_PREFIX ++ lit "j1")
     = Some (job_record error None (Some (lit "ConnectionError")))
  /\ store flaky_store_world !! lk = Some (VStr (lit "http://old/image.png"))
  /\ store out.2 !! lk
     = Some (VStr (build_image_url (lit "out_00001_.png") [] (lit "output")))
  /\ store out.2 !! lk <> store flaky_store_world !! lk.
Proof. by vm_compute. Qed.

(** ** The image of a result *)

Lemma first_image_cons id node rest :
  (usable node /\ exists img imgs f,
      images node = Some (img :: imgs) /\ filename img = Some f /\ f <> []
      /\ first_image ((id, node) :: rest)
         = Some (f, default [] (subfolder img),
                    default (lit "output") (img_type img)))
  \/ (~ usable node /\ first_image ((id, node) :: rest) = first_image rest).
Proof.
  simpl. destruct (images node) as [[|img imgs]|] eqn:Hi.
  - right. split; [| done]. intros (? & ? & ? & ? & _). congruence.
  - destruct (filename img) as [f|] eqn:Hf.
    + destruct f as [|c f0]; simpl.
      * right. split; [| done]. intros (img' & ? & f' & H1 & H2 & H3).
        rewrite Hi in H1. injection H1 as <- <-. congruence.
      * left. split; [by exists img, imgs, (c :: f0) |].
        by exists img, imgs, (c :: f0).
    + right. split; [| done]. intros (img' & ? & f' & H1 & H2 & _).
      rewrite Hi in H1. injection H1 as <- <-. congruence.
  - right. split; [| done]. intros (? & ? & ? & ? & _). congruence.
Qed.

Lemma first_image_Some outs f s t :
  first_image outs = Some (f, s, t) ->
  exists pre id node img imgs post,
    outs = pre ++ (id, node) :: post
    /\ Forall (fun x => ~ usable x.2) pre
    /\ images node = Some (img :: imgs)
    /\ filename img = Some f /\ f <> []
    /\ s = default [] (subfolder img)
    /\ t = default (lit "output") (img_type img).
Proof.
  induction outs as [|[id node] rest IH]; [done |]. intros H.
  destruct (first_image_cons id node rest)
    as [(_ & img & imgs & f' & Hi & Hf & Hn & Hr) | (Hu & Hr)];
    rewrite Hr in H.
  - injection H as <- <- <-.
    exists [], id, node, img, imgs, rest. by split_and!.
  - destruct (IH H) as (pre & id' & node' & img & imgs & post & -> & Hpre & Hrest).
    exists ((id, node) :: pre), id', node', img, imgs, post.
    split_and!; try apply Hrest; [done |]. by constructor.
Qed.

Lemma first_image_None outs :
  first_image outs = None <-> Forall (fun x => ~ usable x.2) outs.
Proof.
  induction outs as [|[id node] rest IH]; [by split |].
  destruct (first_image_cons id node rest)
    as [(Hu & img & imgs & f' & _ & _ & _ & Hr) | (Hu & Hr)]; rewrite Hr.
  - split; [done |]. intros H. apply Forall_cons in H as [H _]. done.
  - rewrite IH. split; [by constructor |].
    intros H. by apply Forall_cons in H as [_ H].
Qed.

Lemma first_image_no_filename outs :
  (forall id node imgs img,
     In (id, node) outs -> images node = Some imgs -> In img imgs ->
     filename img = None \/ filename img = Some []) ->
  first_image outs = None.
Proof.
  intros H. apply first_image_None, Forall_forall. intros [id node] Hin.
  apply list_elem_of_In in Hin.
  intros (img & imgs & f & Hi & Hf & Hn).
  destruct (H id node _ img Hin Hi) as [H' | H']; [by left | |]; congruence.
Qed.

Lemma first_image_found pre id node img imgs post f :
  Forall (fun x => ~ usable x.2) pre ->
  images node = Some (img :: imgs) -> filename img = Some f -> f <> [] ->
  first_image (pre ++ (id, node) :: post)
  = Some (f, default [] (subfolder img), default (lit "output") (img_type img)).
Proof.
  intros Hpre Hi Hf Hn. induction pre as [| [id' node'] pre IH].
  - cbn [app]. destruct (first_image_cons id node post)
      as [(_ & img' & imgs' & f' & Hi' & Hf' & _ & ->) | (Hu & _)].
    + rewrite Hi in Hi'. injection Hi' as <- <-.
      rewrite Hf in Hf'. by injection Hf' as <-.
    + destruct Hu. by exists img, imgs, f.
  - apply Forall_cons in Hpre as [Hx Hpre]. cbn [app].
    destruct (first_image_cons id' node' (pre ++ (id, node) :: post))
      as [(Hu & _) | (_ & ->)]; [done | by apply IH].
Qed.

(** C9: the worker takes the image of the first entry of the output map
    whose image list is not empty and starts with an image that has a file
    name, and returns its file name, sub-folder and type: such an entry is
    always found when there is one, and none is returned exactly when no
    entry is so; a result in which no image has a file name yields none.
    A job whose result yields none leaves the pointer alone and ends, when
    the store takes its error record, in status error with the message of
    the missing output; a job whose result yields an image ends, when the
    store takes its writes, in status done with the URL of that image; and
    a record in status done always carries the URL of the extracted
    image. *)
Theorem no_image_fails_the_job env fuel jd job_id uid m p w wp h w1 r w' :
  entry_of jd job_id uid m p ->
  rds_set (JOB_KEY_PREFIX ++ job_id) (job_record processing None None) w
  = (Ret tt, wp) ->
  run_workflow env fuel job_id uid m p wp = (Ret h, w1) ->
  process_job env fuel jd w = (r, w') ->
  let jk := JOB_KEY_PREFIX ++ job_id in
  let outs := default [] (outputs h) in
  (forall f s t,
     extract_first_image_from_history h = Some (f, s, t) ->
     exists pre id node img imgs post,
       outs = pre ++ (id, node) :: post
       /\ Forall (fun x => ~ usable x.2) pre
       /\ images node = Some (img :: imgs)
       /\ filename img = Some f /\ f <> []
       /\ s = default [] (subfolder img)
       /\ t = default (lit "output") (img_type img))
  /\ ((forall id node imgs img,
         In (id, node) outs -> images node = Some imgs -> In img imgs ->
         filename img = None \/ filename img = Some []) ->
      extract_first_image_from_history h = None)
  /\ (extract_first_image_from_history h = None ->
      store w' !! (LAST_IMAGE_PREFIX ++ uid) = store w !! (LAST_IMAGE_PREFIX ++ uid)
      /\ (r = Ret tt ->
          store w' !! jk = Some (job_record error None (Some no_image_msg)))
      /\ (faults w1 = [] -> r = Ret tt)
      /\ forall url, store w' !! jk <> Some (job_record done url None))
  /\ (forall rec, store w' !! jk = Some (VJob rec) -> status rec = done ->
        exists f s t,
          extract_first_image_from_history h = Some (f, s, t)
          /\ f <> []
          /\ image_url rec = Some (build_image_url f s t))
  /\ (forall pre id node img imgs post f,
        outs = pre ++ (id, node) :: post ->
        Forall (fun x => ~ usable x.2) pre ->
        images node = Some (img :: imgs) -> filename img = Some f -> f <> [] ->
        extract_first_image_from_history h
        = Some (f, default [] (subfolder img),
                   default (lit "output") (img_type img)))
  /\ (extract_first_image_from_history h = None
      <-> Forall (fun x => ~ usable x.2) outs)
  /\ (forall f s t,
        extract_first_image_from_history h = Some (f, s, t) ->
        faults w1 = [] ->
        r = Ret tt
        /\ store w' !! jk
           = Some (job_record done (Some (build_image_url f s t)) None)).
Proof.
  intros He Hset Hrw Hrun jk outs.
  pose proof (key_prefixes_differ job_id uid) as Hk. fold jk in Hk.
  destruct (process_job_outcomes _ _ _ _ _ _ _ _ _ _ _ _ _ He Hset Hrw Hrun)
    as (ptr & final & Hs & Hptr & Hfinal & Hquiet).
  fold jk in Hs.
  assert (Hjk : store w' !! jk
                = Some (default (job_record processing None None) final)).
  { rewrite Hs, lookup_set_opt_eq. destruct final; [done |].
    rewrite lookup_set_opt_ne by done. by rewrite lookup_insert_eq. }
  split_and!.
  - intros f s t. apply first_image_Some.
  - apply first_image_no_filename.
  - intros Hnone.
    assert (ptr = None) as ->.
    { destruct ptr as [url|]; [| done].
      destruct (Hptr url eq_refl) as (h' & f & s & t & [= <-] & Hex & _).
      congruence. }
    split_and!.
    + rewrite Hs, lookup_set_opt_ne by done. simpl. by rewrite lookup_insert_ne.
    + intros ->. rewrite Hjk.
      destruct Hfinal as [(_ & ?) | [(msg & -> & _ & _ & Hmsg) | (url & _ & ? & _)]];
        [done | | done].
      simpl. by rewrite (Hmsg h eq_refl Hnone).
    + intros Hf. by apply Hquiet.
    + intros url. rewrite Hjk.
      destruct Hfinal as [(-> & _) | [(msg & -> & _) | (u & _ & ? & _)]];
        [done | done | done].
  - intros rec Hrec Hst. rewrite Hjk in Hrec.
    destruct Hfinal as [(-> & _) | [(msg & -> & _) | (u & -> & -> & _)]];
      simpl in Hrec; injection Hrec as <-; try discriminate.
    destruct (Hptr u eq_refl) as (h' & f & s & t & [= <-] & Hex & ->).
    exists f, s, t. split_and!; [done | | done].
    apply first_image_Some in Hex as (? & ? & ? & ? & ? & ? & _ & _ & _ & _ & Hn & _).
    done.
  - intros pre id node img imgs post f Houts Hpre Hi Hf Hn.
    unfold extract_first_image_from_history. fold outs. rewrite Houts.
    by apply (first_image_found pre id node img imgs post f).
  - apply first_image_None.
  - intros f s t Hex Hf.
    rewrite (process_job_steps _ _ _ _ _ _ _ _ _ _ _ He Hset Hrw), Hex in Hrun.
    rewrite (write_result_run _ _ _ _ Hf) in Hrun.
    injection Hrun as <- <-. split; [done |]. cbn [store log with_store].
    apply lookup_insert_eq.
Qed.

Lemma no_image_fails_the_job_witness :
  let jk := JOB_KEY_PREFIX ++ lit "j1" in
  let wp := (rds_set jk (job_record processing None None) world0).2 in
  let run := run_workflow no_image_env 5 (lit "j1") (lit "u1") NEW
               (lit "a cat on the moon") wp in
  let h := {| outputs := Some [(lit "9", {| images := Some [] |})] |} in
  let out := process_job no_image_env 5 sample_entry world0 in
  entry_of sample_entry (lit "j1") (lit "u1") NEW (lit "a cat on the moon")
  /\ rds_set jk (job_record processing None None) world0 = (Ret tt, wp)
  /\ run = (Ret h, run.2)
  /\ out = (out.1, out.2)
  /\ extract_first_image_from_history h = None
  /\ out.1 = Ret tt
  /\ store out.2 !! jk = Some (job_record error None (Some no_image_msg)).
Proof.
  intros jk wp run h out.
  assert (He : entry_of sample_entry (lit "j1") (lit "u1") NEW
                 (lit "a cat on the moon")) by apply entry_of_job_entry.
  assert (Hset : rds_set jk (job_record processing None None) world0
                 = (Ret tt, wp)) by reflexivity.
  assert (Hrw : run = (Ret h, run.2)) by reflexivity.
  assert (Hrun : out = (out.1, out.2)) by apply surjective_pairing.
  destruct (no_image_fails_the_job _ _ _ _ _ _ _ _ _ _ _ _ _
              He Hset Hrw Hrun) as (_ & Hnone & Hfail & _).
  assert (Hex : extract_first_image_from_history h = None).
  { apply Hnone. intros id node imgs img [[= <- <-] | []] [= <-] []. }
  destruct (Hfail Hex) as (_ & Hrec & Hret & _).
  assert (Hr : out.1 = Ret tt) by (apply Hret; reflexivity).
  split_and!;
    [exact He | exact Hset | exact Hrw | exact Hrun | exact Hex | exact Hr
     | exact (Hrec Hr)].
Defined.

(** ** The worker loop *)

(** C3 fails on the code: the store raises on the write of the processing
    record, which [process_job] makes before its [try]; the exception
    leaves [process_job] and [worker_loop], which has no handler around the
    call.  Job "j1" keeps its waiting record and gets no error record, and
    job "j2" stays in the queue, unserved. *)
Theorem worker_loop_dies_on_store_error :
  let out := worker_loop sample_env 5 5 broken_store_world in
  (process_job sample_env 5 sample_entry
     (rds_brpop broken_store_world).2).1
  = Raise (LibraryError (lit "ConnectionError"))
  /\ out.1 = Raise (LibraryError (lit "ConnectionError"))
  /\ store out.2 !! (JOB_KEY_PREFIX ++ lit "j1") = Some waiting_record
  /\ store out.2 !! (JOB_KEY_PREFIX ++ lit "j2") = Some waiting_record
  /\ queue out.2 = [QDict second_entry].
Proof. by vm_compute. Qed.

(** The same holds for an entry that lacks one of the four keys: the
    [KeyError] is raised before the [try]. *)
Lemma process_job_entry_without_mode :
  process_job sample_env 5 (delete (lit "mode") sample_entry) world0
  = (Raise (KeyError (lit "mode")), world0).
Proof. by vm_compute. Qed.

(** With a store that answers, the failure of a job inside the [try] is
    recorded and the loop goes on: both jobs of the queue end in status
    error when the engine's results hold no image, and the worker waits for
    the next entry. *)
Lemma worker_loop_goes_on_after_failure :
  let out := worker_loop no_image_env 5 5 two_jobs_world in
  out.1 = Blocked
  /\ queue out.2 = []
  /\ store out.2 !! (JOB_KEY_PREFIX ++ lit "j1")
     = Some (job_record error None (Some no_image_msg))
  /\ store out.2 !! (JOB_KEY_PREFIX ++ lit "j2")
     = Some (job_record error None (Some no_image_msg)).
Proof. by vm_compute. Qed.

(** A run of the worker on one job, in full: the processing record, the
    pointer, the done record. *)
Lemma process_job_sample_writes :
  writes (process_job sample_env 5 sample_entry world0).2
  = let url := build_image_url (lit "out_00001_.png") [] (lit "output") in
    [ EvSet (JOB_KEY_PREFIX ++ lit "j1") (job_record done (Some url) None);
      EvSet (LAST_IMAGE_PREFIX ++ lit "u1") (VStr url);
      EvSet (JOB_KEY_PREFIX ++ lit "j1") (job_record processing None None) ].
Proof. by vm_compute. Qed.

(** ** The result endpoint *)

Lemma generate_tail_faults env req m w1 :
  faults w1 = [] -> faults (generate_tail env req m w1).2 = [].
Proof.
  intros Hf.
  unfold generate_tail, bind, gen_job_id, rds_set, rds_lpush, rds_command,
    next_fault.
  simpl. rewrite Hf. simpl. by rewrite Hf.
Qed.

Lemma generate_faults env req w :
  faults w = [] -> faults (generate env req w).2 = [].
Proof.
  intros Hf. destruct (decide (blank (prompt req))) as [Hb | Hb].
  { by rewrite generate_blank. }
  rewrite generate_unfold by done. unfold bind.
  destruct (generate_mode env req w) as [r1 w1] eqn:Hm.
  destruct (generate_mode_frame _ _ _ _ _ Hm) as (_ & _ & _ & _ & Hq & _).
  specialize (Hq Hf).
  destruct r1; try done. by apply generate_tail_faults.
Qed.

Lemma reads_only_get_result decode job_id :
  reads_only (get_result decode job_id).
Proof.
  unfold get_result. apply reads_only_bind; [apply reads_only_rds_get |].
  intros data. destruct (value_falsy data); [apply reads_only_raise |].
  apply reads_only_bind; [| intros obj; apply reads_only_ret].
  destruct data as [[r | s] |];
    [apply reads_only_ret | apply reads_only_lift | apply reads_only_raise].
Qed.

(** What [get_result] answers when the store answers its read. *)
Lemma get_result_quiet decode job_id w :
  faults w = [] ->
  get_result decode job_id w =
  (match store w !! (JOB_KEY_PREFIX ++ job_id) with
   | Some (VJob r) =>
       Ret {| res_job_id := job_id; res_status := status r;
              res_image_url := image_url r;
              res_error_message := error_message r; res_extra := None |}
   | Some (VStr s) =>
       if is_empty s then Raise (HTTPException 404 not_found_detail)
       else match decode s with
            | inl e => Raise e
            | inr r =>
                Ret {| res_job_id := job_id; res_status := status r;
                       res_image_url := image_url r;
                       res_error_message := error_message r;
                       res_extra := None |}
            end
   | None => Raise (HTTPException 404 not_found_detail)
   end, log (EvGet (JOB_KEY_PREFIX ++ job_id)) w).
Proof.
  intros Hf. unfold get_result, bind, rds_get, rds_command.
  rewrite (next_fault_none w Hf).
  destruct (store w !! (JOB_KEY_PREFIX ++ job_id)) as [[r | s] |]; simpl;
    try done.
  destruct (is_empty s); [done |]. simpl. by destruct (decode s).
Qed.

(** X1: for a job id under which the store holds nothing, [get_result]
    never returns a result: it raises, the HTTP error 404 when the store
    answered the read, and it leaves store and queue as they were. *)
Theorem get_result_unknown_job decode job_id w r w' :
  store w !! (JOB_KEY_PREFIX ++ job_id) = None ->
  get_result decode job_id w = (r, w') ->
  (exists e, r = Raise e)
  /\ (faults w = [] -> r = Raise (HTTPException 404 not_found_detail))
  /\ store w' = store w /\ queue w' = queue w /\ writes w' = writes w.
Proof.
  intros Hnone Hrun.
  destruct (reads_only_get_result _ _ _ _ _ Hrun) as (Hs & Hq & _ & Hw).
  split_and!; try done.
  - unfold get_result, bind in Hrun.
    destruct (rds_get_cases (JOB_KEY_PREFIX ++ job_id) w)
      as [(e & w1 & Hf & H) | (w1 & Hf & H)]; rewrite H in Hrun.
    + injection Hrun as <- _. eauto.
    + rewrite Hnone in Hrun. simpl in Hrun. injection Hrun as <- _. eauto.
  - intros Hf. rewrite (get_result_quiet _ _ _ Hf), Hnone in Hrun.
    by injection Hrun as <- _.
Qed.

Lemma get_result_unknown_job_witness :
  store world0 !! (JOB_KEY_PREFIX ++ lit "nobody") = None
  /\ get_result (fun _ => inl (LibraryError [])) (lit "nobody") world0
     = ((get_result (fun _ => inl (LibraryError [])) (lit "nobody") world0).1,
        (get_result (fun _ => inl (LibraryError [])) (lit "nobody") world0).2)
  /\ (get_result (fun _ => inl (LibraryError [])) (lit "nobody") world0).1
     = Raise (HTTPException 404 not_found_detail).
Proof.
  assert (Hrun : get_result (fun _ => inl (LibraryError [])) (lit "nobody") world0
     = ((get_result (fun _ => inl (LibraryError [])) (lit "nobody") world0).1,
        (get_result (fun _ => inl (LibraryError [])) (lit "nobody") world0).2))
    by apply surjective_pairing.
  split_and!; [reflexivity | exact Hrun |].
  assert (Hnone : store world0 !! (JOB_KEY_PREFIX ++ lit "nobody") = None)
    by reflexivity.
  exact (proj1 (proj2 (get_result_unknown_job _ _ _ _ _ Hnone Hrun)) eq_refl).
Defined.

(** X2: the job id [generate] returns can be looked up at once: whenever
    [generate] has answered with a job id and the store answers the read,
    [get_result] answers with that id, status waiting and neither URL nor
    message. *)
Theorem generate_then_get_result env decode req w resp w1 :
  generate env req w = (Ret resp, w1) ->
  faults w1 = [] ->
  exists w2,
    get_result decode (resp_job_id resp) w1
    = (Ret {| res_job_id := resp_job_id resp; res_status := waiting;
              res_image_url := None; res_error_message := None;
              res_extra := None |}, w2).
Proof.
  intros Hrun Hf1.
  destruct (generate_effects _ _ _ _ _ Hrun)
    as ([(_ & e & ?) | (m & [= ->] & _ & Hs & _)] & _); [discriminate |].
  eexists. rewrite (get_result_quiet _ _ _ Hf1). simpl.
  by rewrite Hs, lookup_insert_eq.
Qed.

Lemma generate_then_get_result_witness :
  let out := generate sample_env hat_request world0 in
  let resp := {| resp_job_id := lit "job-0"; resp_status := waiting |} in
  out = (Ret resp, out.2) /\ faults out.2 = []
  /\ exists w2,
       get_result (fun _ => inl (LibraryError [])) (lit "job-0") out.2
       = (Ret {| res_job_id := lit "job-0"; res_status := waiting;
                 res_image_url := None; res_error_message := None;
                 res_extra := None |}, w2).
Proof.
  intros out resp.
  assert (Hrun : out = (Ret resp, out.2)) by (vm_compute; reflexivity).
  assert (Hf : faults out.2 = []) by (vm_compute; reflexivity).
  split_and!; [exact Hrun | exact Hf |].
  exact (generate_then_get_result sample_env _ hat_request world0 resp out.2
           Hrun Hf).
Defined.

Lemma process_job_first_write env fuel jd job_id uid m p w r w' :
  entry_of jd job_id uid m p ->
  process_job env fuel jd w = (r, w') ->
  (exists e, r = Raise e /\ store w' = store w /\ writes w' = writes w
             /\ faults w <> [])
  \/ exists wp rw w1,
       rds_set (JOB_KEY_PREFIX ++ job_id) (job_record processing None None) w
       = (Ret tt, wp)
       /\ run_workflow env fuel job_id uid m p wp = (rw, w1).
Proof.
  intros He Hrun. rewrite (process_job_entry _ _ _ _ _ _ _ _ He) in Hrun.
  unfold bind at 1 in Hrun.
  destruct (rds_set (JOB_KEY_PREFIX ++ job_id)
              (job_record processing None None) w) as [r0 wp] eqn:Hset.
  destruct (rds_set_outcome _ _ _ _ _ Hset) as [-> | (e & ->)].
  - right. destruct (run_workflow env fuel job_id uid m p wp) as [rw w1] eqn:Hrw.
    eauto.
  - left. injection Hrun as <- <-.
    apply rds_set_Raise in Hset as (? & _ & ? & ?). eauto.
Qed.

(** X3: once [process_job] has returned, the job is in a terminal status:
    [get_result] answers done with a URL, which is then also the pointer of
    the user, or error with a message, never waiting or processing. *)
Theorem process_job_then_get_result env decode fuel jd job_id uid m p w w' :
  entry_of jd job_id uid m p ->
  process_job env fuel jd w = (Ret tt, w') ->
  faults w' = [] ->
  exists res w'',
    get_result decode job_id w' = (Ret res, w'')
    /\ res_job_id res = job_id
    /\ ((res_status res = done /\ res_error_message res = None
         /\ exists url, res_image_url res = Some url
              /\ store w' !! (LAST_IMAGE_PREFIX ++ uid) = Some (VStr url))
        \/ (res_status res = error /\ res_image_url res = None
            /\ exists msg, res_error_message res = Some msg)).
Proof.
  intros He Hrun Hf.
  pose proof (key_prefixes_differ job_id uid) as Hk.
  destruct (process_job_first_write _ _ _ _ _ _ _ _ _ _ He Hrun)
    as [(e & ? & _) | (wp & rw & w1 & Hset & Hrw)]; [discriminate |].
  destruct (process_job_outcomes _ _ _ _ _ _ _ _ _ _ _ _ _ He Hset Hrw Hrun)
    as (ptr & final & Hs & _ & Hfinal & _).
  rewrite (get_result_quiet _ _ _ Hf), Hs, lookup_set_opt_eq.
  destruct Hfinal as [(_ & ?) | [(msg & -> & _) | (url & -> & -> & _)]];
    [done | |]; simpl; do 2 eexists; (split; [done |]); simpl;
    (split; [done |]).
  - right. eauto.
  - left. split_and!; try done. exists url. split; [done |].
    rewrite lookup_insert_ne by done. simpl. by rewrite lookup_insert_eq.
Qed.

Lemma process_job_then_get_result_witness :
  let out := process_job sample_env 5 sample_entry world0 in
  entry_of sample_entry (lit "j1") (lit "u1") NEW (lit "a cat on the moon")
  /\ out = (Ret tt, out.2) /\ faults out.2 = []
  /\ exists res w'',
       get_result (fun _ => inl (LibraryError [])) (lit "j1") out.2
       = (Ret res, w'')
       /\ res_job_id res = lit "j1"
       /\ ((res_status res = done /\ res_error_message res = None
            /\ exists url, res_image_url res = Some url
                 /\ store out.2 !! (LAST_IMAGE_PREFIX ++ lit "u1")
                    = Some (VStr url))
           \/ (res_status res = error /\ res_image_url res = None
               /\ exists msg, res_error_message res = Some msg)).
Proof.
  intros out.
  assert (He : entry_of sample_entry (lit "j1") (lit "u1") NEW
                 (lit "a cat on the moon")) by apply entry_of_job_entry.
  assert (Hrun : out = (Ret tt, out.2)) by (vm_compute; reflexivity).
  assert (Hf : faults out.2 = []) by (vm_compute; reflexivity).
  split_and!; [exact He | exact Hrun | exact Hf |].
  exact (process_job_then_get_result sample_env _ 5 sample_entry _ _ _ _
           world0 out.2 He Hrun Hf).
Defined.

(** X4: the successful end of a job.  With the processing record written,
    a result that holds an image and a store that answers, [process_job]
    returns after exactly two more writes, the pointer and then the done
    record, both with the URL built from the first image. *)
Theorem process_job_success env fuel jd job_id uid m p w wp h w1 f s t :
  entry_of jd job_id uid m p ->
  rds_set (JOB_KEY_PREFIX ++ job_id) (job_record processing None None) w
  = (Ret tt, wp) ->
  run_workflow env fuel job_id uid m p wp = (Ret h, w1) ->
  extract_first_image_from_history h = Some (f, s, t) ->
  faults w1 = [] ->
  let url := build_image_url f s t in
  exists w',
    process_job env fuel jd w = (Ret tt, w')
    /\ store w' !! (JOB_KEY_PREFIX ++ job_id)
       = Some (job_record done (Some url) None)
    /\ store w' !! (LAST_IMAGE_PREFIX ++ uid) = Some (VStr url)
    /\ writes w'
       = [ EvSet (JOB_KEY_PREFIX ++ job_id) (job_record done (Some url) None);
           EvSet (LAST_IMAGE_PREFIX ++ uid) (VStr url);
           EvSet (JOB_KEY_PREFIX ++ job_id) (job_record processing None None) ]
         ++ writes w
    /\ faults w' = [].
Proof.
  intros He Hset Hrw Hex Hf url.
  pose proof (key_prefixes_differ job_id uid) as Hk.
  rewrite (process_job_steps _ _ _ _ _ _ _ _ _ _ _ He Hset Hrw), Hex.
  apply rds_set_Ret in Hset as (_ & _ & Hwp & _).
  destruct (reads_only_run_workflow _ _ _ _ _ _ _ _ _ Hrw) as (_ & _ & _ & Hw1).
  unfold try_except, write_result, bind, rds_set, rds_command, next_fault.
  rewrite Hf. simpl. rewrite Hf. eexists. split; [done |]. simpl.
  split_and!.
  - by rewrite lookup_insert_eq.
  - rewrite lookup_insert_ne by done. by rewrite lookup_insert_eq.
  - unfold writes in *. simpl. fold url. by rewrite Hw1, Hwp.
  - done.
Qed.

Lemma process_job_success_witness :
  let jk := JOB_KEY_PREFIX ++ lit "j1" in
  let wp := (rds_set jk (job_record processing None None) world0).2 in
  let run := run_workflow sample_env 5 (lit "j1") (lit "u1") NEW
               (lit "a cat on the moon") wp in
  entry_of sample_entry (lit "j1") (lit "u1") NEW (lit "a cat on the moon")
  /\ rds_set jk (job_record processing None None) world0 = (Ret tt, wp)
  /\ run = (Ret sample_history, run.2)
  /\ extract_first_image_from_history sample_history
     = Some (lit "out_00001_.png", [], lit "output")
  /\ faults run.2 = []
  /\ exists w',
       process_job sample_env 5 sample_entry world0 = (Ret tt, w')
       /\ store w' !! (LAST_IMAGE_PREFIX ++ lit "u1")
          = Some (VStr (build_image_url (lit "out_00001_.png") [] (lit "output"))).
Proof.
  intros jk wp run.
  assert (He : entry_of sample_entry (lit "j1") (lit "u1") NEW
                 (lit "a cat on the moon")) by apply entry_of_job_entry.
  assert (Hset : rds_set jk (job_record processing None None) world0
                 = (Ret tt, wp)) by (vm_compute; reflexivity).
  assert (Hrw : run = (Ret sample_history, run.2)) by (vm_compute; reflexivity).
  assert (Hex : extract_first_image_from_history sample_history
                = Some (lit "out_00001_.png", [], lit "output")) by reflexivity.
  assert (Hf : faults run.2 = []) by (vm_compute; reflexivity).
  split_and!; [exact He | exact Hset | exact Hrw | exact Hex | exact Hf |].
  destruct (process_job_success _ _ _ _ _ _ _ _ _ _ _ _ _ _
              He Hset Hrw Hex Hf) as (w' & Hrun & _ & Hptr & _).
  exists w'. split; [exact Hrun | exact Hptr].
Defined.

(** ** The worker: the paths of a job *)

Lemma pystr_eqb_refl a : pystr_eqb a a = true.
Proof. by apply pystr_eqb_eq. Qed.

Lemma pystr_eqb_ne a b : a <> b -> pystr_eqb a b = false.
Proof. intros H. unfold pystr_eqb. by apply bool_decide_eq_false_2. Qed.

(** The workflow of a NEW job and its submission. *)
Lemma run_workflow_NEW env fuel job_id uid p w :
  run_workflow env fuel job_id uid NEW p w =
  match build_gen_workflow env p job_id with
  | inl e => (Raise e, log EvBuildWorkflow w)
  | inr wf =>
      let w1 := log (EvSaveDebug (debug_name NEW job_id)) (log EvBuildWorkflow w) in
      match save_debug_workflow env wf (debug_name NEW job_id) with
      | inl e => (Raise e, w1)
      | inr _ =>
          (pid <- send_workflow_to_comfy env wf job_id ;;
           wait_for_result env fuel pid 1) w1
      end
  end.
Proof.
  unfold run_workflow, make_workflow. rewrite pystr_eqb_refl.
  destruct (build_gen_workflow env p job_id) as [e | wf0];
    [lazy beta iota zeta delta [bind emit lift raise ret]; reflexivity |].
  destruct (save_debug_workflow env wf0 (debug_name NEW job_id)) as [e | u] eqn:Hs;
    unfold debug_name in Hs;
    lazy beta iota zeta delta [bind emit lift raise ret]; rewrite Hs;
    reflexivity.
Qed.

Lemma send_workflow_accepted env wf cid pid w :
  engine_accepts env wf cid pid ->
  send_workflow_to_comfy env wf cid w = (Ret pid, log (EvComfyPost cid) w).
Proof.
  intros (st & ack & Hpost & Hst & Hpid & Hne).
  unfold send_workflow_to_comfy, bind, emit. rewrite Hpost, Hst, Hpid. simpl.
  by destruct pid.
Qed.

Lemma send_workflow_rejected env wf cid ack w :
  engine_rejects env wf cid ack ->
  send_workflow_to_comfy env wf cid w
  = (Raise (RuntimeError (no_prompt_id_msg ++ ack_text ack)),
     log (EvComfyPost cid) w).
Proof.
  intros (st & Hpost & Hst & Hpid).
  unfold send_workflow_to_comfy, bind, emit. rewrite Hpost, Hst. simpl.
  by destruct Hpid as [-> | ->].
Qed.

(** X5: a job whose run never appears in the engine's history is never
    finished: however many polls are allowed, [process_job] is still
    polling, the record of the job stays in status processing and no other
    key of the store has changed. *)
Theorem process_job_stuck_at_processing env jd job_id uid p w wf pid :
  entry_of jd job_id uid NEW p ->
  faults w = [] ->
  build_gen_workflow env p job_id = inr wf ->
  save_debug_workflow env wf (debug_name NEW job_id) = inr tt ->
  engine_accepts env wf job_id pid ->
  (forall n, not_ready env pid n) ->
  forall fuel, exists w',
    process_job env fuel jd w = (OutOfFuel, w')
    /\ store w' !! (JOB_KEY_PREFIX ++ job_id)
       = Some (job_record processing None None)
    /\ forall k, k <> JOB_KEY_PREFIX ++ job_id -> store w' !! k = store w !! k.
Proof.
  intros He Hf Hbuild Hsave Hacc Hnot fuel.
  pose proof (rds_set_run (JOB_KEY_PREFIX ++ job_id)
                (job_record processing None None) w Hf) as Hset.
  set (wp := log _ (with_store _ w)) in Hset.
  destruct (run_workflow env fuel job_id uid NEW p wp) as [rw w1] eqn:Hrw.
  assert (rw = OutOfFuel) as ->.
  { rewrite run_workflow_NEW, Hbuild, Hsave in Hrw. cbv zeta in Hrw.
    unfold bind in Hrw. rewrite (send_workflow_accepted _ _ _ _ _ Hacc) in Hrw.
    pose proof (wait_for_result_forever env pid 1 Hnot fuel
      (log (EvComfyPost job_id)
         (log (EvSaveDebug (debug_name NEW job_id)) (log EvBuildWorkflow wp))))
      as H.
    rewrite Hrw in H. exact H. }
  exists w1. rewrite (process_job_steps _ _ _ _ _ _ _ _ _ _ _ He Hset Hrw).
  destruct (reads_only_run_workflow _ _ _ _ _ _ _ _ _ Hrw) as (Hs & _).
  split_and!; [done | |].
  - rewrite Hs. simpl. by rewrite lookup_insert_eq.
  - intros k Hk. rewrite Hs. simpl. by rewrite lookup_insert_ne.
Qed.

Lemma process_job_stuck_at_processing_witness :
  entry_of sample_entry (lit "j1") (lit "u1") NEW (lit "a cat on the moon")
  /\ faults world0 = []
  /\ (forall n, not_ready pending_env (lit "run-1") n)
  /\ forall fuel, exists w',
       process_job pending_env fuel sample_entry world0 = (OutOfFuel, w')
       /\ store w' !! (JOB_KEY_PREFIX ++ lit "j1")
          = Some (job_record processing None None)
       /\ forall k, k <> JOB_KEY_PREFIX ++ lit "j1" ->
            store w' !! k = store world0 !! k.
Proof.
  assert (He : entry_of sample_entry (lit "j1") (lit "u1") NEW
                 (lit "a cat on the moon")) by apply entry_of_job_entry.
  assert (Hacc : engine_accepts pending_env (JObj []) (lit "j1") (lit "run-1")).
  { eexists _, _. split_and!; [reflexivity | reflexivity | reflexivity | done]. }
  split_and!; [exact He | reflexivity | apply pending_env_not_ready |].
  exact (process_job_stuck_at_processing pending_env sample_entry _ _ _ world0
           (JObj []) (lit "run-1") He eq_refl eq_refl eq_refl Hacc
           (pending_env_not_ready (lit "run-1"))).
Defined.

(** X6: when the engine acknowledges a workflow without a run id, the job
    ends in status error with the message that names the acknowledgement;
    the history is never polled and nothing but the record of the job is
    written. *)
Theorem process_job_engine_rejects env fuel jd job_id uid p w wf ack :
  entry_of jd job_id uid NEW p ->
  faults w = [] ->
  build_gen_workflow env p job_id = inr wf ->
  save_debug_workflow env wf (debug_name NEW job_id) = inr tt ->
  engine_rejects env wf job_id ack ->
  exists w',
    process_job env fuel jd w = (Ret tt, w')
    /\ store w' !! (JOB_KEY_PREFIX ++ job_id)
       = Some (job_record error None (Some (no_prompt_id_msg ++ ack_text ack)))
    /\ (forall k, k <> JOB_KEY_PREFIX ++ job_id -> store w' !! k = store w !! k)
    /\ polls w' = polls w.
Proof.
  intros He Hf Hbuild Hsave Hrej.
  pose proof (rds_set_run (JOB_KEY_PREFIX ++ job_id)
                (job_record processing None None) w Hf) as Hset.
  set (wp := log _ (with_store _ w)) in Hset.
  assert (Hrw : run_workflow env fuel job_id uid NEW p wp
                = (Raise (RuntimeError (no_prompt_id_msg ++ ack_text ack)),
                   log (EvComfyPost job_id)
                     (log (EvSaveDebug (debug_name NEW job_id))
                        (log EvBuildWorkflow wp)))).
  { rewrite run_workflow_NEW, Hbuild, Hsave. cbv zeta. unfold bind.
    by rewrite (send_workflow_rejected _ _ _ _ _ Hrej). }
  rewrite (process_job_steps _ _ _ _ _ _ _ _ _ _ _ He Hset Hrw).
  unfold write_error. rewrite rds_set_run by done.
  eexists. split; [done |]. simpl. split_and!.
  - by rewrite lookup_insert_eq.
  - intros k Hk. by rewrite !lookup_insert_ne.
  - done.
Qed.

Lemma process_job_engine_rejects_witness :
  entry_of sample_entry (lit "j1") (lit "u1") NEW (lit "a cat on the moon")
  /\ faults world0 = []
  /\ exists w',
       process_job rejecting_env 5 sample_entry world0 = (Ret tt, w')
       /\ store w' !! (JOB_KEY_PREFIX ++ lit "j1")
          = Some (job_record error None
                    (Some (no_prompt_id_msg ++ lit "{'node_errors': {}}")))
       /\ (forall k, k <> JOB_KEY_PREFIX ++ lit "j1" ->
             store w' !! k = store world0 !! k)
       /\ polls w' = polls world0.
Proof.
  assert (He : entry_of sample_entry (lit "j1") (lit "u1") NEW
                 (lit "a cat on the moon")) by apply entry_of_job_entry.
  assert (Hrej : engine_rejects rejecting_env (JObj []) (lit "j1")
                   {| ack_prompt_id := None; ack_text := lit "{'node_errors': {}}" |}).
  { eexists. split_and!; [reflexivity | reflexivity | by left]. }
  split_and!; [exact He | reflexivity |].
  exact (process_job_engine_rejects rejecting_env 5 sample_entry _ _ _ world0
           (JObj []) _ He eq_refl eq_refl eq_refl Hrej).
Defined.

Lemma build_image_url_nonempty f s t : build_image_url f s t <> [].
Proof.
  unfold build_image_url. cbv zeta.
  destruct (rstrip_with (N.eqb 47) COMFYUI_URL); discriminate.
Qed.

(** The workflow of a job whose mode is not "NEW", with a store that
    answers the read of the pointer. *)
Lemma make_workflow_not_NEW env job_id uid m p w :
  m <> NEW -> faults w = [] ->
  let lk := LAST_IMAGE_PREFIX ++ uid in
  let w1 := log (EvGet lk) w in
  make_workflow env job_id uid m p w =
  match store w !! lk with
  | Some v =>
      if value_falsy (Some v) then make_workflow env job_id uid NEW p w1
      else
        (staged_workflow env job_id p (stored_text env v),
         match copy_image_for_edit env (stored_text env v) with
         | inl _ => log (EvStageImage (stored_text env v)) w1
         | inr _ =>
             log EvBuildWorkflow (log (EvStageImage (stored_text env v)) w1)
         end)
  | None => make_workflow env job_id uid NEW p w1
  end.
Proof.
  intros Hm Hf lk w1. unfold make_workflow at 1.
  rewrite (pystr_eqb_ne _ _ Hm).
  rewrite (bind_Ret _ _ _ _ _ (rds_get_run lk w Hf)). fold w1.
  unfold make_workflow. rewrite pystr_eqb_refl.
  destruct (store w !! lk) as [v|]; [| done].
  destruct (value_falsy (Some v)); [done |].
  unfold staged_workflow, try_except.
  lazy beta iota zeta delta [bind emit lift raise ret].
  destruct (copy_image_for_edit env (stored_text env v)) as [e | fname]; [done |].
  lazy beta iota zeta delta [bind emit lift raise ret].
  destruct (build_edit_workflow env p fname job_id); done.
Qed.

(** X7: how a job whose mode is not "NEW" gets its workflow.  Without a
    pointer of the user (or with an empty one) it is built exactly as for a
    NEW job; with a pointer, the image at the stored URL is staged and the
    edit workflow built on the staged file, and a failure of either step is
    raised as one RuntimeError that names the cause.  The store is only
    read. *)
Theorem make_workflow_edit_source env job_id uid m p w :
  m <> NEW -> faults w = [] ->
  let lk := LAST_IMAGE_PREFIX ++ uid in
  (value_falsy (store w !! lk) = true ->
   make_workflow env job_id uid m p w
   = make_workflow env job_id uid NEW p (log (EvGet lk) w))
  /\ (forall url, store w !! lk = Some (VStr url) -> url <> [] ->
      exists w',
        make_workflow env job_id uid m p w = (staged_workflow env job_id p url, w')
        /\ In (EvStageImage url) (trace w')
        /\ store w' = store w /\ queue w' = queue w).
Proof.
  intros Hm Hf lk.
  pose proof (make_workflow_not_NEW env job_id uid m p w Hm Hf) as Hrun.
  cbv zeta in Hrun. fold lk in Hrun. split.
  - intros Hv. rewrite Hrun. destruct (store w !! lk) as [v|]; [| done].
    by rewrite Hv.
  - intros url Hurl Hne. rewrite Hrun, Hurl.
    assert (value_falsy (Some (VStr url)) = false) as -> by (by destruct url).
    simpl stored_text. eexists. split; [done |].
    destruct (copy_image_for_edit env url); simpl; auto.
Qed.

Lemma make_workflow_edit_source_witness :
  EDIT <> NEW /\ faults pointer_world = []
  /\ exists w',
       make_workflow sample_env (lit "j3") (lit "u1") EDIT (lit "remove the hat")
         pointer_world
       = (staged_workflow sample_env (lit "j3") (lit "remove the hat")
            (lit "http://old/image.png"), w')
       /\ In (EvStageImage (lit "http://old/image.png")) (trace w')
       /\ store w' = store pointer_world /\ queue w' = queue pointer_world.
Proof.
  assert (Hm : EDIT <> NEW) by discriminate.
  assert (Hne : lit "http://old/image.png" <> []) by discriminate.
  split_and!; [exact Hm | reflexivity |].
  exact (proj2 (make_workflow_edit_source sample_env (lit "j3") (lit "u1") EDIT
                  (lit "remove the hat") pointer_world Hm eq_refl)
           (lit "http://old/image.png") eq_refl Hne).
Defined.

(** X8: an edit follows the image of the job that just succeeded.  After a
    job of a user has ended as in [process_job_success], the next job of
    that user whose mode is not "NEW" stages the very URL the finished job
    recorded. *)
Theorem edit_after_success env fuel jd job_id uid m p w wp h w1 f s t
    job_id2 m2 p2 :
  entry_of jd job_id uid m p ->
  rds_set (JOB_KEY_PREFIX ++ job_id) (job_record processing None None) w
  = (Ret tt, wp) ->
  run_workflow env fuel job_id uid m p wp = (Ret h, w1) ->
  extract_first_image_from_history h = Some (f, s, t) ->
  faults w1 = [] ->
  m2 <> NEW ->
  exists w' w2,
    process_job env fuel jd w = (Ret tt, w')
    /\ make_workflow env job_id2 uid m2 p2 w'
       = (staged_workflow env job_id2 p2 (build_image_url f s t), w2)
    /\ In (EvStageImage (build_image_url f s t)) (trace w2).
Proof.
  intros He Hset Hrw Hex Hf Hm2.
  pose proof (key_prefixes_differ job_id uid) as Hk.
  rewrite (process_job_steps _ _ _ _ _ _ _ _ _ _ _ He Hset Hrw), Hex.
  rewrite (write_result_run _ _ _ _ Hf).
  set (w' := log _ _).
  assert (Hf' : faults w' = []) by exact Hf.
  assert (Hptr : store w' !! (LAST_IMAGE_PREFIX ++ uid)
                 = Some (VStr (build_image_url f s t))).
  { subst w'. simpl. rewrite lookup_insert_ne by done.
    by rewrite lookup_insert_eq. }
  pose proof (make_workflow_not_NEW env job_id2 uid m2 p2 w' Hm2 Hf') as Hmk.
  cbv zeta in Hmk. rewrite Hptr in Hmk.
  assert (value_falsy (Some (VStr (build_image_url f s t))) = false) as Hv.
  { pose proof (build_image_url_nonempty f s t).
    simpl. by destruct (build_image_url f s t). }
  rewrite Hv in Hmk. simpl stored_text in Hmk.
  do 2 eexists. split_and!; [done | exact Hmk |].
  destruct (copy_image_for_edit env (build_image_url f s t)); simpl; auto.
Qed.

Lemma edit_after_success_witness :
  let jk := JOB_KEY_PREFIX ++ lit "j1" in
  let wp := (rds_set jk (job_record processing None None) world0).2 in
  let run := run_workflow sample_env 5 (lit "j1") (lit "u1") NEW
               (lit "a cat on the moon") wp in
  let url := build_image_url (lit "out_00001_.png") [] (lit "output") in
  entry_of sample_entry (lit "j1") (lit "u1") NEW (lit "a cat on the moon")
  /\ rds_set jk (job_record processing None None) world0 = (Ret tt, wp)
  /\ run = (Ret sample_history, run.2)
  /\ faults run.2 = [] /\ EDIT <> NEW
  /\ exists w' w2,
       process_job sample_env 5 sample_entry world0 = (Ret tt, w')
       /\ make_workflow sample_env (lit "j3") (lit "u1") EDIT
            (lit "remove the hat") w'
          = (staged_workflow sample_env (lit "j3") (lit "remove the hat") url, w2)
       /\ In (EvStageImage url) (trace w2).
Proof.
  intros jk wp run url.
  assert (He : entry_of sample_entry (lit "j1") (lit "u1") NEW
                 (lit "a cat on the moon")) by apply entry_of_job_entry.
  assert (Hset : rds_set jk (job_record processing None None) world0
                 = (Ret tt, wp)) by (vm_compute; reflexivity).
  assert (Hrw : run = (Ret sample_history, run.2)) by (vm_compute; reflexivity).
  assert (Hex : extract_first_image_from_history sample_history
                = Some (lit "out_00001_.png", [], lit "output")) by reflexivity.
  assert (Hf : faults run.2 = []) by (vm_compute; reflexivity).
  assert (Hm : EDIT <> NEW) by discriminate.
  split_and!; [exact He | exact Hset | exact Hrw | exact Hf | exact Hm |].
  exact (edit_after_success _ _ _ _ _ _ _ _ _ _ _ _ _ _ (lit "j3") EDIT
           (lit "remove the hat") He Hset Hrw Hex Hf Hm).
Defined.

(** X9: an edit whose source image cannot be staged.  When the copy of the
    image the pointer names fails, or the edit workflow cannot be built on
    it, the job ends in status error with a message that names the cause;
    the pointer and every other key are as before, the engine has not been
    contacted and its history not polled. *)
Theorem process_job_staging_fails env fuel jd job_id uid m p w url e :
  entry_of jd job_id uid m p ->
  m <> NEW ->
  faults w = [] ->
  store w !! (LAST_IMAGE_PREFIX ++ uid) = Some (VStr url) ->
  url <> [] ->
  staging_fails env job_id p url e ->
  exists w',
    process_job env fuel jd w = (Ret tt, w')
    /\ store w' !! (JOB_KEY_PREFIX ++ job_id)
       = Some (job_record error None (Some (cannot_prepare_msg e)))
    /\ (forall k, k <> JOB_KEY_PREFIX ++ job_id -> store w' !! k = store w !! k)
    /\ polls w' = polls w
    /\ (forall cid, In (EvComfyPost cid) (trace w') -> In (EvComfyPost cid) (trace w)).
Proof.
  intros He Hm Hf Hptr Hne Hfail.
  pose proof (key_prefixes_differ job_id uid) as Hk.
  pose proof (rds_set_run (JOB_KEY_PREFIX ++ job_id)
                (job_record processing None None) w Hf) as Hset.
  set (wp := log _ (with_store _ w)) in Hset.
  assert (Hfp : faults wp = []) by exact Hf.
  pose proof (make_workflow_not_NEW env job_id uid m p wp Hm Hfp) as Hmk.
  cbv zeta in Hmk.
  assert (Hptr' : store wp !! (LAST_IMAGE_PREFIX ++ uid) = Some (VStr url)).
  { subst wp. simpl. by rewrite lookup_insert_ne. }
  rewrite Hptr' in Hmk.
  assert (value_falsy (Some (VStr url)) = false) as Hv by (by destruct url).
  rewrite Hv in Hmk. simpl stored_text in Hmk.
  assert (Hst : staged_workflow env job_id p url
                = Raise (RuntimeError (cannot_prepare_msg e))).
  { unfold staged_workflow.
    destruct Hfail as [-> | (fname & -> & ->)]; reflexivity. }
  rewrite Hst in Hmk.
  set (w1 := match copy_image_for_edit env url with
             | inl _ => _ | inr _ => _ end) in Hmk.
  assert (Hrw : run_workflow env fuel job_id uid m p wp
                = (Raise (RuntimeError (cannot_prepare_msg e)), w1)).
  { unfold run_workflow. by apply bind_Raise. }
  assert (Hw1 : faults w1 = [] /\ store w1 = store wp /\ polls w1 = polls w
                /\ forall cid, In (EvComfyPost cid) (trace w1) ->
                               In (EvComfyPost cid) (trace w)).
  { subst w1. destruct (copy_image_for_edit env url); simpl;
      (split_and!; [done | done | done |]); intros cid H;
      repeat (destruct H as [H | H]; [discriminate |]); exact H. }
  destruct Hw1 as (Hf1 & Hs1 & Hp1 & Ht1).
  rewrite (process_job_steps _ _ _ _ _ _ _ _ _ _ _ He Hset Hrw).
  unfold write_error. rewrite rds_set_run by done.
  eexists. split; [done |]. simpl. split_and!.
  - by rewrite lookup_insert_eq.
  - intros k Hkk. rewrite lookup_insert_ne by done. rewrite Hs1. simpl.
    by rewrite lookup_insert_ne.
  - done.
  - intros cid [H | H]; [discriminate | by apply Ht1].
Qed.

Lemma process_job_staging_fails_witness :
  entry_of edit_entry (lit "j3") (lit "u1") EDIT (lit "remove the hat")
  /\ EDIT <> NEW /\ faults pointer_world = []
  /\ staging_fails no_staging_env (lit "j3") (lit "remove the hat")
       (lit "http://old/image.png") (LibraryError (lit "404 Not Found"))
  /\ exists w',
       process_job no_staging_env 5 edit_entry pointer_world = (Ret tt, w')
       /\ store w' !! (JOB_KEY_PREFIX ++ lit "j3")
          = Some (job_record error None
                    (Some (cannot_prepare_msg (LibraryError (lit "404 Not Found")))))
       /\ store w' !! (LAST_IMAGE_PREFIX ++ lit "u1")
          = Some (VStr (lit "http://old/image.png")).
Proof.
  assert (He : entry_of edit_entry (lit "j3") (lit "u1") EDIT
                 (lit "remove the hat")) by apply entry_of_job_entry.
  assert (Hm : EDIT <> NEW) by discriminate.
  assert (Hne : lit "http://old/image.png" <> []) by discriminate.
  assert (Hfail : staging_fails no_staging_env (lit "j3") (lit "remove the hat")
                    (lit "http://old/image.png")
                    (LibraryError (lit "404 Not Found"))) by (by left).
  split_and!; [exact He | exact Hm | reflexivity | exact Hfail |].
  destruct (process_job_staging_fails no_staging_env 5 edit_entry _ _ _ _
              pointer_world _ _ He Hm eq_refl eq_refl Hne Hfail)
    as (w' & Hrun & Hrec & Hframe & _).
  exists w'. split_and!; [exact Hrun | exact Hrec |].
  rewrite Hframe by discriminate. reflexivity.
Defined.

(** ** Intake and worker together *)

(** A run of [generate] that has answered with a job. *)
Lemma generate_Ret env req w resp w1 :
  generate env req w = (Ret resp, w1) ->
  resp = {| resp_job_id := uuid4 env (uuids w); resp_status := waiting |}
  /\ exists m,
       queue w1 = QDict (job_entry (uuid4 env (uuids w)) (user_id req)
                                   (prompt req) m) :: queue w
       /\ store w1 = <[JOB_KEY_PREFIX ++ uuid4 env (uuids w)
                       := VJob initial_record]> (store w).
Proof.
  intros Hrun.
  destruct (generate_effects _ _ _ _ _ Hrun)
    as ([(_ & e & ?) | (m & [= ->] & Hq & Hs & _)] & _); [discriminate |].
  split; [done |]. by exists m.
Qed.

Lemma rds_brpop_run w x rest :
  faults w = [] -> rev (queue w) = x :: rest ->
  rds_brpop w = (Ret x, log (EvBRPop QUEUE_KEY) (with_queue (rev rest) w)).
Proof.
  intros Hf Hq. unfold rds_brpop. by rewrite (next_fault_none w Hf), Hq.
Qed.

(** X10: jobs are handed to the worker in the order of their submission.
    After two requests that were answered with a job, the first on an empty
    queue, the first entry the worker takes carries the job id the first
    request was answered with, the second one that of the second request,
    and the queue is empty again. *)
Theorem jobs_taken_in_submission_order env req1 req2 w resp1 w1 resp2 w2 :
  queue w = [] ->
  generate env req1 w = (Ret resp1, w1) ->
  generate env req2 w1 = (Ret resp2, w2) ->
  faults w2 = [] ->
  exists jd1 jd2 w3 w4,
    rds_brpop w2 = (Ret (QDict jd1), w3)
    /\ jd1 !! lit "job_id" = Some (resp_job_id resp1)
    /\ jd1 !! lit "prompt" = Some (prompt req1)
    /\ rds_brpop w3 = (Ret (QDict jd2), w4)
    /\ jd2 !! lit "job_id" = Some (resp_job_id resp2)
    /\ jd2 !! lit "prompt" = Some (prompt req2)
    /\ queue w4 = [].
Proof.
  intros Hq Hg1 Hg2 Hf2.
  destruct (generate_Ret _ _ _ _ _ Hg1) as (-> & m1 & Hq1 & _).
  destruct (generate_Ret _ _ _ _ _ Hg2) as (-> & m2 & Hq2 & _).
  rewrite Hq in Hq1. rewrite Hq1 in Hq2.
  set (e1 := job_entry (uuid4 env (uuids w)) (user_id req1) (prompt req1) m1) in *.
  set (e2 := job_entry (uuid4 env (uuids w1)) (user_id req2) (prompt req2) m2) in *.
  assert (Hp1 : rds_brpop w2
                = (Ret (QDict e1),
                   log (EvBRPop QUEUE_KEY) (with_queue (rev [QDict e2]) w2))).
  { apply rds_brpop_run; [done |]. by rewrite Hq2. }
  set (w3 := log _ (with_queue _ w2)) in Hp1.
  assert (Hp2 : rds_brpop w3
                = (Ret (QDict e2),
                   log (EvBRPop QUEUE_KEY) (with_queue (rev []) w3))).
  { apply rds_brpop_run; [exact Hf2 | done]. }
  destruct (job_entry_lookup (uuid4 env (uuids w)) (user_id req1) (prompt req1) m1)
    as (Hj1 & _ & Hpr1 & _).
  destruct (job_entry_lookup (uuid4 env (uuids w1)) (user_id req2) (prompt req2) m2)
    as (Hj2 & _ & Hpr2 & _).
  do 4 eexists.
  split_and!; [exact Hp1 | exact Hj1 | exact Hpr1
              | exact Hp2 | exact Hj2 | exact Hpr2 | done].
Qed.

Lemma jobs_taken_in_submission_order_witness :
  let out1 := generate sample_env hat_request world0 in
  let out2 := generate sample_env hat_request out1.2 in
  let resp1 := {| resp_job_id := lit "job-0"; resp_status := waiting |} in
  let resp2 := {| resp_job_id := lit "job-1"; resp_status := waiting |} in
  queue world0 = []
  /\ out1 = (Ret resp1, out1.2) /\ out2 = (Ret resp2, out2.2)
  /\ faults out2.2 = []
  /\ exists jd1 jd2 w3 w4,
       rds_brpop out2.2 = (Ret (QDict jd1), w3)
       /\ jd1 !! lit "job_id" = Some (lit "job-0")
       /\ jd1 !! lit "prompt" = Some (prompt hat_request)
       /\ rds_brpop w3 = (Ret (QDict jd2), w4)
       /\ jd2 !! lit "job_id" = Some (lit "job-1")
       /\ jd2 !! lit "prompt" = Some (prompt hat_request)
       /\ queue w4 = [].
Proof.
  intros out1 out2 resp1 resp2.
  assert (H1 : out1 = (Ret resp1, out1.2)) by (vm_compute; reflexivity).
  assert (H2 : out2 = (Ret resp2, out2.2)) by (vm_compute; reflexivity).
  assert (Hf : faults out2.2 = []) by (vm_compute; reflexivity).
  split_and!; [reflexivity | exact H1 | exact H2 | exact Hf |].
  exact (jobs_taken_in_submission_order sample_env hat_request hat_request world0
           resp1 out1.2 resp2 out2.2 eq_refl H1 H2 Hf).
Defined.

Lemma rev_eq_cons {A} (l : list A) x rest :
  rev l = x :: rest -> l = rev rest ++ [x].
Proof.
  intros H. rewrite <- (rev_involutive l), H. reflexivity.
Qed.

(** X11: entries of the queue that are not JSON are dropped without a
    trace in the store.  On a queue that holds only such entries the worker
    takes them all, writes nothing, and then waits for the next entry. *)
Theorem worker_loop_drops_undecodable env fuel n w :
  faults w = [] ->
  forallb is_text (queue w) = true ->
  (length (queue w) < n)%nat ->
  exists w',
    worker_loop env fuel n w = (Blocked, w')
    /\ queue w' = [] /\ store w' = store w /\ writes w' = writes w.
Proof.
  revert w. induction n as [| n IH]; intros w Hf Ht Hn; [lia |].
  cbn [worker_loop]. unfold bind at 1.
  destruct (rev (queue w)) as [| x rest] eqn:Hq.
  - assert (Hnil : queue w = []).
    { rewrite <- (rev_involutive (queue w)), Hq. reflexivity. }
    unfold rds_brpop. rewrite (next_fault_none w Hf), Hq.
    exists w. done.
  - rewrite (rds_brpop_run w x rest Hf Hq).
    pose proof (rev_eq_cons _ _ _ Hq) as Hl.
    rewrite Hl, forallb_app in Ht. apply andb_true_iff in Ht as [Hrest Hx].
    simpl in Hx. destruct x as [d | s]; [discriminate |].
    set (w1 := log _ (with_queue _ w)).
    destruct (IH w1) as (w' & Hrun & Hq' & Hs' & Hw').
    + exact Hf.
    + exact Hrest.
    + change (queue w1) with (rev rest). rewrite Hl, length_app in Hn.
      simpl in Hn. lia.
    + exists w'. split_and!; [exact Hrun | exact Hq' | by rewrite Hs' |].
      rewrite Hw'. reflexivity.
Qed.

Lemma worker_loop_drops_undecodable_witness :
  let w := with_queue [QText (lit "not json"); QText (lit "{")] world0 in
  faults w = [] /\ forallb is_text (queue w) = true
  /\ (length (queue w) < 5)%nat
  /\ exists w',
       worker_loop sample_env 5 5 w = (Blocked, w')
       /\ queue w' = [] /\ store w' = store w /\ writes w' = writes w.
Proof.
  intros w. split_and!; [reflexivity | reflexivity | simpl; lia |].
  apply (worker_loop_drops_undecodable sample_env 5 5 w);
    [reflexivity | reflexivity | simpl; lia].
Defined.

(** ** The classifier: the answer of the service *)

Lemma after_open_brace_app a rest :
  ~ In 0x7B a -> after_open_brace (a ++ 0x7B :: rest) = Some rest.
Proof.
  induction a as [| c a IH]; intros Hn; simpl.
  - reflexivity.
  - destruct (c =? 0x7B) eqn:Hc.
    + apply N.eqb_eq in Hc. destruct Hn. by left.
    + apply IH. intros H. apply Hn. by right.
Qed.

Lemma upto_last_close_brace_none z :
  ~ In 0x7D z -> upto_last_close_brace z = None.
Proof.
  induction z as [| c z IH]; intros Hn; simpl; [reflexivity |].
  rewrite IH by (intros H; apply Hn; by right).
  destruct (c =? 0x7D) eqn:Hc; [| reflexivity].
  apply N.eqb_eq in Hc. destruct Hn. by left.
Qed.

Lemma upto_last_close_brace_app mid z :
  ~ In 0x7D z -> upto_last_close_brace (mid ++ 0x7D :: z) = Some (mid ++ [0x7D]).
Proof.
  intros Hn. induction mid as [| c mid IH]; simpl.
  - by rewrite (upto_last_close_brace_none z Hn).
  - by rewrite IH.
Qed.

(** The fragment [re.search] finds: it starts at the first opening brace
    and ends at the last closing brace. *)
Lemma re_search_braces_app a mid z :
  ~ In 0x7B a -> ~ In 0x7D z ->
  re_search_braces (a ++ 0x7B :: mid ++ 0x7D :: z) = Some (0x7B :: mid ++ [0x7D]).
Proof.
  intros Ha Hz. unfold re_search_braces.
  by rewrite (after_open_brace_app a _ Ha), (upto_last_close_brace_app mid z Hz).
Qed.

(** X12: the answer of the service decides.  When the text of the service
    holds a JSON object, with any text without braces before and after it,
    and the "mode" of the object is new or edit in any case and with blanks
    around it, [classify_mode] returns that mode, whatever keywords the
    prompt holds. *)
Theorem classify_mode_follows_the_service env p w a mid z parsed mv :
  ~ blank p ->
  response_text (ollama_post env (strip p))
  = inr (JStr (a ++ 0x7B :: mid ++ 0x7D :: z)) ->
  ~ In 0x7B a -> ~ In 0x7D z ->
  json_loads env (0x7B :: mid ++ [0x7D]) = Some parsed ->
  json_get parsed (lit "mode") (JStr []) = Some (JStr mv) ->
  upper (strip mv) = NEW \/ upper (strip mv) = EDIT ->
  classify_mode env p w
  = (Ret (upper (strip mv)),
     log (EvOllamaPost (strip p)) (log (EvClassify p) w)).
Proof.
  intros Hb Ht Ha Hz Hj Hg Hm.
  rewrite (classify_mode_run env p w Hb). unfold classify_outcome.
  rewrite Ht. unfold parse_reply.
  rewrite (re_search_braces_app a mid z Ha Hz), Hj, Hg.
  apply Mode_spec in Hm. by rewrite Hm.
Qed.

Lemma classify_mode_follows_the_service_witness :
  ~ blank (lit "a cat on the moon")
  /\ _fallback_rule (lit "a cat on the moon") = NEW
  /\ classify_mode answering_env (lit "a cat on the moon") world0
     = (Ret EDIT,
        log (EvOllamaPost (strip (lit "a cat on the moon")))
          (log (EvClassify (lit "a cat on the moon")) world0)).
Proof.
  assert (Hb : ~ blank (lit "a cat on the moon")) by (by compute).
  assert (Ha : ~ In 0x7B (lit "Answer: ")).
  { cbn. intros H. repeat (destruct H as [H | H]; [discriminate |]). exact H. }
  assert (Hz : ~ In 0x7D (@nil N)) by (intros []).
  assert (Hm : upper (strip (lit " edit ")) = NEW
               \/ upper (strip (lit " edit ")) = EDIT) by (right; reflexivity).
  split_and!; [exact Hb | reflexivity |].
  exact (classify_mode_follows_the_service answering_env (lit "a cat on the moon")
           world0 (lit "Answer: ") (lit "mode: edit") [] _ (lit " edit ")
           Hb eq_refl Ha Hz eq_refl eq_refl Hm).
Defined.

(** ** Intake: the record and the queue entry *)

(** X13: in every run of [generate], failures of the store included, a job
    is queued only after its record is in the store, and a request that is
    answered with an exception has queued nothing; no key but that of the
    new job is written. *)
Theorem generate_record_before_entry env req w r w' :
  generate env req w = (r, w') ->
  let jk := JOB_KEY_PREFIX ++ uuid4 env (uuids w) in
  (queue w' <> queue w ->
   r = Ret {| resp_job_id := uuid4 env (uuids w); resp_status := waiting |}
   /\ store w' !! jk = Some (VJob initial_record))
  /\ (forall e, r = Raise e -> queue w' = queue w)
  /\ (forall k, k <> jk -> store w' !! k = store w !! k).
Proof.
  intros Hrun jk. split_and!.
  - intros Hq. destruct (generate_effects _ _ _ _ _ Hrun)
      as ([(? & _) | (m & -> & _ & Hs & _)] & _); [done |].
    split; [done |]. rewrite Hs. apply lookup_insert_eq.
  - intros e ->. destruct (generate_effects _ _ _ _ _ Hrun)
      as ([(? & _) | (m & ? & _)] & _); [done | discriminate].
  - intros k Hk. destruct (decide (blank (prompt req))) as [Hb | Hb].
    { rewrite generate_blank in Hrun by done. by injection Hrun as _ <-. }
    destruct (generate_split _ _ _ _ _ Hb Hrun)
      as (r1 & w1 & Hm & [(e & -> & -> & ->) | (m & -> & Ht)]);
      destruct (generate_mode_frame _ _ _ _ _ Hm) as (Hs & _ & Hu & _);
      [by rewrite Hs |].
    destruct (generate_tail_cases env req m w1)
      as (r2 & w2 & Ht' & _ & _ & Hc). cbv zeta in Hc.
    rewrite Ht in Ht'. injection Ht' as <- <-.
    rewrite Hu in Hc. fold jk in Hc.
    destruct Hc as [(e & _ & _ & _ & Hs' & _)
                   | [(e & _ & _ & _ & Hs' & _) | (_ & _ & Hs' & _)]];
      rewrite Hs', ?Hs; try done; by rewrite lookup_insert_ne.
Qed.

Lemma generate_record_before_entry_witness :
  let out := generate sample_env hat_request world0 in
  out = (out.1, out.2)
  /\ queue out.2 <> queue world0
  /\ store out.2 !! (JOB_KEY_PREFIX ++ lit "job-0") = Some (VJob initial_record).
Proof.
  intros out.
  assert (Hrun : out = (out.1, out.2)) by apply surjective_pairing.
  assert (Hq : queue out.2 <> queue world0) by (vm_compute; discriminate).
  split_and!; [exact Hrun | exact Hq |].
  exact (proj2 (proj1 (generate_record_before_entry _ _ _ _ _ Hrun) Hq)).
Defined.

(** X14: when the store takes the record of a new job and then fails on
    the push to the queue, the request is answered with that exception, the
    record stays in the store in status waiting, and no entry for the job
    is in the queue. *)
Theorem generate_push_failure env req m e fs w :
  ~ blank (prompt req) ->
  mode req = Some m ->
  faults w = None :: Some e :: fs ->
  exists w',
    generate env req w = (Raise e, w')
    /\ store w' !! (JOB_KEY_PREFIX ++ uuid4 env (uuids w))
       = Some (VJob initial_record)
    /\ queue w' = queue w
    /\ faults w' = fs.
Proof.
  intros Hb Hm Hf.
  rewrite generate_unfold by done.
  unfold generate_mode. rewrite Hm.
  unfold generate_tail, bind, ret, gen_job_id, rds_set, rds_lpush, rds_command,
    next_fault.
  cbn [faults log with_uuids with_store with_faults]. rewrite Hf.
  cbn [faults log with_uuids with_store with_faults].
  eexists. split; [reflexivity |]. cbn [store queue faults with_faults log with_store].
  split_and!; [apply lookup_insert_eq | done | done].
Qed.

Lemma generate_push_failure_witness :
  let w := with_faults [None; Some (LibraryError (lit "ConnectionError"))] world0 in
  let req := {| user_id := lit "u1"; prompt := lit "remove the hat";
                mode := Some EDIT |} in
  ~ blank (prompt req) /\ mode req = Some EDIT
  /\ faults w = [None; Some (LibraryError (lit "ConnectionError"))]
  /\ exists w',
       generate sample_env req w
       = (Raise (LibraryError (lit "ConnectionError")), w')
       /\ store w' !! (JOB_KEY_PREFIX ++ uuid4 sample_env (uuids w))
          = Some (VJob initial_record)
       /\ queue w' = queue w /\ faults w' = [].
Proof.
  intros w req.
  assert (Hn : ~ blank (prompt req)) by (by compute).
  split_and!; [exact Hn | reflexivity | reflexivity |].
  exact (generate_push_failure sample_env req EDIT _ [] w Hn eq_refl eq_refl).
Defined.

(** ** backend/workflow_builder.py: the setters *)

Lemma assoc_dict_set_eq k v kv :
  assoc k (workflow_builder.dict_set k v kv) = Some v.
Proof.
  induction kv as [| [k' x] kv IH]; cbn [workflow_builder.dict_set assoc].
  - by rewrite pystr_eqb_refl.
  - destruct (pystr_eqb k k') eqn:E; cbn [assoc]; by rewrite E.
Qed.

Lemma assoc_dict_set_ne k k' v kv :
  k' <> k -> assoc k' (workflow_builder.dict_set k v kv) = assoc k' kv.
Proof.
  intros Hne. induction kv as [| [k0 x] kv IH];
    cbn [workflow_builder.dict_set assoc].
  - by rewrite (pystr_eqb_ne _ _ Hne).
  - destruct (pystr_eqb k k0) eqn:E; cbn [assoc].
    + apply pystr_eqb_eq in E as <-. by rewrite (pystr_eqb_ne _ _ Hne).
    + by rewrite IH.
Qed.

Lemma inputs_neq_class_type : lit "class_type" <> lit "inputs".
Proof. discriminate. Qed.

Lemma class_in_set_inputs cs x fields :
  workflow_builder.class_in cs (workflow_builder.dict_set (lit "inputs") x fields)
  = workflow_builder.class_in cs fields.
Proof.
  unfold workflow_builder.class_in.
  by rewrite (assoc_dict_set_ne _ _ _ _ inputs_neq_class_type).
Qed.

Lemma first_set_cons cs key v node_id node rest :
  first_set cs key v ((node_id, node) :: rest)
  = if takesb cs key node then (node_id, set_input key v node) :: rest
    else (node_id, node) :: first_set cs key v rest.
Proof.
  unfold first_set, find_node. cbn [list_find].
  case_decide as Ht; cbn [snd] in Ht.
  - by rewrite Ht.
  - apply not_true_is_false in Ht. rewrite Ht.
    destruct (list_find _ rest) as [[i [id' n']] |]; reflexivity.
Qed.

(** The loop of the setters computes [first_set] on a workflow whose nodes
    have a dict as inputs, where they have inputs at all. *)
Lemma set_first_input_first_set cs key v wf :
  Forall plain_inputs wf ->
  workflow_builder.set_first_input cs key v wf = inr (first_set cs key v wf).
Proof.
  induction wf as [| [node_id node] rest IH]; intros Hpl; [reflexivity |].
  apply Forall_cons in Hpl as [Hx Hrest].
  rewrite first_set_cons. cbn [workflow_builder.set_first_input].
  rewrite (IH Hrest).
  destruct node as [| b | n | s | l | fields]; try reflexivity.
  unfold plain_inputs in Hx. cbn [snd] in Hx.
  unfold takesb, node_input, set_input.
  destruct (workflow_builder.class_in cs fields); [| reflexivity].
  destruct (assoc (lit "inputs") fields) as [[| b | n | s | l | kv] |];
    try (destruct Hx);
    cbn [default from_option id andb workflow_builder.json_contains
         workflow_builder.json_setitem].
  - destruct (bool_decide (is_Some (assoc key kv))); reflexivity.
  - cbn [assoc]. rewrite bool_decide_eq_false_2 by (intros [? ?]; discriminate).
    reflexivity.
Qed.

Lemma first_set_ids cs key v wf : (first_set cs key v wf).*1 = wf.*1.
Proof.
  induction wf as [| [node_id node] rest IH]; [reflexivity |].
  rewrite first_set_cons. destruct (takesb cs key node); [reflexivity |].
  cbn [fmap list_fmap]. by rewrite <- IH.
Qed.

Lemma takesb_inputs cs key node :
  takesb cs key node = true ->
  exists fields kv,
    node = JObj fields /\ workflow_builder.class_in cs fields = true
    /\ assoc (lit "inputs") fields = Some (JObj kv) /\ is_Some (assoc key kv).
Proof.
  destruct node as [| | | | | fields]; try discriminate.
  unfold takesb, node_input. intros [Hc Hk%bool_decide_eq_true]%andb_true_iff.
  destruct (assoc (lit "inputs") fields) as [[| | | | | kv] |] eqn:E;
    try (by destruct Hk). by exists fields, kv.
Qed.

Lemma plain_inputs_set_input key v node_id node :
  plain_inputs (node_id, node) -> plain_inputs (node_id, set_input key v node).
Proof.
  unfold plain_inputs, set_input. cbn [snd].
  destruct node as [| | | | | fields]; try done.
  destruct (assoc (lit "inputs") fields) as [[| | | | | kv] |] eqn:E;
    rewrite ?E; try done.
  by rewrite assoc_dict_set_eq.
Qed.

Lemma first_set_plain cs key v wf :
  Forall plain_inputs wf -> Forall plain_inputs (first_set cs key v wf).
Proof.
  induction wf as [| [node_id node] rest IH]; intros Hpl; [done |].
  apply Forall_cons in Hpl as [Hx Hrest]. rewrite first_set_cons.
  destruct (takesb cs key node); apply Forall_cons; split; auto.
  by apply plain_inputs_set_input.
Qed.

Lemma class_in_disjoint cs cs' fields :
  disjoint_classes cs cs' ->
  workflow_builder.class_in cs fields = true ->
  workflow_builder.class_in cs' fields = false.
Proof.
  unfold workflow_builder.class_in. intros Hd.
  destruct (assoc (lit "class_type") fields) as [[| | | c | |] |]; try done.
  apply Hd.
Qed.

Lemma takesb_disjoint cs cs' key key' node :
  disjoint_classes cs cs' ->
  takesb cs key node = true ->
  takesb cs' key' node = false /\ forall v, takesb cs' key' (set_input key v node) = false.
Proof.
  intros Hd (fields & kv & -> & Hc & Hi & _)%takesb_inputs.
  pose proof (class_in_disjoint _ _ _ Hd Hc) as Hc'.
  split; [unfold takesb; by rewrite Hc' |].
  intros v. unfold set_input. rewrite Hi. unfold takesb.
  by rewrite class_in_set_inputs, Hc'.
Qed.

Lemma find_node_first_set cs key v cs' key' wf :
  disjoint_classes cs cs' ->
  find_node cs' key' (first_set cs key v wf) = find_node cs' key' wf.
Proof.
  intros Hd. induction wf as [| [node_id node] rest IH]; [reflexivity |].
  rewrite first_set_cons. unfold find_node in *.
  destruct (takesb cs key node) eqn:Ht.
  - destruct (takesb_disjoint _ _ key key' _ Hd Ht) as [H1 H2].
    cbn [list_find]. rewrite !decide_False; [done | |]; cbn [snd].
    + by rewrite H1.
    + by rewrite H2.
  - cbn [list_find]. by rewrite IH.
Qed.

Lemma find_node_Some cs key wf i x :
  find_node cs key wf = Some (i, x) ->
  wf !! i = Some x /\ takesb cs key x.2 = true.
Proof. intros (? & ? & _)%list_find_Some. done. Qed.

Lemma find_node_exclusive cs cs' key key' wf i x y :
  disjoint_classes cs cs' ->
  find_node cs key wf = Some (i, x) -> find_node cs' key' wf <> Some (i, y).
Proof.
  intros Hd [Hx Ht]%find_node_Some [Hy Ht']%find_node_Some.
  assert (x = y) as -> by congruence.
  destruct (takesb_disjoint _ _ key key' _ Hd Ht) as [H _]. congruence.
Qed.

Lemma first_set_found cs key v wf i x :
  find_node cs key wf = Some (i, x) ->
  first_set cs key v wf !! i = Some (x.1, set_input key v x.2).
Proof.
  intros H. pose proof (find_node_Some _ _ _ _ _ H) as [Hx _].
  unfold first_set. rewrite H. destruct x as [node_id node].
  apply list_lookup_insert_eq. by eapply lookup_lt_Some.
Qed.

Lemma first_set_other cs key v wf (k : nat) :
  (forall x, find_node cs key wf <> Some (k, x)) ->
  first_set cs key v wf !! k = wf !! k.
Proof.
  intros H. unfold first_set.
  destruct (find_node cs key wf) as [[i [node_id node]] |] eqn:E; [| done].
  apply list_lookup_insert_ne. intros ->. by eapply H.
Qed.

Lemma node_input_set_input cs key v node :
  takesb cs key node = true ->
  node_input (set_input key v node) key = Some v
  /\ forall k, k <> key -> node_input (set_input key v node) k = node_input node k.
Proof.
  intros (fields & kv & -> & _ & Hi & _)%takesb_inputs.
  unfold set_input, node_input. rewrite Hi, assoc_dict_set_eq. split.
  - apply assoc_dict_set_eq.
  - intros k Hk. by apply assoc_dict_set_ne.
Qed.

(** X15: what a setter does.  On a workflow whose nodes have a dict as
    inputs, where they have inputs at all, a setter does not raise and keeps
    the node ids and their order.  Without a node of the wanted class that
    has the key among its inputs the workflow is returned as it was;
    otherwise the first such node, and no other, is changed: it has the new
    value under the key and its other inputs as before. *)
Theorem setter_changes_first_node cs key v wf :
  Forall plain_inputs wf ->
  exists wf',
    workflow_builder.set_first_input cs key v wf = inr wf'
    /\ wf'.*1 = wf.*1
    /\ (find_node cs key wf = None -> wf' = wf)
    /\ (forall i x, find_node cs key wf = Some (i, x) ->
        (exists n, wf' !! i = Some (x.1, n)
           /\ node_input n key = Some v
           /\ forall k, k <> key -> node_input n k = node_input x.2 k)
        /\ (forall j : nat, j <> i -> wf' !! j = wf !! j)
        /\ (forall (j : nat) y, (j < i)%nat -> wf !! j = Some y ->
              takesb cs key y.2 = false)).
Proof.
  intros Hpl. exists (first_set cs key v wf). split_and!.
  - by apply set_first_input_first_set.
  - apply first_set_ids.
  - intros H. unfold first_set. by rewrite H.
  - intros i x Hx. pose proof (find_node_Some _ _ _ _ _ Hx) as [_ Ht].
    destruct (node_input_set_input _ _ v _ Ht) as [H1 H2]. split_and!.
    + exists (set_input key v x.2). split_and!; [| done | done].
      by apply first_set_found.
    + intros j Hj. apply first_set_other. intros y. rewrite Hx. congruence.
    + intros j y Hj Hy. apply list_find_Some in Hx as (_ & _ & Hmin).
      apply not_true_is_false. by eapply Hmin.
Qed.

Lemma setter_changes_first_node_witness :
  Forall plain_inputs sample_workflow
  /\ exists wf',
       workflow_builder._set_prompt_for_gen sample_workflow (lit "a cat")
       = inr wf'
       /\ (exists n, wf' !! 1%nat = Some (lit "6", n)
              /\ node_input n (lit "text") = Some (JStr (lit "a cat")))
       /\ wf' !! 2%nat = sample_workflow !! 2%nat.
Proof.
  assert (Hpl : Forall plain_inputs sample_workflow).
  { repeat (apply Forall_cons; split; [exact I |]). by apply Forall_nil. }
  split; [exact Hpl |].
  destruct (setter_changes_first_node [lit "CLIPTextEncode"] (lit "text")
              (JStr (lit "a cat")) sample_workflow Hpl)
    as (wf' & Hrun & _ & _ & Hfound).
  destruct (Hfound 1%nat _ eq_refl) as ((n & Hn & Hin & _) & Hother & _).
  exists wf'. split_and!; [exact Hrun | | ].
  - exists n. split; [exact Hn | exact Hin].
  - apply Hother. discriminate.
Defined.

Ltac solve_disjoint :=
  let c := fresh "c" in
  let H := fresh "H" in
  intros c H; cbn [existsb] in H;
  repeat (apply orb_true_iff in H as [H | H]); try discriminate;
  apply pystr_eqb_eq in H; subst c; vm_compute; reflexivity.

Lemma encoder_not_sampler :
  disjoint_classes [lit "CLIPTextEncode"] [lit "KSampler"].
Proof. solve_disjoint. Qed.

Lemma edit_encoder_not_loader :
  disjoint_classes [lit "TextEncodeQwenImageEdit"]
    [lit "LoadImage"; lit "ImageLoader"].
Proof. solve_disjoint. Qed.

Lemma edit_encoder_not_sampler :
  disjoint_classes [lit "TextEncodeQwenImageEdit"] [lit "KSampler"].
Proof. solve_disjoint. Qed.

Lemma loader_not_sampler :
  disjoint_classes [lit "LoadImage"; lit "ImageLoader"] [lit "KSampler"].
Proof. solve_disjoint. Qed.

(** X16: what [build_gen_workflow] gives on a loaded workflow whose nodes
    have dicts as inputs.  It does not raise; the node ids and their order
    are those of the file; the first CLIPTextEncode node with a text input
    has the prompt there, the first KSampler node with a seed input has the
    drawn seed there, their other inputs are kept, and every other node is
    as in the file. *)
Theorem build_gen_workflow_result wf seed_val p job_id :
  Forall plain_inputs wf ->
  exists wf',
    workflow_builder.build_gen_workflow (inr (JObj wf)) seed_val p job_id
    = inr (JObj wf')
    /\ wf'.*1 = wf.*1
    /\ (forall i x, find_node [lit "CLIPTextEncode"] (lit "text") wf = Some (i, x) ->
        exists n, wf' !! i = Some (x.1, n)
          /\ node_input n (lit "text") = Some (JStr p)
          /\ forall k, k <> lit "text" -> node_input n k = node_input x.2 k)
    /\ (forall j y, find_node [lit "KSampler"] (lit "seed") wf = Some (j, y) ->
        exists n, wf' !! j = Some (y.1, n)
          /\ node_input n (lit "seed") = Some (JNum seed_val)
          /\ forall k, k <> lit "seed" -> node_input n k = node_input y.2 k)
    /\ (forall k : nat,
          (forall x, find_node [lit "CLIPTextEncode"] (lit "text") wf <> Some (k, x)) ->
          (forall y, find_node [lit "KSampler"] (lit "seed") wf <> Some (k, y)) ->
          wf' !! k = wf !! k).
Proof.
  intros Hpl.
  set (wf1 := first_set [lit "CLIPTextEncode"] (lit "text") (JStr p) wf).
  set (wf2 := first_set [lit "KSampler"] (lit "seed") (JNum seed_val) wf1).
  assert (Hfind : find_node [lit "KSampler"] (lit "seed") wf1
                  = find_node [lit "KSampler"] (lit "seed") wf)
    by apply find_node_first_set, encoder_not_sampler.
  exists wf2. split_and!.
  - unfold workflow_builder.build_gen_workflow, workflow_builder._set_prompt_for_gen,
      workflow_builder._set_seed_random, workflow_builder.and_then,
      workflow_builder.items.
    rewrite (set_first_input_first_set _ _ _ wf Hpl).
    by rewrite (set_first_input_first_set _ _ _ _ (first_set_plain _ _ _ _ Hpl)).
  - unfold wf2, wf1. by rewrite !first_set_ids.
  - intros i x Hx. pose proof (find_node_Some _ _ _ _ _ Hx) as [_ Ht].
    exists (set_input (lit "text") (JStr p) x.2).
    destruct (node_input_set_input _ _ (JStr p) _ Ht) as [H1 H2].
    split_and!; [| exact H1 | exact H2].
    unfold wf2. rewrite first_set_other.
    + by apply first_set_found.
    + intros y. rewrite Hfind.
      by apply (find_node_exclusive _ _ _ _ _ _ _ _ encoder_not_sampler Hx).
  - intros j y Hy. pose proof (find_node_Some _ _ _ _ _ Hy) as [_ Ht].
    exists (set_input (lit "seed") (JNum seed_val) y.2).
    destruct (node_input_set_input _ _ (JNum seed_val) _ Ht) as [H1 H2].
    split_and!; [| exact H1 | exact H2].
    apply first_set_found. by rewrite Hfind.
  - intros k H1 H2. unfold wf2. rewrite first_set_other by (by rewrite Hfind).
    by apply first_set_other.
Qed.

Lemma build_gen_workflow_result_witness :
  Forall plain_inputs sample_workflow
  /\ find_node [lit "CLIPTextEncode"] (lit "text") sample_workflow
     = Some (1%nat, (lit "6",
          JObj [(lit "class_type", JStr (lit "CLIPTextEncode"));
                (lit "inputs", JObj [(lit "text", JStr (lit "positive"))])]))
  /\ exists wf',
       workflow_builder.build_gen_workflow (inr (JObj sample_workflow)) 42
         (lit "a cat") (lit "j1") = inr (JObj wf')
       /\ exists n, wf' !! 1%nat = Some (lit "6", n)
            /\ node_input n (lit "text") = Some (JStr (lit "a cat")).
Proof.
  assert (Hpl : Forall plain_inputs sample_workflow).
  { repeat (apply Forall_cons; split; [exact I |]). by apply Forall_nil. }
  split_and!; [exact Hpl | reflexivity |].
  destruct (build_gen_workflow_result sample_workflow 42 (lit "a cat") (lit "j1") Hpl)
    as (wf' & Hrun & _ & Htext & _).
  exists wf'. split; [exact Hrun |].
  destruct (Htext 1%nat _ eq_refl) as (n & Hn & Hin & _).
  exists n. split; [exact Hn | exact Hin].
Defined.

(** X17: what [build_edit_workflow] gives on a loaded workflow whose nodes
    have dicts as inputs.  It does not raise and keeps the node ids and
    their order; the first TextEncodeQwenImageEdit node with a prompt input
    has the prompt, the first LoadImage or ImageLoader node with an image
    input has the name of the staged file, the first KSampler node with a
    seed input has the drawn seed, and every other node is as in the
    file. *)
Theorem build_edit_workflow_result wf seed_val p fname job_id :
  Forall plain_inputs wf ->
  let encoder := find_node [lit "TextEncodeQwenImageEdit"] (lit "prompt") wf in
  let loader := find_node [lit "LoadImage"; lit "ImageLoader"] (lit "image") wf in
  let sampler := find_node [lit "KSampler"] (lit "seed") wf in
  exists wf',
    workflow_builder.build_edit_workflow (inr (JObj wf)) seed_val p fname job_id
    = inr (JObj wf')
    /\ wf'.*1 = wf.*1
    /\ (forall i x, encoder = Some (i, x) ->
        exists n, wf' !! i = Some (x.1, n)
          /\ node_input n (lit "prompt") = Some (JStr p))
    /\ (forall i x, loader = Some (i, x) ->
        exists n, wf' !! i = Some (x.1, n)
          /\ node_input n (lit "image") = Some (JStr fname))
    /\ (forall i x, sampler = Some (i, x) ->
        exists n, wf' !! i = Some (x.1, n)
          /\ node_input n (lit "seed") = Some (JNum seed_val))
    /\ (forall k : nat,
          (forall x, encoder <> Some (k, x)) -> (forall x, loader <> Some (k, x)) ->
          (forall x, sampler <> Some (k, x)) -> wf' !! k = wf !! k).
Proof.
  intros Hpl encoder loader sampler.
  set (wf1 := first_set [lit "TextEncodeQwenImageEdit"] (lit "prompt") (JStr p) wf).
  set (wf2 := first_set [lit "LoadImage"; lit "ImageLoader"] (lit "image")
                (JStr fname) wf1).
  set (wf3 := first_set [lit "KSampler"] (lit "seed") (JNum seed_val) wf2).
  assert (Hl : find_node [lit "LoadImage"; lit "ImageLoader"] (lit "image") wf1
               = loader) by apply find_node_first_set, edit_encoder_not_loader.
  assert (Hs : find_node [lit "KSampler"] (lit "seed") wf2 = sampler).
  { unfold wf2. rewrite find_node_first_set by apply loader_not_sampler.
    apply find_node_first_set, edit_encoder_not_sampler. }
  pose proof (first_set_plain [lit "TextEncodeQwenImageEdit"] (lit "prompt")
                (JStr p) wf Hpl) as Hpl1. fold wf1 in Hpl1.
  pose proof (first_set_plain [lit "LoadImage"; lit "ImageLoader"] (lit "image")
                (JStr fname) wf1 Hpl1) as Hpl2. fold wf2 in Hpl2.
  exists wf3. split_and!.
  - unfold workflow_builder.build_edit_workflow,
      workflow_builder._set_prompt_for_edit, workflow_builder.set_load_image,
      workflow_builder._set_seed_random, workflow_builder.and_then,
      workflow_builder.items.
    rewrite (set_first_input_first_set _ _ _ wf Hpl). fold wf1.
    rewrite (set_first_input_first_set _ _ _ wf1 Hpl1). fold wf2.
    by rewrite (set_first_input_first_set _ _ _ wf2 Hpl2).
  - unfold wf3, wf2, wf1. by rewrite !first_set_ids.
  - intros i x Hx. pose proof (find_node_Some _ _ _ _ _ Hx) as [_ Ht].
    exists (set_input (lit "prompt") (JStr p) x.2).
    split; [| exact (proj1 (node_input_set_input _ _ (JStr p) _ Ht))].
    unfold wf3. rewrite first_set_other.
    + unfold wf2. rewrite first_set_other; [by apply first_set_found |].
      intros y. rewrite Hl.
      by apply (find_node_exclusive _ _ _ _ _ _ _ _ edit_encoder_not_loader Hx).
    + intros y. rewrite Hs.
      by apply (find_node_exclusive _ _ _ _ _ _ _ _ edit_encoder_not_sampler Hx).
  - intros i x Hx. pose proof (find_node_Some _ _ _ _ _ Hx) as [_ Ht].
    exists (set_input (lit "image") (JStr fname) x.2).
    split; [| exact (proj1 (node_input_set_input _ _ (JStr fname) _ Ht))].
    unfold wf3. rewrite first_set_other.
    + apply first_set_found. by rewrite Hl.
    + intros y. rewrite Hs.
      by apply (find_node_exclusive _ _ _ _ _ _ _ _ loader_not_sampler Hx).
  - intros i x Hx. pose proof (find_node_Some _ _ _ _ _ Hx) as [_ Ht].
    exists (set_input (lit "seed") (JNum seed_val) x.2).
    split; [| exact (proj1 (node_input_set_input _ _ (JNum seed_val) _ Ht))].
    apply first_set_found. by rewrite Hs.
  - intros k H1 H2 H3. unfold wf3. rewrite first_set_other by (by rewrite Hs).
    unfold wf2. rewrite first_set_other by (by rewrite Hl).
    by apply first_set_other.
Qed.

Lemma build_edit_workflow_result_witness :
  Forall plain_inputs sample_edit_workflow
  /\ exists wf',
       workflow_builder.build_edit_workflow (inr (JObj sample_edit_workflow)) 42
         (lit "remove the hat") (lit "in.png") (lit "j3") = inr (JObj wf')
       /\ exists n, wf' !! 0%nat = Some (lit "1", n)
            /\ node_input n (lit "image") = Some (JStr (lit "in.png")).
Proof.
  assert (Hpl : Forall plain_inputs sample_edit_workflow).
  { repeat (apply Forall_cons; split; [exact I |]). by apply Forall_nil. }
  split; [exact Hpl |].
  destruct (build_edit_workflow_result sample_edit_workflow 42
              (lit "remove the hat") (lit "in.png") (lit "j3") Hpl)
    as (wf' & Hrun & _ & _ & Himg & _).
  exists wf'. split; [exact Hrun |].
  destruct (Himg 0%nat _ eq_refl) as (n & Hn & Hin).
  exists n. split; [exact Hn | exact Hin].
Defined.

(** ** From the request to the result *)

(** A request with a mode, on a store that answers. *)
Lemma generate_given_mode env req m w :
  ~ blank (prompt req) -> mode req = Some m -> faults w = [] ->
  let job_id := uuid4 env (uuids w) in
  exists w1,
    generate env req w
    = (Ret {| resp_job_id := job_id; resp_status := waiting |}, w1)
    /\ queue w1 = QDict (job_entry job_id (user_id req) (prompt req) m) :: queue w
    /\ store w1 = <[JOB_KEY_PREFIX ++ job_id := VJob initial_record]> (store w)
    /\ faults w1 = [] /\ polls w1 = polls w.
Proof.
  intros Hb Hm Hf job_id.
  rewrite generate_unfold by done.
  unfold generate_mode. rewrite Hm.
  unfold generate_tail, bind, ret, gen_job_id, rds_set, rds_lpush, rds_command,
    next_fault.
  cbn [faults log with_uuids with_store with_queue with_faults]. rewrite Hf.
  cbn [faults log with_uuids with_store with_queue with_faults]. rewrite Hf.
  eexists. split; [reflexivity |].
  cbn [store queue faults polls with_faults with_queue log with_store with_uuids].
  done.
Qed.

(** X18: a request is served.  A request for a new image is accepted on an
    empty queue; the worker takes the job, and when the engine accepts the
    workflow and lists the run at its poll [k] with an image, the worker
    goes back to waiting on the queue and [get_result] answers done with
    the URL of that image, which is also the pointer of the user. *)
Theorem submitted_job_is_served env decode req w fuel wf pid k h f s t :
  let job_id := uuid4 env (uuids w) in
  let url := build_image_url f s t in
  ~ blank (prompt req) -> mode req = Some NEW ->
  faults w = [] -> queue w = [] ->
  build_gen_workflow env (prompt req) job_id = inr wf ->
  save_debug_workflow env wf (debug_name NEW job_id) = inr tt ->
  engine_accepts env wf job_id pid ->
  (forall i, (i < k)%nat -> not_ready env pid (polls w + i)) ->
  ready env pid (polls w + k) h ->
  extract_first_image_from_history h = Some (f, s, t) ->
  (k < fuel)%nat ->
  exists w1 w2 w3,
    generate env req w
    = (Ret {| resp_job_id := job_id; resp_status := waiting |}, w1)
    /\ worker_loop env fuel 2 w1 = (Blocked, w2)
    /\ get_result decode job_id w2
       = (Ret {| res_job_id := job_id; res_status := done;
                 res_image_url := Some url; res_error_message := None;
                 res_extra := None |}, w3)
    /\ store w2 !! (LAST_IMAGE_PREFIX ++ user_id req) = Some (VStr url).
Proof.
  intros job_id url Hb Hm Hf Hq Hbuild Hsave Hacc Hnot Hready Hex Hfuel.
  pose proof (key_prefixes_differ job_id (user_id req)) as Hk.
  destruct (generate_given_mode env req NEW w Hb Hm Hf)
    as (w1 & Hgen & Hq1 & _ & Hf1 & Hp1). fold job_id in Hgen, Hq1.
  rewrite Hq in Hq1.
  set (entry := job_entry job_id (user_id req) (prompt req) NEW) in *.
  assert (He : entry_of entry job_id (user_id req) NEW (prompt req))
    by apply entry_of_job_entry.
  (* the worker takes the entry *)
  assert (Hpop : rds_brpop w1
                 = (Ret (QDict entry),
                    log (EvBRPop QUEUE_KEY) (with_queue (rev []) w1))).
  { apply rds_brpop_run; [done |]. by rewrite Hq1. }
  set (wa := log (EvBRPop QUEUE_KEY) (with_queue (rev []) w1)) in Hpop.
  (* the job runs *)
  pose proof (rds_set_run (JOB_KEY_PREFIX ++ job_id)
                (job_record processing None None) wa Hf1) as Hset.
  set (wp := log _ (with_store _ wa)) in Hset.
  set (ws := log (EvComfyPost job_id)
               (log (EvSaveDebug (debug_name NEW job_id))
                  (log EvBuildWorkflow wp))).
  destruct (wait_for_result_returns env pid 1 h k ws fuel)
    as (wr & Hwait & _ & _ & Hsr & Hqr & Hfr & _).
  { intros i Hi. change (polls ws) with (polls w1). rewrite Hp1. by apply Hnot. }
  { change (polls ws) with (polls w1). by rewrite Hp1. }
  { done. }
  assert (Hrw : run_workflow env fuel job_id (user_id req) NEW (prompt req) wp
                = (Ret h, wr)).
  { rewrite run_workflow_NEW, Hbuild, Hsave. cbv zeta. unfold bind.
    rewrite (send_workflow_accepted _ _ _ _ _ Hacc). exact Hwait. }
  assert (Hfr' : faults wr = []) by (by rewrite Hfr).
  pose proof (process_job_steps _ _ _ _ _ _ _ _ _ _ _ He Hset Hrw) as Hjob.
  cbv beta iota in Hjob.
  rewrite Hex, (write_result_run _ _ _ _ Hfr') in Hjob. fold url in Hjob.
  set (w2 := log _ (with_store _ (log _ (with_store _ wr)))) in Hjob.
  assert (Hloop : worker_loop env fuel 2 w1 = (Blocked, w2)).
  { cbn [worker_loop]. rewrite (bind_Ret _ _ _ _ _ Hpop).
    rewrite (bind_Ret _ _ _ _ _ Hjob).
    unfold bind, rds_brpop. rewrite (next_fault_none w2 Hfr').
    change (queue w2) with (queue wr). rewrite Hqr. reflexivity. }
  exists w1, w2. eexists. split_and!; [exact Hgen | exact Hloop | |].
  - rewrite (get_result_quiet decode job_id w2 Hfr').
    change (store w2) with
      (<[JOB_KEY_PREFIX ++ job_id := job_record done (Some url) None]>
         (<[LAST_IMAGE_PREFIX ++ user_id req := VStr url]> (store wr))).
    rewrite lookup_insert_eq. reflexivity.
  - change (store w2) with
      (<[JOB_KEY_PREFIX ++ job_id := job_record done (Some url) None]>
         (<[LAST_IMAGE_PREFIX ++ user_id req := VStr url]> (store wr))).
    rewrite lookup_insert_ne by done. apply lookup_insert_eq.
Qed.

Lemma submitted_job_is_served_witness :
  let req := {| user_id := lit "u1"; prompt := lit "a cat on the moon";
                mode := Some NEW |} in
  let url := build_image_url (lit "out_00001_.png") [] (lit "output") in
  ~ blank (prompt req) /\ faults world0 = [] /\ queue world0 = []
  /\ engine_accepts sample_env (JObj []) (uuid4 sample_env 0) (lit "run-1")
  /\ (forall i, (i < 1)%nat ->
        not_ready sample_env (lit "run-1") (polls world0 + i))
  /\ ready sample_env (lit "run-1") (polls world0 + 1) sample_history
  /\ exists w1 w2 w3,
       generate sample_env req world0
       = (Ret {| resp_job_id := uuid4 sample_env 0; resp_status := waiting |}, w1)
       /\ worker_loop sample_env 5 2 w1 = (Blocked, w2)
       /\ get_result (fun _ => inl (LibraryError [])) (uuid4 sample_env 0) w2
          = (Ret {| res_job_id := uuid4 sample_env 0; res_status := done;
                    res_image_url := Some url; res_error_message := None;
                    res_extra := None |}, w3)
       /\ store w2 !! (LAST_IMAGE_PREFIX ++ lit "u1") = Some (VStr url).
Proof.
  intros req url.
  assert (Hb : ~ blank (prompt req)) by (by compute).
  assert (Hacc : engine_accepts sample_env (JObj []) (uuid4 sample_env 0)
                   (lit "run-1")).
  { eexists _, _. split_and!; [reflexivity | reflexivity | reflexivity | done]. }
  assert (Hnot : forall i, (i < 1)%nat ->
                   not_ready sample_env (lit "run-1") (polls world0 + i)).
  { intros i Hi. destruct i; [| lia]. right. by exists []. }
  assert (Hready : ready sample_env (lit "run-1") (polls world0 + 1)
                     sample_history).
  { eexists. split; reflexivity. }
  assert (Hfuel : (1 < 5)%nat) by lia.
  split_and!; [exact Hb | reflexivity | reflexivity | exact Hacc | exact Hnot
              | exact Hready |].
  exact (submitted_job_is_served sample_env _ req world0 5 (JObj []) (lit "run-1")
           1 sample_history (lit "out_00001_.png") [] (lit "output")
           Hb eq_refl eq_refl eq_refl eq_refl eq_refl Hacc Hnot Hready eq_refl
           Hfuel).
Defined.

(** ** The engine adapter: submission *)

(** X19: [send_workflow_to_comfy] makes one request and no other change.
    It returns a run id only when the engine answered with a status of
    success and a body that holds a run id that is not empty; a status of
    400 or above raises the error of the HTTP client, with the text the
    client gives it, whatever the body holds. *)
Theorem send_workflow_to_comfy_outcomes env wf cid w r w' :
  send_workflow_to_comfy env wf cid w = (r, w') ->
  w' = log (EvComfyPost cid) w
  /\ (forall pid, r = Ret pid -> engine_accepts env wf cid pid)
  /\ (forall st body, comfy_post_prompt env wf cid = ComfyResponse st body ->
        (400 <= st)%Z ->
        r = Raise (LibraryError (comfy_post_error env wf cid))).
Proof.
  unfold send_workflow_to_comfy, bind, emit, engine_accepts.
  destruct (comfy_post_prompt env wf cid) as [e | st body] eqn:Hpost.
  { intros [= <- <-]. split_and!; [done | done | discriminate]. }
  destruct (is_success st) eqn:Hst; cbn [negb].
  - destruct body as [ack |].
    + destruct (ack_prompt_id ack) as [pid |] eqn:Hpid.
      * destruct (is_empty pid) eqn:Hem; intros [= <- <-];
          (split_and!; [done | |]).
        -- discriminate.
        -- intros st' body' [= <- <-] Hge. unfold is_success in Hst. lia.
        -- intros pid' [= <-]. exists st, ack. split_and!; try done.
           intros ->. discriminate.
        -- intros st' body' [= <- <-] Hge. unfold is_success in Hst. lia.
      * intros [= <- <-]. split_and!; [done | discriminate |].
        intros st' body' [= <- <-] Hge. unfold is_success in Hst. lia.
    + intros [= <- <-]. split_and!; [done | discriminate |].
      intros st' body' [= <- <-] Hge. unfold is_success in Hst. lia.
  - intros [= <- <-]. split_and!; [done | discriminate | done].
Qed.

Lemma send_workflow_to_comfy_outcomes_witness :
  send_workflow_to_comfy sample_env (JObj []) (lit "j1") world0
  = (Ret (lit "run-1"), log (EvComfyPost (lit "j1")) world0)
  /\ engine_accepts sample_env (JObj []) (lit "j1") (lit "run-1").
Proof.
  assert (Hrun : send_workflow_to_comfy sample_env (JObj []) (lit "j1") world0
                 = (Ret (lit "run-1"), log (EvComfyPost (lit "j1")) world0))
    by reflexivity.
  split; [exact Hrun |].
  exact (proj1 (proj2 (send_workflow_to_comfy_outcomes _ _ _ _ _ _ Hrun))
           (lit "run-1") eq_refl).
Defined.
